(** * sam3-app: segmentation post-processing pipeline

    A shallow embedding of the Python sources
      app/integrations/sam3/mask_utils.py
      app/integrations/sam3/visualizer.py
      app/integrations/sam3/inference.py
      app/routers/sam3.py
      app/config.py
    and the properties of the pipeline established over it.

    Conventions.
    - Python exceptions are values of [exn]; a fallible computation
      returns [result A].
    - Tensors are lists: a mask of shape [H, W] is a list of rows, a
      mask batch of shape [N, H, W] is a list of masks.
    - Python floats that only carry exact small integers or exact
      binary fractions (pixel sums, the tolerance 1.5, byte counts
      divided by 2^20) are modelled by [Z] and [Q].
    - OpenCV, Pillow, matplotlib, base64 and the HuggingFace model are
      external libraries: the code is embedded over their operations,
      taken as parameters of the Sections below. *)

From Stdlib Require Import String Ascii Bool ZArith QArith Qround Lia Lqa List.
Import ListNotations.
Local Open Scope Z_scope.

(** ** Exceptions and results *)

(** The messages of the [ValueError]s the code raises itself. *)
Inductive value_error : Type :=
| ImageSizeExceeded (content_len : Z) (limit_mb : Z)
| ImageDimensionExceeded (width height : Z) (limit : Z)
| BatchSizeExceeded (n : Z) (limit : Z)
| InvalidJson (field : string)
| LengthMismatch (n_images n_prompts : Z)
| OtherValueError (msg : string).

Inductive exn : Type :=
| ValueError (e : value_error)
| IndexError
| ZeroDivisionError
| LibraryError (origin : string).

Inductive result (A : Type) : Type :=
| Ok (a : A)
| Raise (e : exn).
Arguments Ok {A} a.
Arguments Raise {A} e.

Definition rbind {A B} (c : result A) (k : A -> result B) : result B :=
  match c with
  | Ok a => k a
  | Raise e => Raise e
  end.

Declare Scope result_scope.
Delimit Scope result_scope with result.
Notation "x <- c ;; k" := (rbind c (fun x => k))
  (at level 61, c at next level, right associativity) : result_scope.

(** ** mask_utils.py *)

Module MaskUtils.

Definition point : Type := (Z * Z)%type.
(** An OpenCV contour of shape (N, 1, 2), as its N points. *)
Definition contour : Type := list point.
(** A polygon of the result: a list of [x, y] pairs. *)
Definition polygon : Type := list point.
(** A mask tensor of shape [H, W]. *)
Definition mask : Type := list (list Z).
(** The uint8 image handed to OpenCV. *)
Definition image_u8 : Type := list (list Z).

(** [{"polygons": ..., "area": ...}] *)
Record mask_polygon : Type := MaskPolygon {
  polygons : list polygon;
  area : Z
}.

(** A mask is binary when every entry is 0 or 1. *)
Definition binary_row (row : list Z) : Prop :=
  Forall (fun v => v = 0 \/ v = 1) row.
Definition binary (m : mask) : Prop := Forall binary_row m.

(** Number of foreground pixels: entries equal to 1. *)
Definition count_row (row : list Z) : Z :=
  Z.of_nat (length (filter (fun v => v =? 1) row)).
Definition foreground_count (m : mask) : Z :=
  fold_right (fun row acc => count_row row + acc) 0 m.

(** [(mask_np * 255).astype(np.uint8)]: the product wraps to 8 bits. *)
Definition to_uint8 (m : mask) : image_u8 :=
  map (map (fun v => (v * 255) mod 256)) m.

(** [mask.sum().item()] *)
Definition tensor_sum (m : mask) : Z :=
  fold_right (fun row acc => fold_right Z.add 0 row + acc) 0 m.

(** [calculate_mask_area] *)
Definition calculate_mask_area (m : mask) : Z := tensor_sum m.

Section WithOpenCV.

(** The two OpenCV calls are taken as functions: what follows describes
    the runs in which they return.  A [cv2.error] they raise, as
    [approxPolyDP] does for a negative epsilon, would leave
    [mask_to_polygons] at that call. *)

(** [cv2.findContours(img, RETR_TREE, CHAIN_APPROX_SIMPLE)[0]] *)
Variable findContours : image_u8 -> list contour.
(** [cv2.approxPolyDP(contour, epsilon, closed=True)] *)
Variable approxPolyDP : contour -> Q -> contour.

(** [simplified.squeeze().tolist()] followed by the single-point fix:
    a (1,1,2) array squeezes to one pair [x, y], which the code wraps
    back into a one-element list; an empty array squeezes to [] and
    [polygon[0]] raises. *)
Definition squeeze_tolist (simplified : contour) : result polygon :=
  match simplified with
  | [] => Raise IndexError
  | _ => Ok simplified
  end.

(** The body of the loop of [mask_to_polygons] for one contour:
    [None] when the contour contributes no polygon. *)
Definition contour_to_polygon (c : contour) (simplify_tolerance : Q)
  : result (option polygon) :=
  if (length c <? 3)%nat then Ok None
  else
    let epsilon := simplify_tolerance in
    let simplified := approxPolyDP c epsilon in
    (poly <- squeeze_tolist simplified ;;
     if (3 <=? length poly)%nat then Ok (Some poly) else Ok None)%result.

(** The loop over the contours, appending to [polygons]. *)
Fixpoint polygons_of_contours (cs : list contour) (simplify_tolerance : Q)
  (acc : list polygon) : result (list polygon) :=
  match cs with
  | [] => Ok acc
  | c :: rest =>
      (r <- contour_to_polygon c simplify_tolerance ;;
       match r with
       | Some poly => polygons_of_contours rest simplify_tolerance (acc ++ [poly])
       | None => polygons_of_contours rest simplify_tolerance acc
       end)%result
  end.

(** [mask_to_polygons] *)
Definition mask_to_polygons (m : mask) (simplify_tolerance : Q)
  : result (list polygon) :=
  let mask_uint8 := to_uint8 m in
  let contours := findContours mask_uint8 in
  polygons_of_contours contours simplify_tolerance [].

(** [masks_to_polygon_data]: the loop over [range(masks.shape[0])]. *)
Fixpoint masks_to_polygon_data_loop (masks : list mask) (simplify_tolerance : Q)
  (polygon_data : list mask_polygon) : result (list mask_polygon) :=
  match masks with
  | [] => Ok polygon_data
  | m :: rest =>
      (ps <- mask_to_polygons m simplify_tolerance ;;
       let a := calculate_mask_area m in
       masks_to_polygon_data_loop rest simplify_tolerance
         (polygon_data ++ [MaskPolygon ps a]))%result
  end.

Definition masks_to_polygon_data (masks : list mask) (simplify_tolerance : Q)
  : result (list mask_polygon) :=
  masks_to_polygon_data_loop masks simplify_tolerance [].

End WithOpenCV.

(** The default [simplify_tolerance=1.5]. *)
Definition default_tolerance : Q := 3 # 2.

End MaskUtils.

(** ** The polygon simplifier

    [cv2.approxPolyDP] is a routine of OpenCV; its source is not part of
    the repository. *)

Module DouglasPeucker.
Import MaskUtils.

Definition point_eqb (a b : point) : bool :=
  (fst a =? fst b) && (snd a =? snd b).

(** Squared Euclidean distance of two points. *)
Definition sqdist (a b : point) : Z :=
  (fst b - fst a) * (fst b - fst a) + (snd b - snd a) * (snd b - snd a).

(** Twice the signed area of the triangle a, b, p. *)
Definition cross (a b p : point) : Z :=
  (fst b - fst a) * (snd p - snd a) - (snd b - snd a) * (fst p - fst a).

(** The squared distance of [p] from the chord [a]-[b] is the fraction
    [dev_num a b p / dev_den a b]; for a degenerate chord it is the
    squared distance from [a]. *)
Definition dev_num (a b p : point) : Z :=
  if point_eqb a b then sqdist a p else cross a b p * cross a b p.
Definition dev_den (a b : point) : Z :=
  if point_eqb a b then 1 else sqdist a b.

(** [num / den <= eps^2] with [eps] a distance: no distance is within a
    negative tolerance. *)
Definition within (eps : Q) (num den : Z) : bool :=
  Qle_bool 0 eps && Qle_bool (inject_Z num) (eps * eps * inject_Z den).

(** The first element of [l] maximising [f], with its position. *)
Fixpoint argmax_from (f : point -> Z) (l : list point) (i : nat)
  (best : nat * point * Z) : nat * point * Z :=
  match l with
  | [] => best
  | p :: rest =>
      if snd best <? f p then argmax_from f rest (S i) (i, p, f p)
      else argmax_from f rest (S i) best
  end.

Definition argmax (f : point -> Z) (l : list point) : option (nat * point * Z) :=
  match l with
  | [] => None
  | p :: rest => Some (argmax_from f rest 1%nat (0%nat, p, f p))
  end.

(** Ramer-Douglas-Peucker on the open chain [a], [mid], [b]: the kept
    vertices from [a] (included) to [b] (excluded).  [fuel] bounds the
    recursion depth; [length mid] is enough. *)
Fixpoint simplify_chain (fuel : nat) (eps : Q) (a : point) (mid : list point)
  (b : point) : list point :=
  match fuel with
  | O => [a]
  | S n =>
      match argmax (dev_num a b) mid with
      | None => [a]
      | Some (j, p, num) =>
          if within eps num (dev_den a b) then [a]
          else simplify_chain n eps a (firstn j mid) p
                 ++ simplify_chain n eps p (skipn (S j) mid) b
      end
  end.

(** Modelled from the spec: the simplifier [cv2.approxPolyDP(contour,
    epsilon, closed=True)], absent from the sources, as the standard
    Ramer-Douglas-Peucker reduction of a closed contour: every discarded
    point lies within [eps] of the simplified segment.  The closed curve
    is cut at its first vertex and at the vertex farthest from it; a
    contour that lies within [eps] of its first vertex collapses to
    that vertex. *)
Definition approxPolyDP (c : contour) (eps : Q) : contour :=
  match c with
  | [] => []
  | p0 :: rest =>
      match argmax (sqdist p0) rest with
      | None => [p0]
      | Some (j, pj, d2) =>
          if within eps d2 1 then [p0]
          else simplify_chain (length rest) eps p0 (firstn j rest) pj
                 ++ simplify_chain (length rest) eps pj (skipn (S j) rest) p0
      end
  end.

End DouglasPeucker.


(** ** The contour tracer

    [cv2.findContours] is a routine of OpenCV as well.  To run the
    pipeline on concrete masks it is instantiated by border following in
    the manner of Suzuki and Abe: a raster scan starts an outer border
    at a foreground pixel whose left neighbour is background and a hole
    border at a foreground pixel whose right neighbour is background;
    borders are followed with 8-connectivity and visited pixels are
    relabelled in the image.  Runs of collinear steps are compressed to
    their end points (CHAIN_APPROX_SIMPLE). *)

Module BorderFollowing.
Import MaskUtils.

(** Pixel access; everything outside the image is background. *)
Definition px (f : image_u8) (p : point) : Z :=
  if (fst p <? 0) || (snd p <? 0) then 0
  else nth (Z.to_nat (fst p)) (nth (Z.to_nat (snd p)) f []) 0.

Fixpoint set_nth {A} (n : nat) (v : A) (l : list A) : list A :=
  match l, n with
  | [], _ => []
  | _ :: t, O => v :: t
  | h :: t, S k => h :: set_nth k v t
  end.

Definition set_px (f : image_u8) (p : point) (v : Z) : image_u8 :=
  let y := Z.to_nat (snd p) in
  set_nth y (set_nth (Z.to_nat (fst p)) v (nth y f [])) f.

(** The 8 directions, counter-clockwise on the screen from east. *)
Definition delta (s : Z) : point :=
  match s mod 8 with
  | 0 => (1, 0)  | 1 => (1, -1) | 2 => (0, -1) | 3 => (-1, -1)
  | 4 => (-1, 0) | 5 => (-1, 1) | 6 => (0, 1)  | _ => (1, 1)
  end.

Definition step (p : point) (s : Z) : point :=
  (fst p + fst (delta s), snd p + snd (delta s)).

(** The first direction among [s + d], [s + 2d], ... ([n] of them)
    that leads to a non-zero pixel. *)
Fixpoint search (f : image_u8) (p : point) (s d : Z) (n : nat) : option Z :=
  match n with
  | O => None
  | S k =>
      let s' := (s + d) mod 8 in
      if px f (step p s') =? 0 then search f p s' d k else Some s'
  end.

Record walk : Type := Walk {
  img : image_u8;
  pts : list point
}.

(** Following one border from [p3], having arrived from direction [s]. *)
Fixpoint follow (fuel : nat) (f : image_u8) (nbd : Z) (p0 p1 p3 : point)
  (s prev_s : Z) (acc : list point) : walk :=
  match fuel with
  | O => Walk f acc
  | S n =>
      match search f p3 s 1 8 with
      | None => Walk f acc
      | Some s' =>
          let f' :=
            if (negb (s' =? 0)) && (s' - 1 <? s) then set_px f p3 (- nbd)
            else if px f p3 =? 1 then set_px f p3 nbd
            else f in
          let acc' := if s' =? prev_s then acc else acc ++ [p3] in
          let p4 := step p3 s' in
          if DouglasPeucker.point_eqb p4 p0 && DouglasPeucker.point_eqb p3 p1
          then Walk f' acc'
          else follow n f' nbd p0 p1 p4 ((s' + 4) mod 8) s' acc'
      end
  end.

Definition pixel_count (f : image_u8) : nat :=
  fold_right (fun row n => (length row + n)%nat) 0%nat f.

(** One border, started at [p0] looking from direction [s0]. *)
Definition trace (f : image_u8) (nbd : Z) (p0 : point) (s0 : Z) : walk :=
  match search f p0 s0 (-1) 7 with
  | None => Walk (set_px f p0 (- nbd)) [p0]
  | Some s1 =>
      follow (8 * pixel_count f + 8) f nbd p0 (step p0 s1) p0 s1
        ((s1 + 4) mod 8) []
  end.

Record scan_state : Type := ScanState {
  cur : image_u8;
  next_label : Z;
  found : list contour
}.

Definition visit (st : scan_state) (p : point) : scan_state :=
  let f := cur st in
  let v := px f p in
  if (v =? 1) && (px f (step p 4) =? 0) then
    let w := trace f (next_label st) p 4 in
    ScanState (img w) (next_label st + 1) (found st ++ [pts w])
  else if (1 <=? v) && (px f (step p 0) =? 0) then
    let w := trace f (next_label st) p 0 in
    ScanState (img w) (next_label st + 1) (found st ++ [pts w])
  else st.

Definition row_points (y : nat) (row : list Z) : list point :=
  map (fun x => (Z.of_nat x, Z.of_nat y)) (seq 0 (length row)).

Fixpoint raster (f : image_u8) (y : nat) : list point :=
  match f with
  | [] => []
  | row :: rest => row_points y row ++ raster rest (S y)
  end.

Definition binarize (f : image_u8) : image_u8 :=
  map (map (fun v => if v =? 0 then 0 else 1)) f.

Definition findContours (f : image_u8) : list contour :=
  let b := binarize f in
  found (fold_left visit (raster b 0) (ScanState b 2 [])).

End BorderFollowing.


(** ** config.py *)

Module Config.

Record Settings : Type := {
  SAM3_DEFAULT_THRESHOLD : Q;
  SAM3_DEFAULT_MASK_THRESHOLD : Q;
  MAX_IMAGE_SIZE_MB : Z;
  MAX_BATCH_SIZE : Z;
  MAX_IMAGE_DIMENSION : Z;
  VISUALIZATION_FORMAT : string;
  VISUALIZATION_QUALITY : Z
}.

(** The defaults of the class [Settings]. *)
Definition settings : Settings := {|
  SAM3_DEFAULT_THRESHOLD := 1 # 2;
  SAM3_DEFAULT_MASK_THRESHOLD := 1 # 2;
  MAX_IMAGE_SIZE_MB := 10;
  MAX_BATCH_SIZE := 10;
  MAX_IMAGE_DIMENSION := 4096;
  VISUALIZATION_FORMAT := "PNG";
  VISUALIZATION_QUALITY := 95
|}.

End Config.

(** ** visualizer.py *)

Module Visualizer.
Import MaskUtils.

Definition bytes : Type := list Byte.byte.

(** A Pillow image: its mode, its size (width, height) and its raster. *)
Record image : Type := Image {
  mode : string;
  size : Z * Z;
  raster : list Z
}.

Definition color : Type := (Z * Z * Z)%type.
Definition rgba : Type := (Z * Z * Z * Z)%type.
Definition with_alpha (c : color) (a : Z) : rgba :=
  let '(r, g, b) := c in (r, g, b, a).

(** The operations of Pillow and matplotlib the visualizer calls. *)
Class Pillow : Type := {
  (** [image.convert(mode)]; it loads the pixels first, which raises
      for a file that cannot be decoded, and raises for a conversion
      that is not supported *)
  convert : image -> string -> result image;
  (** [Image.fromarray(array)] *)
  fromarray : image_u8 -> result image;
  (** [Image.new("RGBA", size, color)] *)
  new_rgba : Z * Z -> rgba -> result image;
  (** [image.point(f)] *)
  point_map : image -> (Z -> Z) -> result image;
  (** [overlay.putalpha(alpha_channel)], returning the updated overlay *)
  putalpha : image -> image -> result image;
  (** [Image.alpha_composite(im1, im2)] *)
  alpha_composite : image -> image -> result image;
  (** [ImageDraw.Draw(im).rectangle(xy, outline=..., width=...)],
      returning the updated image *)
  draw_rectangle : image -> list Q -> rgba -> Z -> result image;
  (** [ImageDraw.Draw(im).text(xy, text, fill=...)] *)
  draw_text : image -> Q * Q -> string -> rgba -> result image;
  (** [image.save(buffer, format=..., quality=...)] and the buffer read back *)
  save : image -> string -> option Z -> result bytes;
  (** [matplotlib.colormaps.get_cmap(name).resampled(n)(i)[:3]] *)
  cmap : string -> nat -> nat -> Q * Q * Q;
  (** the format spec [:.2f] *)
  format_2f : Q -> string
}.

(** Python's [int(x)]: truncation towards zero. *)
Definition py_int (x : Q) : Z := Z.quot (Qnum x) (Zpos (Qden x)).

Definition upper_ascii (c : ascii) : ascii :=
  let n := nat_of_ascii c in
  if ((97 <=? n) && (n <=? 122))%nat then ascii_of_nat (n - 32) else c.

(** [str.upper()] on ASCII text. *)
Fixpoint upper (s : string) : string :=
  match s with
  | EmptyString => EmptyString
  | String c rest => String (upper_ascii c) (upper rest)
  end.

(** Python's [zip]. *)
Definition zip {A B} (l : list A) (l' : list B) : list (A * B) := combine l l'.

(** Python's [enumerate]. *)
Definition enumerate {A} (l : list A) : list (nat * A) :=
  combine (seq 0 (length l)) l.

Section WithPillow.
Context {pil : Pillow}.

(** [colors]: one colour per object from the resampled colour map. *)
Definition colors_of (colormap : string) (n_objects : nat) : list color :=
  map (fun i => let '(r, g, b) := cmap colormap n_objects i in
                (py_int (r * 255), py_int (g * 255), py_int (b * 255)))
      (seq 0 n_objects).

(** The body of the mask loop. *)
Definition draw_one_mask (alpha : Q) (image_rgba : image) (m : mask) (c : color)
  : result image :=
  (let mask_uint8 := to_uint8 m in
   mask_image <- fromarray mask_uint8 ;;
   overlay <- new_rgba (size image_rgba) (with_alpha c 0) ;;
   alpha_channel <- point_map mask_image (fun v => py_int (inject_Z v * alpha)) ;;
   overlay' <- putalpha overlay alpha_channel ;;
   alpha_composite image_rgba overlay')%result.

Fixpoint draw_mask_loop (alpha : Q) (image_rgba : image)
  (items : list (mask * color)) : result image :=
  match items with
  | [] => Ok image_rgba
  | (m, c) :: rest =>
      (image_rgba' <- draw_one_mask alpha image_rgba m c ;;
       draw_mask_loop alpha image_rgba' rest)%result
  end.

(** The body of the box loop. *)
Definition draw_one_box (scores : option (list Q)) (image_rgba : image)
  (idx : nat) (box : list Q) (c : color) : result image :=
  match box with
  | [x1; y1; x2; y2] =>
      (im <- draw_rectangle image_rgba [x1; y1; x2; y2] (with_alpha c 255) 3 ;;
       match scores with
       | Some sc =>
           match nth_error sc idx with
           | Some v =>
               let score_text := format_2f v in
               draw_text im (x1, (y1 - 15)%Q) score_text (with_alpha c 255)
           | None => Raise IndexError
           end
       | None => Ok im
       end)%result
  | _ => Raise (ValueError (OtherValueError "unpack"))
  end.

Fixpoint draw_box_loop (scores : option (list Q)) (image_rgba : image)
  (items : list (nat * (list Q * color))) : result image :=
  match items with
  | [] => Ok image_rgba
  | (idx, (box, c)) :: rest =>
      (image_rgba' <- draw_one_box scores image_rgba idx box c ;;
       draw_box_loop scores image_rgba' rest)%result
  end.

(** [Sam3Visualizer.draw_masks_and_boxes] *)
Definition draw_masks_and_boxes (im : image) (masks : list mask)
  (boxes : list (list Q)) (scores : option (list Q)) (alpha : Q)
  (colormap : string) (draw_boxes draw_masks : bool) : result image :=
  (image_rgba <- convert im "RGBA" ;;
   let n_objects := length masks in
   if (n_objects =? 0)%nat then Ok im
   else
    let colors := colors_of colormap n_objects in
    (image_rgba1 <-
       (if draw_masks then draw_mask_loop alpha image_rgba (zip masks colors)
        else Ok image_rgba) ;;
     image_rgba2 <-
       (if draw_boxes
        then draw_box_loop scores image_rgba1 (enumerate (zip boxes colors))
        else Ok image_rgba1) ;;
     result_image <- convert image_rgba2 "RGB" ;;
     Ok result_image))%result.

(** [Sam3Visualizer.encode_image_to_bytes] *)
Definition encode_image_to_bytes (im : image) (format : string) (quality : Z)
  : result bytes :=
  if String.eqb (upper format) "JPEG" then save im "JPEG" (Some quality)
  else save im "PNG" None.

(** [Sam3Visualizer.create_visualization], with [alpha], [draw_boxes]
    and [draw_masks] as the callers leave them. *)
Definition create_visualization (st : Config.Settings) (im : image)
  (masks : list mask) (boxes : list (list Q)) (scores : option (list Q))
  (alpha : Q) (draw_boxes draw_masks : bool) : result bytes :=
  (viz_image <- draw_masks_and_boxes im masks boxes scores alpha "rainbow"
                  draw_boxes draw_masks ;;
   encode_image_to_bytes viz_image (Config.VISUALIZATION_FORMAT st)
     (Config.VISUALIZATION_QUALITY st))%result.

End WithPillow.

(** The default [alpha=0.5]. *)
Definition default_alpha : Q := 1 # 2.

End Visualizer.


(** ** inference.py *)

Module Inference.
Import MaskUtils Visualizer.

(** An uploaded file, as the bytes [await file.read()] returns. *)
Record UploadFile : Type := { content : bytes }.

(** One entry of [post_process_instance_segmentation(...)]: the dict
    with keys "scores", "boxes" and "masks". *)
Record segmentation : Type := Segmentation {
  seg_scores : list Q;
  seg_boxes : list (list Q);
  seg_masks : list mask
}.

(** The three ways the code calls [self.processor]. *)
Inductive adapter_request : Type :=
| TextRequest (im : image) (text : string)
| BoxRequest (im : image) (input_boxes : list (list Z)) (input_boxes_labels : list Z)
| BatchRequest (ims : list image) (texts : list (option string)).

(** OpenCV, as used by [mask_utils]. *)
Class OpenCV : Type := {
  findContours : image_u8 -> list contour;
  approxPolyDP : contour -> Q -> contour
}.

(** The model adapter and the rest of the runtime. *)
Class Runtime : Type := {
  inputs : Type;
  outputs : Type;
  (** [Image.open(io.BytesIO(content))] *)
  image_open : bytes -> result image;
  (** [self.processor(...).to(self.device)] *)
  processor : adapter_request -> result inputs;
  (** [self.model( **inputs )] *)
  model : inputs -> result outputs;
  (** [self.processor.post_process_instance_segmentation(outputs,
      threshold, mask_threshold, target_sizes)] *)
  post_process_instance_segmentation :
    outputs -> Q -> Q -> inputs -> result (list segmentation);
  (** [base64.b64encode(b).decode("utf-8")] *)
  b64encode : bytes -> string;
  (** the successive readings of [time.perf_counter()], by their
      number; how long the steps between two readings take is not
      represented *)
  perf_counter : nat -> Q;
  (** Python's [round(x, 2)] of a float *)
  round2 : Q -> Q
}.

(** What a request leaves behind: the calls made to the model adapter,
    in order, and the number of clock readings taken. *)
Inductive adapter_event : Type :=
| ProcessorCalled (req : adapter_request)
| ModelCalled
| PostProcessCalled.

Record world : Type := World {
  adapter_log : list adapter_event;
  clock_reads : nat
}.

Definition initial_world : world := World [] 0.

(** Computations that may raise and that act on the world. *)
Definition io (A : Type) : Type := world -> result A * world.

Definition ret {A} (a : A) : io A := fun w => (Ok a, w).
Definition raise {A} (e : exn) : io A := fun w => (Raise e, w).
Definition bind {A B} (c : io A) (k : A -> io B) : io B :=
  fun w => match c w with
           | (Ok a, w') => k a w'
           | (Raise e, w') => (Raise e, w')
           end.
Definition lift {A} (r : result A) : io A := fun w => (r, w).
Definition logged {A} (ev : adapter_event) (r : result A) : io A :=
  fun w => (r, World (adapter_log w ++ [ev]) (clock_reads w)).

Declare Scope io_scope.
Delimit Scope io_scope with io.
Notation "x <- c ;; k" := (bind c (fun x => k))
  (at level 61, c at next level, right associativity) : io_scope.

(** Python's [x / n] for a float and an int. *)
Definition py_div (x : Q) (n : Z) : result Q :=
  if n =? 0 then Raise ZeroDivisionError else Ok (x / inject_Z n)%Q.

(** [l[0]] *)
Definition index0 {A} (l : list A) : result A :=
  match l with
  | [] => Raise IndexError
  | a :: _ => Ok a
  end.

Definition len {A} (l : list A) : Z := Z.of_nat (length l).

(** The dict returned by [inference_text] and [inference_bbox]. *)
Record inference_response : Type := InferenceResponse {
  num_objects : Z;
  boxes : list (list Q);
  scores : list Q;
  masks : list mask_polygon;
  processing_time_ms : Q;
  visualization_base64 : option string
}.

(** One entry of ["results"] of the batch response. *)
Record batch_item : Type := BatchItem {
  image_index : Z;
  item_num_objects : Z;
  item_boxes : list (list Q);
  item_scores : list Q;
  item_masks : list mask_polygon;
  item_visualization_base64 : option string
}.

(** The dict returned by [inference_batch]. *)
Record batch_response : Type := BatchResponse {
  total_images : Z;
  results : list batch_item;
  total_processing_time_ms : Q;
  average_time_per_image_ms : Q
}.

Section SAM3Inference.
Context {cv : OpenCV} {pil : Pillow} {rt : Runtime}.
Variable settings : Config.Settings.

Definition time_perf_counter : io Q :=
  fun w => (Ok (perf_counter (clock_reads w)),
            World (adapter_log w) (S (clock_reads w))).

Definition call_processor (req : adapter_request) : io inputs :=
  logged (ProcessorCalled req) (processor req).
Definition call_model (i : inputs) : io outputs :=
  logged ModelCalled (model i).
Definition call_post_process (o : outputs) (threshold mask_threshold : Q)
  (i : inputs) : io (list segmentation) :=
  logged PostProcessCalled
    (post_process_instance_segmentation o threshold mask_threshold i).

(** [SAM3Inference._load_image_from_upload] *)
Definition _load_image_from_upload (file : UploadFile) : result image :=
  let content := content file in
  let size_mb := (inject_Z (len content) / inject_Z (1024 * 1024))%Q in
  if negb (Qle_bool size_mb (inject_Z (Config.MAX_IMAGE_SIZE_MB settings)))
  then Raise (ValueError (ImageSizeExceeded (len content)
                            (Config.MAX_IMAGE_SIZE_MB settings)))
  else
    (im <- image_open content ;;
     im <- (if negb (String.eqb (mode im) "RGB") then convert im "RGB" else Ok im) ;;
     let '(width, height) := size im in
     if (Config.MAX_IMAGE_DIMENSION settings <? width)
        || (Config.MAX_IMAGE_DIMENSION settings <? height)
     then Raise (ValueError (ImageDimensionExceeded width height
                               (Config.MAX_IMAGE_DIMENSION settings)))
     else Ok im)%result.

(** The code shared, textually, by [inference_text] and
    [inference_bbox] once the model has run: lines 153-186 and
    244-277. *)
Definition respond (start_time : Q) (im : image) (res : segmentation)
  (return_visualization : bool) : io inference_response :=
  (let num_objects := len (seg_scores res) in
   let boxes_list := seg_boxes res in
   let scores_list := seg_scores res in
   masks_polygon <- lift (masks_to_polygon_data findContours approxPolyDP
                            (seg_masks res) default_tolerance) ;;
   now <- time_perf_counter ;;
   let processing_time_ms := ((now - start_time) * 1000)%Q in
   let response := InferenceResponse num_objects boxes_list scores_list
                     masks_polygon (round2 processing_time_ms) None in
   if return_visualization && (0 <? num_objects) then
     viz_bytes <- lift (create_visualization settings im (seg_masks res)
                          (seg_boxes res) (Some (seg_scores res))
                          default_alpha true true) ;;
     ret (InferenceResponse num_objects boxes_list scores_list masks_polygon
            (round2 processing_time_ms) (Some (b64encode viz_bytes)))
   else ret response)%io.

(** [SAM3Inference.inference_text] *)
Definition inference_text (image_file : UploadFile) (text_prompt : string)
  (threshold mask_threshold : Q) (return_visualization : bool)
  : io inference_response :=
  (start_time <- time_perf_counter ;;
   im <- lift (_load_image_from_upload image_file) ;;
   ins <- call_processor (TextRequest im text_prompt) ;;
   outs <- call_model ins ;;
   all <- call_post_process outs threshold mask_threshold ins ;;
   res <- lift (index0 all) ;;
   respond start_time im res return_visualization)%io.

(** [SAM3Inference.inference_bbox] *)
Definition inference_bbox (image_file : UploadFile)
  (bounding_boxes : list (list Z)) (box_labels : list Z)
  (threshold mask_threshold : Q) (return_visualization : bool)
  : io inference_response :=
  (start_time <- time_perf_counter ;;
   im <- lift (_load_image_from_upload image_file) ;;
   ins <- call_processor (BoxRequest im bounding_boxes box_labels) ;;
   outs <- call_model ins ;;
   all <- call_post_process outs threshold mask_threshold ins ;;
   res <- lift (index0 all) ;;
   respond start_time im res return_visualization)%io.

(** The loop "Load all images" of [inference_batch]. *)
Fixpoint load_images (image_files : list UploadFile) (images : list image)
  : result (list image) :=
  match image_files with
  | [] => Ok images
  | file :: rest =>
      (im <- _load_image_from_upload file ;;
       load_images rest (images ++ [im]))%result
  end.

(** The body of the loop "Process each result" of [inference_batch]. *)
Definition batch_item_of (return_visualizations : bool) (idx : nat)
  (im : image) (res : segmentation) : result batch_item :=
  (let num_objects := len (seg_scores res) in
   let boxes_list := seg_boxes res in
   let scores_list := seg_scores res in
   masks_polygon <- masks_to_polygon_data findContours approxPolyDP
                      (seg_masks res) default_tolerance ;;
   let result_item := BatchItem (Z.of_nat idx) num_objects boxes_list
                        scores_list masks_polygon None in
   if return_visualizations && (0 <? num_objects) then
     viz_bytes <- create_visualization settings im (seg_masks res)
                    (seg_boxes res) (Some (seg_scores res))
                    default_alpha true true ;;
     Ok (BatchItem (Z.of_nat idx) num_objects boxes_list scores_list
           masks_polygon (Some (b64encode viz_bytes)))
   else Ok result_item)%result.

Fixpoint batch_loop (return_visualizations : bool)
  (items : list (nat * (image * segmentation))) (batch_results : list batch_item)
  : result (list batch_item) :=
  match items with
  | [] => Ok batch_results
  | (idx, (im, res)) :: rest =>
      (result_item <- batch_item_of return_visualizations idx im res ;;
       batch_loop return_visualizations rest (batch_results ++ [result_item]))%result
  end.

(** [SAM3Inference.inference_batch] *)
Definition inference_batch (image_files : list UploadFile)
  (text_prompts : list (option string)) (threshold mask_threshold : Q)
  (return_visualizations : bool) : io batch_response :=
  (start_time <- time_perf_counter ;;
   if Config.MAX_BATCH_SIZE settings <? len image_files
   then raise (ValueError (BatchSizeExceeded (len image_files)
                             (Config.MAX_BATCH_SIZE settings)))
   else
     images <- lift (load_images image_files []) ;;
     ins <- call_processor (BatchRequest images text_prompts) ;;
     outs <- call_model ins ;;
     all <- call_post_process outs threshold mask_threshold ins ;;
     batch_results <- lift (batch_loop return_visualizations
                              (enumerate (zip images all)) []) ;;
     now <- time_perf_counter ;;
     let total_time_ms := ((now - start_time) * 1000)%Q in
     average <- lift (py_div total_time_ms (len image_files)) ;;
     ret (BatchResponse (len image_files) batch_results
            (round2 total_time_ms) (round2 average)))%io.

End SAM3Inference.

End Inference.


(** ** routers/sam3.py *)

Module Router.
Import MaskUtils Visualizer Inference.

(** The [detail] of an [HTTPException]. *)
Inductive detail : Type :=
| DetailStr (e : value_error)   (** [str(e)] of a [ValueError] *)
| DetailText (s : string).

(** The f-string messages of the successful responses. *)
Inductive message : Type :=
| FoundWithText (n : Z)
| FoundWithBoxes (n : Z)
| ProcessedBatch (n : Z).

(** What an endpoint produces: a [JsonResponse] or a raised
    [HTTPException]. *)
Inductive http (A : Type) : Type :=
| JsonResponse (data : A) (msg : message) (status_code : Z)
| HTTPException (status_code : Z) (d : detail).
Arguments JsonResponse {A} data msg status_code.
Arguments HTTPException {A} status_code d.

Definition HTTP_200_OK : Z := 200.
Definition HTTP_400_BAD_REQUEST : Z := 400.
Definition HTTP_500_INTERNAL_SERVER_ERROR : Z := 500.

(** [json.loads] on the two form fields that carry JSON; [None] is a
    [JSONDecodeError]. *)
Class Json : Type := {
  json_loads_boxes : string -> option (list (list Z));
  json_loads_prompts : string -> option (list (option string))
}.

(** The two [except] clauses every endpoint ends with. *)
Definition handlers {A} (failed : string) (c : io (A * message))
  : world -> http A * world :=
  fun w => match c w with
           | (Ok (data, msg), w') => (JsonResponse data msg HTTP_200_OK, w')
           | (Raise (ValueError e), w') =>
               (HTTPException HTTP_400_BAD_REQUEST (DetailStr e), w')
           | (Raise _, w') =>
               (HTTPException HTTP_500_INTERNAL_SERVER_ERROR (DetailText failed), w')
           end.

(** [b[i]] *)
Definition item (b : list Z) (i : nat) : result Z :=
  match nth_error b i with
  | Some v => Ok v
  | None => Raise IndexError
  end.

Fixpoint extract_boxes (boxes_data : list (list Z)) : result (list (list Z)) :=
  match boxes_data with
  | [] => Ok []
  | b :: rest =>
      (b0 <- item b 0 ;; b1 <- item b 1 ;; b2 <- item b 2 ;; b3 <- item b 3 ;;
       tl <- extract_boxes rest ;;
       Ok ([b0; b1; b2; b3] :: tl))%result
  end.

Definition extract_labels (boxes_data : list (list Z)) : list Z :=
  map (fun b => if (4 <? length b)%nat then nth 4 b 1 else 1) boxes_data.

Section Endpoints.
Context {cv : OpenCV} {pil : Pillow} {rt : Runtime} {js : Json}.
Variable settings : Config.Settings.

(** endpoint [inference_text] *)
Definition inference_text (image : UploadFile) (text_prompt : string)
  (threshold mask_threshold : Q) (return_visualization : bool)
  : world -> http inference_response * world :=
  handlers "Inference failed"
    (result <- Inference.inference_text settings image text_prompt threshold
                 mask_threshold return_visualization ;;
     ret (result, FoundWithText (num_objects result)))%io.

(** endpoint [inference_bbox] *)
Definition inference_bbox (image : UploadFile) (bounding_boxes : string)
  (threshold mask_threshold : Q) (return_visualization : bool)
  : world -> http inference_response * world :=
  handlers "Inference failed"
    (boxes_data <- match json_loads_boxes bounding_boxes with
                   | Some d => ret d
                   | None => raise (ValueError (InvalidJson "bounding_boxes"))
                   end ;;
     boxes <- lift (extract_boxes boxes_data) ;;
     let labels := extract_labels boxes_data in
     result <- Inference.inference_bbox settings image boxes labels threshold
                 mask_threshold return_visualization ;;
     ret (result, FoundWithBoxes (num_objects result)))%io.

(** endpoint [inference_batch] *)
Definition inference_batch (images : list UploadFile) (text_prompts : string)
  (threshold mask_threshold : Q) (return_visualizations : bool)
  : world -> http batch_response * world :=
  handlers "Batch inference failed"
    (prompts_list <- match json_loads_prompts text_prompts with
                     | Some d => ret d
                     | None => raise (ValueError (InvalidJson "text_prompts"))
                     end ;;
     if negb (len images =? len prompts_list)
     then raise (ValueError (LengthMismatch (len images) (len prompts_list)))
     else
       result <- Inference.inference_batch settings images prompts_list threshold
                   mask_threshold return_visualizations ;;
       ret (result, ProcessedBatch (total_images result)))%io.

End Endpoints.

End Router.


(** ** Executable stand-ins for the external libraries

    To run the pipeline on concrete requests the interfaces above are
    instantiated: OpenCV by the tracer and the simplifier above, Pillow
    by a single-channel raster with a 4-byte header codec, the model by
    a thresholding "segmenter".  The theorems below are stated for
    arbitrary instances; these ones serve the examples. *)

Module Bench.
Import MaskUtils Visualizer Inference Router.

#[export] Instance opencv : OpenCV := {|
  findContours := BorderFollowing.findContours;
  approxPolyDP := DouglasPeucker.approxPolyDP
|}.

Definition byte_of_Z (z : Z) : Byte.byte :=
  match Byte.of_N (Z.to_N (z mod 256)) with
  | Some b => b
  | None => Byte.x00
  end.
Definition Z_of_byte (b : Byte.byte) : Z := Z.of_N (Byte.to_N b).
Definition bytes_of (l : list Z) : bytes := map byte_of_Z l.

Definition same_size (a b : image) : bool :=
  (fst (size a) =? fst (size b)) && (snd (size a) =? snd (size b)).

Definition blend (base over alpha : Z) : Z :=
  (base * (255 - alpha) + over * alpha) / 255.

Fixpoint blend_rasters (base alpha : list Z) (over : Z) : list Z :=
  match base, alpha with
  | b :: bs, a :: al => blend b over a :: blend_rasters bs al over
  | _, _ => base
  end.

(** The encoder: width and height on two bytes each, then the raster. *)
Definition encode_raster (im : image) : bytes :=
  bytes_of [fst (size im) / 256; fst (size im); snd (size im) / 256; snd (size im)]
    ++ bytes_of (raster im).

(** The decoder; fewer than four bytes is not an image. *)
Definition decode_raster (content : bytes) : result image :=
  match content with
  | w1 :: w0 :: h1 :: h0 :: data =>
      Ok (Image "L" (Z_of_byte w1 * 256 + Z_of_byte w0,
                     Z_of_byte h1 * 256 + Z_of_byte h0)
            (map Z_of_byte data))
  | _ => Raise (LibraryError "PIL.UnidentifiedImageError")
  end.

#[export] Instance pillow : Pillow := {|
  convert im m := Ok (Image m (size im) (raster im));
  fromarray arr :=
    Ok (Image "L" (Z.of_nat (length (hd [] arr)), Z.of_nat (length arr)) (concat arr));
  new_rgba sz c := let '(r, _, _, _) := c in
    Ok (Image "RGBA" sz [r]);
  point_map im f := Ok (Image (mode im) (size im) (map f (raster im)));
  putalpha overlay alpha_channel :=
    if same_size overlay alpha_channel
    then Ok (Image "RGBA" (size overlay) (hd 0 (raster overlay) :: raster alpha_channel))
    else Raise (ValueError (OtherValueError "illegal image mode"));
  alpha_composite im1 im2 :=
    if same_size im1 im2
    then Ok (Image "RGBA" (size im1)
               (blend_rasters (raster im1) (tl (raster im2)) (hd 0 (raster im2))))
    else Raise (ValueError (OtherValueError "images do not match"));
  draw_rectangle im xy outline width :=
    match xy with
    | [x1; y1; x2; y2] =>
        if Qle_bool x1 x2 && Qle_bool y1 y2 then Ok im
        else Raise (ValueError (OtherValueError "x1 must be greater than or equal to x0"))
    | _ => Raise (LibraryError "TypeError")
    end;
  draw_text im xy text fill := Ok im;
  save im format quality := Ok (encode_raster im);
  cmap name n i := (inject_Z (Z.of_nat i) / inject_Z (Z.of_nat (Nat.max 1 (n - 1))), 0, 1)%Q;
  format_2f q := "0.90"%string
|}.

(** Pillow with an encoder that fails. *)
Definition pillow_encoder_down : Pillow := {|
  convert := @convert pillow;
  fromarray := @fromarray pillow;
  new_rgba := @new_rgba pillow;
  point_map := @point_map pillow;
  putalpha := @putalpha pillow;
  alpha_composite := @alpha_composite pillow;
  draw_rectangle := @draw_rectangle pillow;
  draw_text := @draw_text pillow;
  save im format quality := Raise (LibraryError "OSError: encoder error");
  cmap := @cmap pillow;
  format_2f := @format_2f pillow
|}.

(** Pillow with an encoder that, like Pillow's, does not write an
    image with an alpha channel as JPEG. *)
Definition pillow_strict : Pillow := {|
  convert := @convert pillow;
  fromarray := @fromarray pillow;
  new_rgba := @new_rgba pillow;
  point_map := @point_map pillow;
  putalpha := @putalpha pillow;
  alpha_composite := @alpha_composite pillow;
  draw_rectangle := @draw_rectangle pillow;
  draw_text := @draw_text pillow;
  save im format quality :=
    if String.eqb format "JPEG" && String.eqb (mode im) "RGBA"
    then Raise (LibraryError "OSError: cannot write mode RGBA as JPEG")
    else Ok (encode_raster im);
  cmap := @cmap pillow;
  format_2f := @format_2f pillow
|}.

(** The default settings with JPEG as visualization format. *)
Definition settings_jpeg : Config.Settings := {|
  Config.SAM3_DEFAULT_THRESHOLD := 1 # 2;
  Config.SAM3_DEFAULT_MASK_THRESHOLD := 1 # 2;
  Config.MAX_IMAGE_SIZE_MB := 10;
  Config.MAX_BATCH_SIZE := 10;
  Config.MAX_IMAGE_DIMENSION := 4096;
  Config.VISUALIZATION_FORMAT := "JPEG";
  Config.VISUALIZATION_QUALITY := 95
|}.

(** Rows of width [w] of a raster. *)
Fixpoint rows (n : nat) (w : nat) (data : list Z) : list (list Z) :=
  match n with
  | O => []
  | S k => firstn w data :: rows k w (skipn w data)
  end.

(** The stand-in segmenter: the pixels brighter than the mask threshold
    form the one object of an image; an image without such a pixel has
    no object. *)
Definition segment (mask_threshold : Q) (im : image) : segmentation :=
  let '(w, h) := size im in
  let m := rows (Z.to_nat h) (Z.to_nat w)
             (map (fun v => if Qle_bool (inject_Z v) (mask_threshold * 255) then 0 else 1)
                  (raster im)) in
  if tensor_sum m =? 0 then Segmentation [] [] []
  else Segmentation [9 # 10] [[0; 0; inject_Z w - 1; inject_Z h - 1]%Q] [m].

Definition request_images (req : adapter_request) : list image :=
  match req with
  | TextRequest im _ => [im]
  | BoxRequest im _ _ => [im]
  | BatchRequest ims _ => ims
  end.

(** RFC 4648 base64. *)
Definition b64_alphabet : string :=
  "ABCDEFGHIJKLMNOPQRSTUVWXYZabcdefghijklmnopqrstuvwxyz0123456789+/".

Definition b64_char (n : Z) : ascii :=
  match String.get (Z.to_nat n) b64_alphabet with
  | Some c => c
  | None => "="%char
  end.

Fixpoint b64_groups (fuel : nat) (l : list Z) : string :=
  match fuel with
  | O => EmptyString
  | S k =>
      match l with
      | [] => EmptyString
      | [a] =>
          String (b64_char (a / 4)) (String (b64_char (a mod 4 * 16)) "==")
      | [a; b] =>
          String (b64_char (a / 4))
            (String (b64_char (a mod 4 * 16 + b / 16))
               (String (b64_char (b mod 16 * 4)) "="))
      | a :: b :: c :: rest =>
          String (b64_char (a / 4))
            (String (b64_char (a mod 4 * 16 + b / 16))
               (String (b64_char (b mod 16 * 4 + c / 64))
                  (String (b64_char (c mod 64)) (b64_groups k rest))))
      end
  end.

(** Rounding to two decimals, ties to even, on exact fractions. *)
Definition round_half_even (x : Q) : Q :=
  let t := (x * 100)%Q in
  let lo := Qfloor t in
  let twice_frac := ((t - inject_Z lo) * 2)%Q in
  let n := if Qle_bool 1 twice_frac
           then (if Qle_bool twice_frac 1 then (if Z.even lo then lo else lo + 1)
                 else lo + 1)
           else lo in
  (inject_Z n / 100)%Q.

#[export] Instance runtime : Runtime := {|
  inputs := adapter_request;
  outputs := list image;
  image_open := decode_raster;
  processor req := Ok req;
  model ins := Ok (request_images ins);
  post_process_instance_segmentation outs threshold mask_threshold ins :=
    Ok (map (segment mask_threshold) outs);
  b64encode b := b64_groups (S (length b)) (map Z_of_byte b);
  perf_counter n := (inject_Z (Z.of_nat n) / 4)%Q;
  round2 := round_half_even
|}.

(** The same runtime with a model call that raises. *)
Definition runtime_model_down : Runtime := {|
  inputs := adapter_request;
  outputs := list image;
  image_open := decode_raster;
  processor req := Ok req;
  model ins := Raise (LibraryError "RuntimeError: CUDA out of memory");
  post_process_instance_segmentation outs threshold mask_threshold ins :=
    Ok (map (segment mask_threshold) outs);
  b64encode := @b64encode runtime;
  perf_counter := @perf_counter runtime;
  round2 := @round2 runtime
|}.

(** The same runtime with a processor that refuses an empty batch. *)
Definition runtime_rejects_empty : Runtime := {|
  inputs := adapter_request;
  outputs := list image;
  image_open := decode_raster;
  processor req :=
    match request_images req with
    | [] => Raise (ValueError (OtherValueError "images must not be empty"))
    | _ => Ok req
    end;
  model ins := Ok (request_images ins);
  post_process_instance_segmentation outs threshold mask_threshold ins :=
    Ok (map (segment mask_threshold) outs);
  b64encode := @b64encode runtime;
  perf_counter := @perf_counter runtime;
  round2 := @round2 runtime
|}.

(** A reader for the two JSON shapes of the form fields, without
    escapes or whitespace: [["a",null]] and [[1,2,3,4,1]]. *)
Fixpoint split_on (sep : ascii) (s : string) (cur : string) : list string :=
  match s with
  | EmptyString => [cur]
  | String c rest =>
      if Ascii.eqb c sep then cur :: split_on sep rest EmptyString
      else split_on sep rest (cur ++ String c EmptyString)%string
  end.

Definition strip_brackets (s : string) : option string :=
  match s with
  | String "[" rest =>
      let n := String.length rest in
      match String.get (n - 1) rest with
      | Some "]"%char => Some (String.substring 0 (n - 1) rest)
      | _ => None
      end
  | _ => None
  end.

(** The double quote character. *)
Definition dquote : ascii := ascii_of_nat 34.

Definition read_prompt (s : string) : option (option string) :=
  if String.eqb s "null" then Some None
  else match s with
       | String c rest =>
           let n := String.length rest in
           match String.get (n - 1) rest with
           | Some c' =>
               if Ascii.eqb c dquote && Ascii.eqb c' dquote
               then Some (Some (String.substring 0 (n - 1) rest))
               else None
           | None => None
           end
       | EmptyString => None
       end.

Fixpoint all_some {A} (l : list (option A)) : option (list A) :=
  match l with
  | [] => Some []
  | Some a :: rest => option_map (cons a) (all_some rest)
  | None :: _ => None
  end.

Definition digit (c : ascii) : option Z :=
  let n := nat_of_ascii c in
  if ((48 <=? n) && (n <=? 57))%nat then Some (Z.of_nat (n - 48)) else None.

Fixpoint read_number (s : string) (acc : Z) : option Z :=
  match s with
  | EmptyString => Some acc
  | String c rest =>
      match digit c with
      | Some d => read_number rest (acc * 10 + d)
      | None => None
      end
  end.

Definition read_prompts (s : string) : option (list (option string)) :=
  match strip_brackets s with
  | Some EmptyString => Some []
  | Some body => all_some (map read_prompt (split_on "," body EmptyString))
  | None => None
  end.

Definition read_row (s : string) : option (list Z) :=
  match strip_brackets s with
  | Some EmptyString => Some []
  | Some body =>
      all_some (map (fun t => match t with
                              | EmptyString => None
                              | _ => read_number t 0
                              end) (split_on "," body EmptyString))
  | None => None
  end.

Definition read_boxes (s : string) : option (list (list Z)) :=
  match strip_brackets s with
  | Some EmptyString => Some []
  | Some body =>
      all_some (map (fun t => match t with
                              | String "," r => read_row (r ++ "]")%string
                              | _ => read_row (t ++ "]")%string
                              end)
                    (split_on "]" (String.substring 0 (String.length body - 1) body)
                       EmptyString))
  | None => None
  end.

#[export] Instance json : Json := {|
  json_loads_boxes := read_boxes;
  json_loads_prompts := read_prompts
|}.

(** An upload holding a [w] x [h] image with the given pixels. *)
Definition upload (w h : Z) (pixels : list Z) : UploadFile :=
  {| content := bytes_of ([w / 256; w; h / 256; h] ++ pixels) |}.

Definition blob_4x4 : UploadFile :=
  upload 4 4 [0;0;0;0; 0;255;255;0; 0;255;255;0; 0;0;0;0].
Definition square_5x5 : UploadFile :=
  upload 5 5 [255;255;255;255;255; 255;255;255;255;255; 255;255;255;255;255;
              255;255;255;255;255; 255;255;255;255;255].
Definition dark_3x3 : UploadFile :=
  upload 3 3 [0;0;0; 0;0;0; 0;0;0].
Definition wide_5000x1 : UploadFile := upload 5000 1 [].

End Bench.

(** Sample masks. *)
Module Samples.

(** A 2 x 2 blob. *)
Definition blob2 : MaskUtils.mask :=
  [[0;0;0;0];[0;1;1;0];[0;1;1;0];[0;0;0;0]].
(** A full 5 x 5 mask. *)
Definition full5 : MaskUtils.mask :=
  [[1;1;1;1;1];[1;1;1;1;1];[1;1;1;1;1];[1;1;1;1;1];[1;1;1;1;1]].
(** A 7 x 7 blob with a 3 x 3 hole. *)
Definition ring : MaskUtils.mask :=
  [[1;1;1;1;1;1;1];[1;1;1;1;1;1;1];[1;1;0;0;0;1;1];[1;1;0;0;0;1;1];
   [1;1;0;0;0;1;1];[1;1;1;1;1;1;1];[1;1;1;1;1;1;1]].
(** A sliver two pixels wide and ten high. *)
Definition sliver : MaskUtils.mask :=
  [[1;1];[1;1];[1;1];[1;1];[1;1];[1;1];[1;1];[1;1];[1;1];[1;1]].
(** An empty 3 x 3 mask. *)
Definition empty3 : MaskUtils.mask := [[0;0;0];[0;0;0];[0;0;0]].

(** The border of a 7 x 7 square with two bevelled corners. *)
Definition bevelled : MaskUtils.contour :=
  [(0, 0); (0, 5); (1, 6); (5, 6); (6, 5); (6, 0)].

End Samples.

(** ** Specification-side definitions *)

Module Spec.
Import MaskUtils.

(** An image without a non-zero pixel. *)
Definition blank (f : image_u8) : Prop := Forall (Forall (fun v => v = 0)) f.

(** The simplified contours that [mask_to_polygons] keeps. *)
Definition kept_polygons (approxPolyDP : contour -> Q -> contour) (eps : Q)
  (cs : list contour) : list polygon :=
  filter (fun p => (3 <=? length p)%nat)
    (map (fun c => approxPolyDP c eps)
       (filter (fun c => negb (length c <? 3)%nat) cs)).

(** The number of vertices a contour contributes to the output. *)
Definition vertex_count (r : result (option polygon)) : nat :=
  match r with
  | Ok (Some p) => length p
  | _ => 0%nat
  end.

(** The errors that report a size limit. *)
Definition size_limit_error (e : value_error) : Prop :=
  match e with
  | ImageSizeExceeded _ _ | ImageDimensionExceeded _ _ _ => True
  | _ => False
  end.

End Spec.

(** Further specification-side definitions. *)

Module Measures.
Import MaskUtils Inference.

(** The number of pixels of a mask. *)
Definition pixel_count (m : mask) : Z :=
  fold_right (fun row acc => Z.of_nat (length row) + acc) 0 m.

(** The contours that pass the test [len(contour) < 3] of
    [mask_to_polygons]. *)
Definition long_contours (cs : list contour) : list contour :=
  filter (fun c => negb (length c <? 3)%nat) cs.

(** Two responses with the same objects: count, boxes, scores,
    polygons and areas. *)
Definition same_geometry (r r' : inference_response) : Prop :=
  num_objects r' = num_objects r /\ boxes r' = boxes r
  /\ scores r' = scores r /\ masks r' = masks r.

(** The exceptions the [except ValueError] clause catches. *)
Definition is_value_error (e : exn) : bool :=
  match e with
  | ValueError _ => true
  | _ => false
  end.

End Measures.

(** * Properties *)

(** ** The simplifier *)

Module DouglasPeuckerFacts.
Import MaskUtils DouglasPeucker.

Lemma sqdist_nonneg a b : 0 <= sqdist a b.
Proof.
  unfold sqdist.
  pose proof (Z.square_nonneg (fst b - fst a)).
  pose proof (Z.square_nonneg (snd b - snd a)). lia.
Qed.

Lemma dev_den_nonneg a b : 0 <= dev_den a b.
Proof.
  unfold dev_den. destruct (point_eqb a b); [lia | apply sqdist_nonneg].
Qed.

(** A point within a tolerance is within every larger one. *)
Lemma within_mono eps1 eps2 num den :
  0 <= den -> (eps1 < eps2)%Q ->
  within eps1 num den = true -> within eps2 num den = true.
Proof.
  unfold within. intros Hden Hlt H.
  apply andb_true_iff in H as [H0 H1].
  apply Qle_bool_iff in H0. apply Qle_bool_iff in H1.
  apply andb_true_iff. split; apply Qle_bool_iff.
  - lra.
  - assert (Hd : (0 <= inject_Z den)%Q).
    { change 0%Q with (inject_Z 0). rewrite <- Zle_Qle. exact Hden. }
    assert (Hsq : (eps1 * eps1 <= eps2 * eps2)%Q) by nra.
    eapply Qle_trans; [exact H1|].
    apply Qmult_le_compat_r; assumption.
Qed.

Lemma simplify_chain_nonempty fuel eps a mid b :
  (1 <= length (simplify_chain fuel eps a mid b))%nat.
Proof.
  revert a mid b.
  induction fuel as [|n IH]; intros a mid b; cbn [simplify_chain]; [simpl; lia|].
  destruct (argmax (dev_num a b) mid) as [[[j p] num]|]; [|simpl; lia].
  destruct (within eps num (dev_den a b)); [simpl; lia|].
  rewrite length_app. specialize (IH a (firstn j mid) p). lia.
Qed.

(** A larger tolerance never keeps more vertices of a chain. *)
Lemma simplify_chain_mono fuel eps1 eps2 a mid b :
  (eps1 < eps2)%Q ->
  (length (simplify_chain fuel eps2 a mid b)
   <= length (simplify_chain fuel eps1 a mid b))%nat.
Proof.
  intros Hlt. revert a mid b.
  induction fuel as [|n IH]; intros a mid b; cbn [simplify_chain]; [simpl; lia|].
  destruct (argmax (dev_num a b) mid) as [[[j p] num]|]; [|simpl; lia].
  destruct (within eps1 num (dev_den a b)) eqn:W1.
  - rewrite (within_mono eps1 eps2 _ _ (dev_den_nonneg a b) Hlt W1). simpl. lia.
  - destruct (within eps2 num (dev_den a b)).
    + rewrite length_app. cbn [length].
      pose proof (simplify_chain_nonempty n eps1 a (firstn j mid) p). lia.
    + rewrite !length_app.
      pose proof (IH a (firstn j mid) p).
      pose proof (IH p (skipn (S j) mid) b). lia.
Qed.

Lemma approxPolyDP_nonempty c eps : c <> [] -> approxPolyDP c eps <> [].
Proof.
  destruct c as [|p0 rest]; [congruence|]. intros _. unfold approxPolyDP.
  destruct (argmax (sqdist p0) rest) as [[[j pj] d2]|]; [|discriminate].
  destruct (within eps d2 1); [discriminate|].
  pose proof (simplify_chain_nonempty (length rest) eps p0 (firstn j rest) pj) as H.
  intros E. apply (f_equal (@length point)) in E.
  rewrite length_app in E. simpl in E. lia.
Qed.

Lemma approxPolyDP_mono c eps1 eps2 :
  (eps1 < eps2)%Q ->
  (length (approxPolyDP c eps2) <= length (approxPolyDP c eps1))%nat.
Proof.
  intros Hlt. destruct c as [|p0 rest]; cbn [approxPolyDP]; [simpl; lia|].
  destruct (argmax (sqdist p0) rest) as [[[j pj] d2]|]; [|simpl; lia].
  destruct (within eps1 d2 1) eqn:W1.
  - rewrite (within_mono eps1 eps2 d2 1 ltac:(lia) Hlt W1). simpl. lia.
  - destruct (within eps2 d2 1).
    + rewrite length_app. cbn [length].
      pose proof (simplify_chain_nonempty (length rest) eps1 p0 (firstn j rest) pj).
      lia.
    + rewrite !length_app.
      pose proof (simplify_chain_mono (length rest) eps1 eps2 p0 (firstn j rest) pj Hlt).
      pose proof (simplify_chain_mono (length rest) eps1 eps2 pj (skipn (S j) rest) p0 Hlt).
      lia.
Qed.

Lemma argmax_from_index f l : forall i best j p v,
  argmax_from f l i best = (j, p, v) ->
  (j, p, v) = best \/ (i <= j < i + length l)%nat.
Proof.
  induction l as [|q l IH]; intros i best j p v H; cbn [argmax_from] in H.
  - left. symmetry. exact H.
  - destruct (snd best <? f q); apply IH in H; cbn [length].
    + destruct H as [H | H]; [injection H as -> _ _|]; right; lia.
    + destruct H as [H | H]; [left; exact H | right; lia].
Qed.

Lemma argmax_index f l j p v :
  argmax f l = Some (j, p, v) -> (j < length l)%nat.
Proof.
  destruct l as [|q l]; [discriminate|]. cbn [argmax length]. intros H.
  injection H as H. apply argmax_from_index in H.
  destruct H as [H | H]; [injection H as -> _ _|]; lia.
Qed.

(** The recursion of [simplify_chain] never runs out of fuel once the
    fuel covers the length of the chain: the result does not depend on
    how much more is given. *)
Lemma simplify_chain_fuel eps : forall n m a mid b,
  (length mid <= n)%nat -> (length mid <= m)%nat ->
  simplify_chain n eps a mid b = simplify_chain m eps a mid b.
Proof.
  induction n as [|n IH]; intros m a mid b Hn Hm.
  - destruct mid; [|simpl in Hn; lia]. destruct m; reflexivity.
  - destruct m as [|m].
    + destruct mid; [|simpl in Hm; lia]. reflexivity.
    + cbn [simplify_chain].
      destruct (argmax (dev_num a b) mid) as [[[j p] num]|] eqn:Ha; [|reflexivity].
      destruct (within eps num (dev_den a b)); [reflexivity|].
      apply argmax_index in Ha.
      assert (length (firstn j mid) <= n /\ length (firstn j mid) <= m)%nat
        by (rewrite length_firstn; lia).
      assert (length (skipn (S j) mid) <= n /\ length (skipn (S j) mid) <= m)%nat
        by (rewrite length_skipn; lia).
      f_equal; apply IH; lia.
Qed.

(** The fuel [approxPolyDP] gives its two chains is enough. *)
Lemma approxPolyDP_fuel eps p0 rest j n :
  (length rest <= n)%nat ->
  simplify_chain (length rest) eps p0 (firstn j rest) (nth j rest p0)
  = simplify_chain n eps p0 (firstn j rest) (nth j rest p0)
  /\ simplify_chain (length rest) eps (nth j rest p0) (skipn (S j) rest) p0
     = simplify_chain n eps (nth j rest p0) (skipn (S j) rest) p0.
Proof.
  intros Hn. split; apply simplify_chain_fuel.
  - rewrite length_firstn. lia.
  - rewrite length_firstn. lia.
  - rewrite length_skipn. lia.
  - rewrite length_skipn. lia.
Qed.

End DouglasPeuckerFacts.

(** ** mask_utils *)

Module MaskUtilsFacts.
Import MaskUtils Spec.

Section Generic.
Variable findContours : image_u8 -> list contour.
Variable approxPolyDP : contour -> Q -> contour.

(** The loop body, case by case. *)
Lemma contour_to_polygon_cases c eps :
  contour_to_polygon approxPolyDP c eps =
  if (length c <? 3)%nat then Ok None
  else match approxPolyDP c eps with
       | [] => Raise IndexError
       | p :: ps => if (3 <=? length (p :: ps))%nat then Ok (Some (p :: ps))
                    else Ok None
       end.
Proof.
  unfold contour_to_polygon, squeeze_tolist.
  destruct (length c <? 3)%nat; [reflexivity|].
  destruct (approxPolyDP c eps); reflexivity.
Qed.

(** When the loop ends normally it has appended the kept polygons. *)
Lemma polygons_of_contours_ok cs eps : forall acc ps,
  polygons_of_contours approxPolyDP cs eps acc = Ok ps ->
  ps = acc ++ kept_polygons approxPolyDP eps cs.
Proof.
  induction cs as [|c rest IH]; intros acc ps H.
  - simpl in H. injection H as <-. unfold kept_polygons. simpl.
    now rewrite app_nil_r.
  - cbn [polygons_of_contours] in H.
    rewrite contour_to_polygon_cases in H.
    unfold kept_polygons in *. cbn [filter map].
    destruct (length c <? 3)%nat eqn:Hc; cbn [negb rbind] in *.
    + apply IH. exact H.
    + cbn [filter map].
      destruct (approxPolyDP c eps) as [|p q] eqn:Hs; [discriminate|].
      destruct (3 <=? length (p :: q))%nat eqn:Hk; cbn [rbind] in H.
      * apply IH in H. rewrite <- app_assoc in H. exact H.
      * apply IH in H. exact H.
Qed.

(** The loop ends normally whenever the simplifier returns a point
    for every contour it is given. *)
Lemma polygons_of_contours_total cs eps :
  (forall c, c <> [] -> approxPolyDP c eps <> []) ->
  forall acc,
    polygons_of_contours approxPolyDP cs eps acc
    = Ok (acc ++ kept_polygons approxPolyDP eps cs).
Proof.
  intros Hne. induction cs as [|c rest IH]; intros acc.
  - unfold kept_polygons. simpl. now rewrite app_nil_r.
  - cbn [polygons_of_contours]. rewrite contour_to_polygon_cases.
    unfold kept_polygons in *. cbn [filter map].
    destruct (length c <? 3)%nat eqn:Hc; cbn [negb rbind].
    + apply IH.
    + cbn [filter map].
      assert (Hcne : c <> []).
      { intros ->. simpl in Hc. discriminate. }
      specialize (Hne c Hcne).
      destruct (approxPolyDP c eps) as [|p q] eqn:Hs; [congruence|].
      destruct (3 <=? length (p :: q))%nat eqn:Hk; cbn [rbind].
      * rewrite IH. now rewrite <- app_assoc.
      * apply IH.
Qed.

Lemma kept_polygons_long eps cs :
  Forall (fun p => (3 <= length p)%nat) (kept_polygons approxPolyDP eps cs).
Proof.
  unfold kept_polygons. apply Forall_forall. intros p Hp.
  apply filter_In in Hp as [_ Hp]. now apply Nat.leb_le in Hp.
Qed.

(** The batch loop, when it ends normally. *)
Lemma masks_to_polygon_data_loop_ok masks eps : forall acc data,
  masks_to_polygon_data_loop findContours approxPolyDP masks eps acc = Ok data ->
  data = acc ++ map (fun m =>
                       MaskPolygon
                         (kept_polygons approxPolyDP eps (findContours (to_uint8 m)))
                         (calculate_mask_area m)) masks.
Proof.
  induction masks as [|m rest IH]; intros acc data H.
  - simpl in H. injection H as <-. simpl. now rewrite app_nil_r.
  - cbn [masks_to_polygon_data_loop] in H. unfold mask_to_polygons in H.
    destruct (polygons_of_contours approxPolyDP (findContours (to_uint8 m)) eps [])
      as [ps|e] eqn:Hp; cbn [rbind] in H; [|discriminate].
    apply polygons_of_contours_ok in Hp. simpl in Hp. subst ps.
    apply IH in H. rewrite <- app_assoc in H. exact H.
Qed.

Lemma masks_to_polygon_data_loop_total masks eps :
  (forall c, c <> [] -> approxPolyDP c eps <> []) ->
  forall acc,
  masks_to_polygon_data_loop findContours approxPolyDP masks eps acc
  = Ok (acc ++ map (fun m =>
                      MaskPolygon
                        (kept_polygons approxPolyDP eps (findContours (to_uint8 m)))
                        (calculate_mask_area m)) masks).
Proof.
  intros Hne. induction masks as [|m rest IH]; intros acc.
  - simpl. now rewrite app_nil_r.
  - cbn [masks_to_polygon_data_loop]. unfold mask_to_polygons.
    rewrite (polygons_of_contours_total _ _ Hne). cbn [rbind app].
    rewrite IH. now rewrite <- app_assoc.
Qed.

End Generic.

(** The pixel sum of a binary row counts its foreground pixels. *)
Lemma binary_row_sum row :
  binary_row row -> fold_right Z.add 0 row = count_row row.
Proof.
  unfold binary_row, count_row. induction 1 as [|v row Hv _ IH].
  - reflexivity.
  - cbn [fold_right filter]. rewrite IH.
    destruct Hv as [-> | ->]; cbn [Z.eqb Pos.eqb length]; lia.
Qed.

Lemma binary_sum m : binary m -> tensor_sum m = foreground_count m.
Proof.
  unfold binary, tensor_sum, foreground_count. induction 1 as [|row m Hr _ IH].
  - reflexivity.
  - cbn [fold_right]. rewrite IH, (binary_row_sum row Hr). reflexivity.
Qed.

Lemma count_row_nonneg row : 0 <= count_row row.
Proof. unfold count_row. lia. Qed.

Lemma foreground_count_nonneg m : 0 <= foreground_count m.
Proof.
  unfold foreground_count. induction m as [|row m IH]; cbn [fold_right]; [lia|].
  pose proof (count_row_nonneg row). lia.
Qed.

Lemma binary_row_no_foreground row :
  binary_row row -> count_row row = 0 -> Forall (fun v => v = 0) row.
Proof.
  unfold binary_row, count_row. induction 1 as [|v row Hv _ IH]; intros Hc.
  - constructor.
  - cbn [filter] in Hc. destruct Hv as [-> | ->]; cbn [Z.eqb Pos.eqb] in Hc.
    + constructor; [reflexivity | apply IH; exact Hc].
    + cbn [length] in Hc. lia.
Qed.

(** A binary mask without foreground becomes a blank uint8 image. *)
Lemma no_foreground_blank m :
  binary m -> foreground_count m = 0 -> blank (to_uint8 m).
Proof.
  unfold binary, foreground_count, blank, to_uint8.
  induction 1 as [|row m Hr _ IH]; intros Hc; cbn [map fold_right] in *.
  - constructor.
  - pose proof (count_row_nonneg row).
    pose proof (foreground_count_nonneg m) as Hm. unfold foreground_count in Hm.
    constructor.
    + pose proof (binary_row_no_foreground row Hr ltac:(lia)) as Hz.
      clear - Hz. induction Hz as [|v row -> _ IH]; cbn [map]; constructor; auto.
    + apply IH. lia.
Qed.

End MaskUtilsFacts.

(** ** The contour tracer *)

Module BorderFollowingFacts.
Import MaskUtils Spec BorderFollowing.

Lemma nth_all_zero row x : Forall (fun v => v = 0) row -> nth x row 0 = 0.
Proof.
  intros H. revert x. induction H as [|v row -> _ IH]; intros [|x]; simpl; auto.
Qed.

Lemma px_blank f p : blank f -> px f p = 0.
Proof.
  unfold px, blank. intros H.
  destruct ((fst p <? 0) || (snd p <? 0)); [reflexivity|].
  apply nth_all_zero.
  generalize (Z.to_nat (snd p)) as y.
  induction H as [|row f Hr _ IH]; intros [|y]; simpl; auto.
Qed.

Lemma binarize_blank f : blank f -> blank (binarize f).
Proof.
  unfold blank, binarize. induction 1 as [|row f Hr _ IH]; cbn [map]; constructor; auto.
  clear - Hr. induction Hr as [|v row -> _ IH]; cbn [map]; constructor; auto.
Qed.

Lemma visit_blank st p : blank (cur st) -> visit st p = st.
Proof.
  intros H. unfold visit. rewrite (px_blank _ p H). reflexivity.
Qed.

Lemma scan_blank ps : forall st, blank (cur st) -> fold_left visit ps st = st.
Proof.
  induction ps as [|p ps IH]; intros st H; cbn [fold_left]; [reflexivity|].
  rewrite (visit_blank st p H). apply IH, H.
Qed.

(** Nothing is traced in an image without foreground. *)
Lemma findContours_blank f : blank f -> findContours f = [].
Proof.
  intros H. unfold findContours.
  rewrite scan_blank; [reflexivity|]. simpl. apply binarize_blank, H.
Qed.

End BorderFollowingFacts.

(** ** Polygons *)

Module PolygonProperties.
Import MaskUtils Spec MaskUtilsFacts.

(** C7. Every polygon in the list returned by [mask_to_polygons] has at
    least 3 vertices, whatever the mask, the tolerance and the OpenCV
    routines; and the function does return a list whenever the
    simplifier yields at least one point per contour. *)
Theorem polygons_have_three_vertices
  (findContours : image_u8 -> list contour)
  (approxPolyDP : contour -> Q -> contour) (m : mask) (eps : Q) :
  (forall ps, mask_to_polygons findContours approxPolyDP m eps = Ok ps ->
              Forall (fun p => (3 <= length p)%nat) ps)
  /\ ((forall c, c <> [] -> approxPolyDP c eps <> []) ->
      exists ps, mask_to_polygons findContours approxPolyDP m eps = Ok ps).
Proof.
  split.
  - intros ps H. unfold mask_to_polygons in H.
    apply polygons_of_contours_ok in H. simpl in H. subst ps.
    apply kept_polygons_long.
  - intros Hne. unfold mask_to_polygons.
    rewrite (polygons_of_contours_total _ _ _ Hne). eauto.
Qed.

Lemma polygons_have_three_vertices_witness :
  mask_to_polygons BorderFollowing.findContours DouglasPeucker.approxPolyDP
    Samples.ring default_tolerance
  = Ok [[(0, 0); (0, 6); (6, 6); (6, 0)];
        [(1, 2); (4, 1); (5, 4); (2, 5)]]
  /\ Forall (fun p => (3 <= length p)%nat)
       [[(0, 0); (0, 6); (6, 6); (6, 0)];
        [(1, 2); (4, 1); (5, 4); (2, 5)]]
  /\ exists ps,
       mask_to_polygons BorderFollowing.findContours DouglasPeucker.approxPolyDP
         Samples.ring default_tolerance = Ok ps.
Proof.
  assert (E : mask_to_polygons BorderFollowing.findContours
                DouglasPeucker.approxPolyDP Samples.ring default_tolerance
              = Ok [[(0, 0); (0, 6); (6, 6); (6, 0)];
                    [(1, 2); (4, 1); (5, 4); (2, 5)]])
    by (vm_compute; reflexivity).
  split; [exact E|]. split.
  - exact (proj1 (polygons_have_three_vertices BorderFollowing.findContours
                    DouglasPeucker.approxPolyDP Samples.ring default_tolerance) _ E).
  - apply (proj2 (polygons_have_three_vertices BorderFollowing.findContours
                    DouglasPeucker.approxPolyDP Samples.ring default_tolerance)).
    intros c Hc. apply DouglasPeuckerFacts.approxPolyDP_nonempty, Hc.
Defined.

(** C2 as stated fails: the 2 x 2 blob is traced as a contour of four
    points, its simplification at the default tolerance is a single
    point, and [mask_to_polygons] returns no polygon at all for the
    mask; the unsimplified contour is not emitted. *)
Lemma fallback_to_unsimplified_counterexample :
  ~ (forall (findContours : image_u8 -> list contour)
            (approxPolyDP : contour -> Q -> contour)
            (m : mask) (eps : Q) (c : contour) (ps : list polygon),
       In c (findContours (to_uint8 m)) ->
       (3 <= length c)%nat ->
       (length (approxPolyDP c eps) < 3)%nat ->
       mask_to_polygons findContours approxPolyDP m eps = Ok ps ->
       In c ps).
Proof.
  intros H.
  specialize (H BorderFollowing.findContours DouglasPeucker.approxPolyDP
                Samples.blob2 default_tolerance
                [(1, 1); (1, 2); (2, 2); (2, 1)] []).
  apply H.
  - vm_compute. left. reflexivity.
  - simpl. lia.
  - vm_compute. lia.
  - vm_compute. reflexivity.
Qed.

(** C2, amended.  A contour of at least 3 points whose simplification
    has fewer than 3 vertices contributes no polygon: the loop body
    yields nothing for it, and the list [mask_to_polygons] returns is
    exactly the list of the simplified contours that have at least 3
    vertices, so the simplification of that contour is not in it. *)
Theorem short_simplification_is_omitted
  (findContours : image_u8 -> list contour)
  (approxPolyDP : contour -> Q -> contour)
  (m : mask) (eps : Q) (c : contour) :
  (3 <= length c)%nat ->
  (0 < length (approxPolyDP c eps) < 3)%nat ->
  contour_to_polygon approxPolyDP c eps = Ok None
  /\ forall ps,
       mask_to_polygons findContours approxPolyDP m eps = Ok ps ->
       ps = kept_polygons approxPolyDP eps (findContours (to_uint8 m))
       /\ ~ In (approxPolyDP c eps) ps.
Proof.
  intros Hc Hs. split.
  - rewrite contour_to_polygon_cases.
    destruct (Nat.ltb_spec (length c) 3) as [?|_]; [lia|].
    destruct (approxPolyDP c eps) as [|p q]; [simpl in Hs; lia|].
    destruct (Nat.leb_spec 3 (length (p :: q))) as [?|_]; [lia | reflexivity].
  - intros ps H. unfold mask_to_polygons in H.
    apply polygons_of_contours_ok in H. simpl in H. subst ps.
    split; [reflexivity|]. intros Hin.
    pose proof (kept_polygons_long approxPolyDP eps (findContours (to_uint8 m))) as Hl.
    rewrite Forall_forall in Hl. apply Hl in Hin. lia.
Qed.

Lemma short_simplification_is_omitted_witness :
  contour_to_polygon DouglasPeucker.approxPolyDP
    [(0, 0); (0, 9); (1, 9); (1, 0)] default_tolerance = Ok None
  /\ forall ps,
       mask_to_polygons BorderFollowing.findContours DouglasPeucker.approxPolyDP
         Samples.sliver default_tolerance = Ok ps ->
       ps = kept_polygons DouglasPeucker.approxPolyDP default_tolerance
              (BorderFollowing.findContours (to_uint8 Samples.sliver))
       /\ ~ In (DouglasPeucker.approxPolyDP [(0, 0); (0, 9); (1, 9); (1, 0)]
                  default_tolerance) ps.
Proof.
  apply (short_simplification_is_omitted BorderFollowing.findContours
           DouglasPeucker.approxPolyDP Samples.sliver default_tolerance
           [(0, 0); (0, 9); (1, 9); (1, 0)]).
  - simpl. lia.
  - vm_compute. split; lia.
Defined.

(** The sliver is traced as the contour used above and yields no
    polygon. *)
Example sliver_is_dropped :
  BorderFollowing.findContours (to_uint8 Samples.sliver)
  = [[(0, 0); (0, 9); (1, 9); (1, 0)]]
  /\ DouglasPeucker.approxPolyDP [(0, 0); (0, 9); (1, 9); (1, 0)] default_tolerance
     = [(0, 0); (1, 9)]
  /\ mask_to_polygons BorderFollowing.findContours DouglasPeucker.approxPolyDP
       Samples.sliver default_tolerance = Ok [].
Proof. vm_compute. repeat split. Qed.

(** C8.  For the Ramer-Douglas-Peucker simplifier and every contour, a
    larger tolerance never yields more vertices: neither in the
    simplified contour nor in the polygon the loop of
    [mask_to_polygons] emits for it (none counting as zero). *)
Theorem vertex_count_monotone (c : contour) (eps1 eps2 : Q) :
  (eps1 < eps2)%Q ->
  (length (DouglasPeucker.approxPolyDP c eps2)
   <= length (DouglasPeucker.approxPolyDP c eps1))%nat
  /\ (vertex_count (contour_to_polygon DouglasPeucker.approxPolyDP c eps2)
      <= vertex_count (contour_to_polygon DouglasPeucker.approxPolyDP c eps1))%nat.
Proof.
  intros Hlt.
  pose proof (DouglasPeuckerFacts.approxPolyDP_mono c eps1 eps2 Hlt) as Hm.
  split; [exact Hm|].
  rewrite !contour_to_polygon_cases.
  destruct (length c <? 3)%nat; [simpl; lia|].
  destruct (DouglasPeucker.approxPolyDP c eps2) as [|p2 q2].
  - simpl. lia.
  - destruct (DouglasPeucker.approxPolyDP c eps1) as [|p1 q1]; [simpl in Hm; lia|].
    destruct (Nat.leb_spec 3 (length (p2 :: q2))) as [H2|H2];
      destruct (Nat.leb_spec 3 (length (p1 :: q1))) as [H1|H1];
      cbn [vertex_count]; lia.
Qed.

Lemma vertex_count_monotone_witness :
  (length (DouglasPeucker.approxPolyDP Samples.bevelled (3 # 2))
   <= length (DouglasPeucker.approxPolyDP
                Samples.bevelled (1 # 2)))%nat
  /\ (vertex_count (contour_to_polygon DouglasPeucker.approxPolyDP
                      Samples.bevelled (3 # 2))
      <= vertex_count (contour_to_polygon DouglasPeucker.approxPolyDP
                         Samples.bevelled (1 # 2)))%nat.
Proof.
  apply (vertex_count_monotone
           Samples.bevelled (1 # 2) (3 # 2)).
  reflexivity.
Defined.

(** At tolerances 0.5 and 1.5 the bevelled square keeps 6 and 4
    vertices. *)
Example vertex_counts_at_two_tolerances :
  DouglasPeucker.approxPolyDP
    Samples.bevelled (1 # 2)
  = Samples.bevelled
  /\ DouglasPeucker.approxPolyDP
       Samples.bevelled (3 # 2)
     = [(0, 0); (0, 5); (5, 6); (6, 0)].
Proof. vm_compute. split; reflexivity. Qed.

(** C4.  For a batch of binary masks, [masks_to_polygon_data] returns
    for mask i the exact number of its foreground pixels as area,
    whatever the tolerance; a mask without foreground gets area 0 and
    no polygon (OpenCV traces nothing in a blank image).  The function
    returns whenever the simplifier yields a point per contour. *)
Theorem area_is_foreground_count
  (findContours : image_u8 -> list contour)
  (approxPolyDP : contour -> Q -> contour)
  (masks : list mask) (eps : Q) :
  (forall f, blank f -> findContours f = []) ->
  Forall binary masks ->
  (forall data,
     masks_to_polygon_data findContours approxPolyDP masks eps = Ok data ->
     map area data = map foreground_count masks
     /\ (forall i m d,
           nth_error masks i = Some m -> nth_error data i = Some d ->
           foreground_count m = 0 -> area d = 0 /\ polygons d = [])
     /\ (forall eps' data',
           masks_to_polygon_data findContours approxPolyDP masks eps' = Ok data' ->
           map area data' = map area data))
  /\ ((forall c, c <> [] -> approxPolyDP c eps <> []) ->
      exists data, masks_to_polygon_data findContours approxPolyDP masks eps = Ok data).
Proof.
  intros Hblank Hbin. split.
  - intros data H. unfold masks_to_polygon_data in H.
    apply masks_to_polygon_data_loop_ok in H. simpl in H.
    assert (Ha : forall e,
               map area (map (fun m => MaskPolygon
                   (kept_polygons approxPolyDP e (findContours (to_uint8 m)))
                   (calculate_mask_area m)) masks)
               = map foreground_count masks).
    { intros e. rewrite map_map. cbn [area].
      clear - Hbin. induction Hbin as [|m masks Hm _ IH]; cbn [map]; [reflexivity|].
      rewrite IH. unfold calculate_mask_area. now rewrite (binary_sum m Hm). }
    subst data. split; [apply Ha|]. split.
    + intros i m d Hm Hd Hz.
      rewrite nth_error_map, Hm in Hd. cbn [option_map] in Hd.
      injection Hd as <-. cbn [area polygons].
      assert (Hb : binary m).
      { rewrite Forall_forall in Hbin. apply Hbin.
        eapply nth_error_In. exact Hm. }
      split.
      * unfold calculate_mask_area. rewrite (binary_sum m Hb). exact Hz.
      * rewrite (Hblank _ (no_foreground_blank m Hb Hz)). reflexivity.
    + intros eps' data' H'. unfold masks_to_polygon_data in H'.
      apply masks_to_polygon_data_loop_ok in H'. simpl in H'. subst data'.
      now rewrite !Ha.
  - intros Hne. unfold masks_to_polygon_data.
    rewrite (masks_to_polygon_data_loop_total _ _ _ _ Hne). eauto.
Qed.

Lemma area_is_foreground_count_witness :
  (forall data,
     masks_to_polygon_data BorderFollowing.findContours DouglasPeucker.approxPolyDP
       [Samples.full5; Samples.empty3; Samples.blob2] default_tolerance = Ok data ->
     map area data
     = map foreground_count [Samples.full5; Samples.empty3; Samples.blob2]
     /\ (forall i m d,
           nth_error [Samples.full5; Samples.empty3; Samples.blob2] i = Some m ->
           nth_error data i = Some d ->
           foreground_count m = 0 -> area d = 0 /\ polygons d = [])
     /\ (forall eps' data',
           masks_to_polygon_data BorderFollowing.findContours
             DouglasPeucker.approxPolyDP
             [Samples.full5; Samples.empty3; Samples.blob2] eps' = Ok data' ->
           map area data' = map area data))
  /\ ((forall c, c <> [] -> DouglasPeucker.approxPolyDP c default_tolerance <> []) ->
      exists data,
        masks_to_polygon_data BorderFollowing.findContours DouglasPeucker.approxPolyDP
          [Samples.full5; Samples.empty3; Samples.blob2] default_tolerance = Ok data).
Proof.
  apply (area_is_foreground_count BorderFollowing.findContours
           DouglasPeucker.approxPolyDP
           [Samples.full5; Samples.empty3; Samples.blob2] default_tolerance).
  - exact BorderFollowingFacts.findContours_blank.
  - unfold binary, binary_row.
    repeat (first [apply Forall_nil | apply Forall_cons]); cbv beta; lia.
Defined.

(** A batch of three masks: areas 25, 0 and 4; the empty mask has no
    polygon. *)
Example areas_of_three_masks :
  masks_to_polygon_data BorderFollowing.findContours DouglasPeucker.approxPolyDP
    [Samples.full5; Samples.empty3; Samples.blob2] default_tolerance
  = Ok [MaskPolygon [[(0, 0); (0, 4); (4, 4); (4, 0)]] 25;
        MaskPolygon [] 0;
        MaskPolygon [] 4].
Proof. vm_compute. reflexivity. Qed.

End PolygonProperties.

(** ** The compositor *)

Module VisualizerProperties.
Import MaskUtils Visualizer.

(** C6 as stated fails: the compositor returns the source image as it
    is, not converted to RGB, so with JPEG as configured format and a
    source image in mode RGBA the encoding raises and the
    visualization of zero objects is an error.  With one object the
    same image is converted to RGB and encoded. *)
Lemma zero_objects_encoding_counterexample :
  let im := Image "RGBA" (2, 1) [7; 9] in
  draw_masks_and_boxes (pil := Bench.pillow_strict) im [] [] None default_alpha
    "rainbow" true true = Ok im
  /\ create_visualization (pil := Bench.pillow_strict) Bench.settings_jpeg im [] []
       None default_alpha true true
     = Raise (LibraryError "OSError: cannot write mode RGBA as JPEG")
  /\ ~ (exists image_bytes,
          create_visualization (pil := Bench.pillow_strict) Bench.settings_jpeg im
            [] [] None default_alpha true true = Ok image_bytes)
  /\ exists image_bytes,
       create_visualization (pil := Bench.pillow_strict) Bench.settings_jpeg im
         [[[1; 1]]] [[0; 0; 1; 0]%Q] None default_alpha true true = Ok image_bytes.
Proof.
  cbv zeta. split; [reflexivity|]. split; [reflexivity|]. split.
  - intros [image_bytes H]. vm_compute in H. discriminate H.
  - eexists. vm_compute. reflexivity.
Qed.

(** C6, amended.  Invoked with an empty mask batch, the compositor
    first converts the source image to RGBA; if that raises, the
    compositor raises, and otherwise it returns the source image
    itself, unmodified and unconverted.  [create_visualization] then is
    the encoding of that source image in the configured format (JPEG
    with the configured quality, PNG otherwise): it returns the
    encoder's bytes or raises the encoder's exception. *)
Theorem zero_objects_returns_source {pil : Pillow} (st : Config.Settings)
  (im : image) (boxes : list (list Q)) (scores : option (list Q)) (alpha : Q)
  (colormap : string) (draw_boxes draw_masks : bool) :
  match convert im "RGBA" with
  | Ok _ =>
      draw_masks_and_boxes im [] boxes scores alpha colormap draw_boxes draw_masks
      = Ok im
      /\ create_visualization st im [] boxes scores alpha draw_boxes draw_masks
         = encode_image_to_bytes im (Config.VISUALIZATION_FORMAT st)
             (Config.VISUALIZATION_QUALITY st)
      /\ create_visualization st im [] boxes scores alpha draw_boxes draw_masks
         = (if String.eqb (upper (Config.VISUALIZATION_FORMAT st)) "JPEG"
            then save im "JPEG" (Some (Config.VISUALIZATION_QUALITY st))
            else save im "PNG" None)
  | Raise e =>
      draw_masks_and_boxes im [] boxes scores alpha colormap draw_boxes draw_masks
      = Raise e
      /\ create_visualization st im [] boxes scores alpha draw_boxes draw_masks
         = Raise e
  end.
Proof.
  unfold create_visualization, draw_masks_and_boxes.
  destruct (convert im "RGBA") as [image_rgba|e]; cbn [rbind length Nat.eqb].
  - split; [reflexivity|]. split; reflexivity.
  - split; reflexivity.
Qed.

(** With the stand-in Pillow and the default PNG: the visualization of
    no object is the encoding of the source. *)
Example zero_objects_on_the_bench :
  let im := Image "RGB" (2, 1) [7; 9] in
  create_visualization (pil := Bench.pillow) Config.settings im [] [] None
    default_alpha true true
  = Ok (Bench.encode_raster im).
Proof. reflexivity. Qed.

End VisualizerProperties.

(** ** The orchestrator *)

Module InferenceFacts.
Import MaskUtils Visualizer Inference Spec.

Lemma bind_ok {A B} (c : io A) (k : A -> io B) w b w' :
  bind c k w = (Ok b, w') ->
  exists a w1, c w = (Ok a, w1) /\ k a w1 = (Ok b, w').
Proof.
  unfold bind. destruct (c w) as [[a|e] w1]; intros H; [eauto | discriminate].
Qed.

Lemma bind_raise {A B} (c : io A) (k : A -> io B) w e w1 :
  c w = (Raise e, w1) -> bind c k w = (Raise e, w1).
Proof. unfold bind. intros ->. reflexivity. Qed.

Lemma bind_step {A B} (c : io A) (k : A -> io B) w a w1 :
  c w = (Ok a, w1) -> bind c k w = k a w1.
Proof. unfold bind. intros ->. reflexivity. Qed.

(** The byte-count test of [_load_image_from_upload], in integers. *)
Lemma size_test (n limit : Z) :
  negb (Qle_bool (inject_Z n / inject_Z (1024 * 1024)) (inject_Z limit)) = true
  <-> limit * 1048576 < n.
Proof.
  rewrite negb_true_iff, <- not_true_iff_false, Qle_bool_iff.
  unfold Qle, Qdiv, Qmult, Qinv, inject_Z. simpl. lia.
Qed.

Section Loading.
Context {pil : Pillow} {rt : Runtime}.
Variable st : Config.Settings.

(** An upload over the byte ceiling is refused with a size-limit
    error before it is decoded. *)
Lemma load_too_large file :
  Config.MAX_IMAGE_SIZE_MB st * 1048576 < len (content file) ->
  _load_image_from_upload st file
  = Raise (ValueError (ImageSizeExceeded (len (content file))
                         (Config.MAX_IMAGE_SIZE_MB st))).
Proof.
  intros H. unfold _load_image_from_upload.
  apply size_test in H. rewrite H. reflexivity.
Qed.

(** An upload under the ceiling that decodes to an image too wide or
    too high is refused with a size-limit error. *)
Lemma load_too_wide file im rgb :
  len (content file) <= Config.MAX_IMAGE_SIZE_MB st * 1048576 ->
  image_open (content file) = Ok im ->
  (if negb (String.eqb (mode im) "RGB") then convert im "RGB" else Ok im) = Ok rgb ->
  Config.MAX_IMAGE_DIMENSION st < fst (size rgb)
  \/ Config.MAX_IMAGE_DIMENSION st < snd (size rgb) ->
  _load_image_from_upload st file
  = Raise (ValueError (ImageDimensionExceeded (fst (size rgb)) (snd (size rgb))
                         (Config.MAX_IMAGE_DIMENSION st))).
Proof.
  intros Hs Ho Hc Hd. unfold _load_image_from_upload.
  destruct (negb (Qle_bool _ _)) eqn:T.
  - apply size_test in T. lia.
  - rewrite Ho. cbn [rbind]. rewrite Hc. cbn [rbind].
    destruct (size rgb) as [width height] eqn:Hsz. cbn [fst snd] in *.
    assert (E : (Config.MAX_IMAGE_DIMENSION st <? width)
                || (Config.MAX_IMAGE_DIMENSION st <? height) = true).
    { apply orb_true_iff. destruct Hd; [left | right]; apply Z.ltb_lt; assumption. }
    rewrite E. reflexivity.
Qed.

End Loading.

End InferenceFacts.

Module OrchestratorProperties.
Import MaskUtils Visualizer Inference Spec InferenceFacts.

(** A failed load fails the single-image operations at once: one clock
    reading has been taken and the adapter log is untouched. *)
Lemma inference_text_load_fails {cv : OpenCV} {pil : Pillow} {rt : Runtime}
  (st : Config.Settings) image_file text_prompt thr mthr rv w e :
  _load_image_from_upload st image_file = Raise e ->
  inference_text st image_file text_prompt thr mthr rv w
  = (Raise e, World (adapter_log w) (S (clock_reads w))).
Proof.
  intros H. unfold inference_text, bind, time_perf_counter, lift.
  rewrite H. reflexivity.
Qed.

Lemma inference_bbox_load_fails {cv : OpenCV} {pil : Pillow} {rt : Runtime}
  (st : Config.Settings) image_file bounding_boxes box_labels thr mthr rv w e :
  _load_image_from_upload st image_file = Raise e ->
  inference_bbox st image_file bounding_boxes box_labels thr mthr rv w
  = (Raise e, World (adapter_log w) (S (clock_reads w))).
Proof.
  intros H. unfold inference_bbox, bind, time_perf_counter, lift.
  rewrite H. reflexivity.
Qed.

(** The endpoint turns a [ValueError] of the operation into a 400. *)
Lemma endpoint_text_value_error {cv : OpenCV} {pil : Pillow} {rt : Runtime}
  (st : Config.Settings) image text_prompt thr mthr rv w e w' :
  inference_text st image text_prompt thr mthr rv w = (Raise (ValueError e), w') ->
  Router.inference_text st image text_prompt thr mthr rv w
  = (Router.HTTPException Router.HTTP_400_BAD_REQUEST (Router.DetailStr e), w').
Proof.
  intros H. unfold Router.inference_text, Router.handlers.
  rewrite (bind_raise _ _ _ _ _ H). reflexivity.
Qed.

(** C9.  A single-image request whose payload is over the megabyte
    ceiling, or whose decoded image (opened, and converted to RGB
    unless it is RGB already) is wider or higher than the maximum
    dimension, is rejected with a size-limit [ValueError], which the
    endpoint reports as a 400; the adapter log of the world is left as
    it was: neither the processor nor the model has been called. *)
Theorem oversized_image_rejected_before_model
  {cv : OpenCV} {pil : Pillow} {rt : Runtime} (st : Config.Settings)
  (image_file : UploadFile) (w : world) :
  (Config.MAX_IMAGE_SIZE_MB st * 1048576 < len (content image_file)
   \/ exists im rgb,
        image_open (content image_file) = Ok im
        /\ (if negb (String.eqb (mode im) "RGB") then convert im "RGB" else Ok im)
           = Ok rgb
        /\ (Config.MAX_IMAGE_DIMENSION st < fst (size rgb)
            \/ Config.MAX_IMAGE_DIMENSION st < snd (size rgb))) ->
  exists e,
    size_limit_error e
    /\ (forall text_prompt thr mthr rv,
          inference_text st image_file text_prompt thr mthr rv w
          = (Raise (ValueError e), World (adapter_log w) (S (clock_reads w)))
          /\ Router.inference_text st image_file text_prompt thr mthr rv w
             = (Router.HTTPException 400 (Router.DetailStr e),
                World (adapter_log w) (S (clock_reads w))))
    /\ (forall bounding_boxes box_labels thr mthr rv,
          inference_bbox st image_file bounding_boxes box_labels thr mthr rv w
          = (Raise (ValueError e), World (adapter_log w) (S (clock_reads w)))).
Proof.
  intros H.
  assert (L : exists e, size_limit_error e
                        /\ _load_image_from_upload st image_file
                           = Raise (ValueError e)).
  { destruct (Z.lt_ge_cases (Config.MAX_IMAGE_SIZE_MB st * 1048576)
                (len (content image_file))) as [Hbig | Hsmall].
    - eexists. split; [|apply load_too_large; exact Hbig]. exact I.
    - destruct H as [Hbig | (im & rgb & Ho & Hc & Hd)]; [lia|].
      eexists. split; [|apply (load_too_wide st image_file im rgb); auto; lia].
      exact I. }
  destruct L as [e [He L]]. exists e. split; [exact He|]. split.
  - intros text_prompt thr mthr rv.
    pose proof (inference_text_load_fails st image_file text_prompt thr mthr rv w _ L)
      as T.
    split; [exact T|]. apply endpoint_text_value_error. exact T.
  - intros. apply inference_bbox_load_fails. exact L.
Qed.

Lemma oversized_image_rejected_before_model_witness :
  exists e,
    size_limit_error e
    /\ (forall text_prompt thr mthr rv,
          inference_text (cv := Bench.opencv) (pil := Bench.pillow)
            (rt := Bench.runtime) Config.settings Bench.wide_5000x1
            text_prompt thr mthr rv initial_world
          = (Raise (ValueError e), World [] 1)
          /\ Router.inference_text (cv := Bench.opencv) (pil := Bench.pillow)
               (rt := Bench.runtime) Config.settings Bench.wide_5000x1
               text_prompt thr mthr rv initial_world
             = (Router.HTTPException 400 (Router.DetailStr e), World [] 1))
    /\ (forall bounding_boxes box_labels thr mthr rv,
          inference_bbox (cv := Bench.opencv) (pil := Bench.pillow)
            (rt := Bench.runtime) Config.settings Bench.wide_5000x1
            bounding_boxes box_labels thr mthr rv initial_world
          = (Raise (ValueError e), World [] 1)).
Proof.
  apply (oversized_image_rejected_before_model (cv := Bench.opencv)
           (pil := Bench.pillow) (rt := Bench.runtime)
           Config.settings Bench.wide_5000x1 initial_world).
  right. eexists. eexists. split; [reflexivity|]. split; [reflexivity|].
  left. vm_compute. reflexivity.
Defined.

(** The size ceiling at work, with a ceiling of 0 MB. *)
Example payload_over_the_ceiling :
  let st := {| Config.SAM3_DEFAULT_THRESHOLD := 1 # 2;
               Config.SAM3_DEFAULT_MASK_THRESHOLD := 1 # 2;
               Config.MAX_IMAGE_SIZE_MB := 0;
               Config.MAX_BATCH_SIZE := 10;
               Config.MAX_IMAGE_DIMENSION := 4096;
               Config.VISUALIZATION_FORMAT := "PNG";
               Config.VISUALIZATION_QUALITY := 95 |} in
  inference_text (cv := Bench.opencv) (pil := Bench.pillow) (rt := Bench.runtime)
    st Bench.dark_3x3 "cat" (1 # 2) (1 # 2) false initial_world
  = (Raise (ValueError (ImageSizeExceeded 13 0)), World [] 1).
Proof. vm_compute. reflexivity. Qed.

(** What [respond] returns, when it returns. *)
Lemma respond_ok {cv : OpenCV} {pil : Pillow} {rt : Runtime}
  (st : Config.Settings) start_time im res rv w r w' :
  respond st start_time im res rv w = (Ok r, w') ->
  num_objects r = len (seg_scores res)
  /\ boxes r = seg_boxes res
  /\ scores r = seg_scores res
  /\ masks_to_polygon_data findContours approxPolyDP (seg_masks res)
       default_tolerance = Ok (masks r)
  /\ (if rv && (0 <? len (seg_scores res))
      then exists viz_bytes,
             create_visualization st im (seg_masks res) (seg_boxes res)
               (Some (seg_scores res)) default_alpha true true = Ok viz_bytes
             /\ visualization_base64 r = Some (b64encode viz_bytes)
      else visualization_base64 r = None).
Proof.
  unfold respond, bind, lift, time_perf_counter, ret.
  destruct (masks_to_polygon_data _ _ _ _) as [mp|e]; [|discriminate].
  destruct (rv && (0 <? len (seg_scores res))).
  - destruct (create_visualization _ _ _ _ _ _ _ _) as [viz|e]; [|discriminate].
    intros H. injection H as <- _. cbn. repeat split; eauto.
  - intros H. injection H as <- _. cbn. repeat split; eauto.
Qed.

Lemma inference_text_ok {cv : OpenCV} {pil : Pillow} {rt : Runtime}
  (st : Config.Settings) image_file text_prompt thr mthr rv w r w' :
  inference_text st image_file text_prompt thr mthr rv w = (Ok r, w') ->
  exists start_time im res w1,
    _load_image_from_upload st image_file = Ok im
    /\ respond st start_time im res rv w1 = (Ok r, w').
Proof.
  unfold inference_text. intros H.
  apply bind_ok in H as (t0 & w1 & _ & H).
  apply bind_ok in H as (im & w2 & Hl & H).
  apply bind_ok in H as (ins & w3 & _ & H).
  apply bind_ok in H as (outs & w4 & _ & H).
  apply bind_ok in H as (all & w5 & _ & H).
  apply bind_ok in H as (res & w6 & _ & H).
  unfold lift in Hl. injection Hl as Hl _. eauto 8.
Qed.

Lemma inference_bbox_ok {cv : OpenCV} {pil : Pillow} {rt : Runtime}
  (st : Config.Settings) image_file bounding_boxes box_labels thr mthr rv w r w' :
  inference_bbox st image_file bounding_boxes box_labels thr mthr rv w = (Ok r, w') ->
  exists start_time im res w1,
    _load_image_from_upload st image_file = Ok im
    /\ respond st start_time im res rv w1 = (Ok r, w').
Proof.
  unfold inference_bbox. intros H.
  apply bind_ok in H as (t0 & w1 & _ & H).
  apply bind_ok in H as (im & w2 & Hl & H).
  apply bind_ok in H as (ins & w3 & _ & H).
  apply bind_ok in H as (outs & w4 & _ & H).
  apply bind_ok in H as (all & w5 & _ & H).
  apply bind_ok in H as (res & w6 & _ & H).
  unfold lift in Hl. injection Hl as Hl _. eauto 8.
Qed.

(** Whatever [create_visualization] returns was written by [save]. *)
Lemma create_visualization_saved {pil : Pillow} (st : Config.Settings) im ms bs sc
  alpha db dm viz_bytes :
  create_visualization st im ms bs sc alpha db dm = Ok viz_bytes ->
  exists im' format quality, save im' format quality = Ok viz_bytes.
Proof.
  unfold create_visualization, encode_image_to_bytes.
  destruct (draw_masks_and_boxes _ _ _ _ _ _ _ _) as [viz_image|e]; [|discriminate].
  cbn [rbind]. destruct (String.eqb _ _); eauto.
Qed.

(** The steps of a single-image inference that returns, for either
    kind of prompt. *)
Lemma single_image_anatomy {cv : OpenCV} {pil : Pillow} {rt : Runtime}
  (st : Config.Settings) (image_file : UploadFile) (thr mthr : Q) (rv : bool)
  (w w' : world) (r : inference_response) (req : image -> adapter_request) :
  ((exists text_prompt,
      req = (fun im => TextRequest im text_prompt)
      /\ inference_text st image_file text_prompt thr mthr rv w = (Ok r, w'))
   \/ (exists bounding_boxes box_labels,
         req = (fun im => BoxRequest im bounding_boxes box_labels)
         /\ inference_bbox st image_file bounding_boxes box_labels thr mthr rv w
            = (Ok r, w'))) ->
  exists im ins outs res rest start_time w1,
    _load_image_from_upload st image_file = Ok im
    /\ processor (req im) = Ok ins
    /\ model ins = Ok outs
    /\ post_process_instance_segmentation outs thr mthr ins = Ok (res :: rest)
    /\ respond st start_time im res rv w1 = (Ok r, w').
Proof.
  unfold inference_text, inference_bbox, bind, time_perf_counter, lift,
    call_processor, call_model, call_post_process, logged.
  intros [(p & -> & H) | (bb & bl & -> & H)]; revert H;
    (destruct (_load_image_from_upload st image_file) as [im|e]; [|discriminate]);
    (destruct (processor _) as [ins|e] eqn:Hp; [|discriminate]);
    (destruct (model ins) as [outs|e] eqn:Hm; [|discriminate]);
    (destruct (post_process_instance_segmentation outs thr mthr ins)
       as [[|res rest]|e] eqn:Hpp; try discriminate);
    cbn [index0]; intros H; exists im, ins, outs, res, rest; eauto 8.
Qed.

(** C5.  In the result of a single-image operation, text or box
    prompted, [num_objects] is the number of objects the adapter
    detected (the scores of the first post-processed entry), and
    [visualization_base64] is present if and only if the visualization
    was requested and that number is at least 1; it is [None] in every
    other case.  When present it is the base64 text of the bytes the
    compositor returned for the loaded image and those detections, and
    it is not the empty string as long as base64 maps bytes to a
    non-empty text and the encoder writes at least one byte. *)
Theorem visualization_iff_requested_and_detected
  {cv : OpenCV} {pil : Pillow} {rt : Runtime} (st : Config.Settings)
  (image_file : UploadFile) (thr mthr : Q) (return_visualization : bool)
  (w w' : world) (r : inference_response) (req : image -> adapter_request) :
  ((exists text_prompt,
      req = (fun im => TextRequest im text_prompt)
      /\ inference_text st image_file text_prompt thr mthr return_visualization w
         = (Ok r, w'))
   \/ (exists bounding_boxes box_labels,
         req = (fun im => BoxRequest im bounding_boxes box_labels)
         /\ inference_bbox st image_file bounding_boxes box_labels thr mthr
              return_visualization w = (Ok r, w'))) ->
  exists im ins outs res rest,
    _load_image_from_upload st image_file = Ok im
    /\ processor (req im) = Ok ins
    /\ model ins = Ok outs
    /\ post_process_instance_segmentation outs thr mthr ins = Ok (res :: rest)
    /\ num_objects r = len (seg_scores res)
    /\ (visualization_base64 r <> None
        <-> return_visualization = true /\ 1 <= len (seg_scores res))
    /\ (return_visualization = true /\ 1 <= len (seg_scores res) ->
        exists viz_bytes,
          create_visualization st im (seg_masks res) (seg_boxes res)
            (Some (seg_scores res)) default_alpha true true = Ok viz_bytes
          /\ visualization_base64 r = Some (b64encode viz_bytes))
    /\ (~ (return_visualization = true /\ 1 <= len (seg_scores res)) ->
        visualization_base64 r = None)
    /\ ((forall b, b <> [] -> b64encode b <> EmptyString) ->
        (forall i format quality b, save i format quality = Ok b -> b <> []) ->
        forall text, visualization_base64 r = Some text -> text <> EmptyString).
Proof.
  intros H.
  apply single_image_anatomy in H
    as (im & ins & outs & res & rest & t0 & w1 & Hl & Hp & Hm & Hpp & H).
  apply respond_ok in H as (Hn & _ & _ & _ & Hv).
  exists im, ins, outs, res, rest.
  repeat (split; [assumption|]).
  destruct (return_visualization && (0 <? len (seg_scores res))) eqn:C.
  - destruct Hv as (viz & Hviz & Hr).
    apply andb_true_iff in C as [-> C]. apply Z.ltb_lt in C.
    split; [rewrite Hr; split; [intros _; split; [reflexivity | lia] | discriminate]|].
    split; [intros _; exists viz; auto|].
    split; [intros N; exfalso; apply N; split; [reflexivity | lia]|].
    intros Hb64 Hsave text Ht. rewrite Hr in Ht. injection Ht as <-.
    apply Hb64. destruct (create_visualization_saved _ _ _ _ _ _ _ _ _ Hviz)
      as (i & f & q & Hs).
    eapply Hsave. exact Hs.
  - assert (N : ~ (return_visualization = true /\ 1 <= len (seg_scores res))).
    { intros [-> Hc]. cbn [andb] in C. apply Z.ltb_ge in C. lia. }
    split; [rewrite Hv; split; [congruence | intros X; exfalso; exact (N X)]|].
    split; [intros X; exfalso; exact (N X)|].
    split; [intros _; exact Hv|].
    intros _ _ text Ht. rewrite Hv in Ht. discriminate Ht.
Qed.

(** The two library facts used for the non-empty text, for the
    stand-ins. *)
Lemma bench_b64encode_nonempty (b : bytes) :
  b <> [] -> b64encode (Runtime := Bench.runtime) b <> EmptyString.
Proof.
  destruct b as [|b0 [|b1 [|b2 rest]]]; [congruence| | |]; intros _; discriminate.
Qed.

Lemma bench_save_nonempty (i : image) (format : string) (quality : option Z)
  (b : bytes) :
  save (Pillow := Bench.pillow) i format quality = Ok b -> b <> [].
Proof. cbn. intros H. injection H as <-. discriminate. Qed.

Lemma visualization_iff_requested_and_detected_witness :
  exists r w' im ins outs res rest,
    inference_text (cv := Bench.opencv) (pil := Bench.pillow) (rt := Bench.runtime)
      Config.settings Bench.square_5x5 "cat" (1 # 2) (1 # 2) true initial_world
    = (Ok r, w')
    /\ _load_image_from_upload (pil := Bench.pillow) (rt := Bench.runtime)
         Config.settings Bench.square_5x5 = Ok im
    /\ processor (Runtime := Bench.runtime) (TextRequest im "cat") = Ok ins
    /\ model (Runtime := Bench.runtime) ins = Ok outs
    /\ post_process_instance_segmentation (Runtime := Bench.runtime) outs
         (1 # 2) (1 # 2) ins = Ok (res :: rest)
    /\ num_objects r = len (seg_scores res)
    /\ (visualization_base64 r <> None <-> true = true /\ 1 <= len (seg_scores res))
    /\ forall text, visualization_base64 r = Some text -> text <> EmptyString.
Proof.
  destruct (inference_text (cv := Bench.opencv) (pil := Bench.pillow)
              (rt := Bench.runtime) Config.settings Bench.square_5x5 "cat"
              (1 # 2) (1 # 2) true initial_world) as [[r|e] w'] eqn:E;
    [|vm_compute in E; discriminate E].
  exists r, w'.
  destruct (visualization_iff_requested_and_detected (cv := Bench.opencv)
              (pil := Bench.pillow) (rt := Bench.runtime) Config.settings
              Bench.square_5x5 (1 # 2) (1 # 2) true initial_world w' r
              (fun im => TextRequest im "cat")
              (or_introl (ex_intro _ "cat"%string (conj eq_refl E))))
    as (im & ins & outs & res & rest & Hl & Hp & Hm & Hpp & Hn & Hiff & _ & _ & Hne).
  exists im, ins, outs, res, rest.
  split; [reflexivity|]. repeat (split; [assumption|]).
  apply Hne; [exact bench_b64encode_nonempty | exact bench_save_nonempty].
Defined.

(** The three cases on the bench: requested and detected, requested and
    nothing detected, detected and not requested. *)
Example visualization_cases_on_the_bench :
  let run file rv :=
    fst (inference_text (cv := Bench.opencv) (pil := Bench.pillow)
           (rt := Bench.runtime) Config.settings file "cat" (1 # 2) (1 # 2) rv
           initial_world) in
  let present r := match r with
                   | Ok x => match visualization_base64 x with
                             | Some _ => Some true
                             | None => Some false
                             end
                   | Raise _ => None
                   end in
  present (run Bench.square_5x5 true) = Some true
  /\ present (run Bench.dark_3x3 true) = Some false
  /\ present (run Bench.square_5x5 false) = Some false.
Proof. vm_compute. repeat split. Qed.

(** C3 as stated fails: with an encoder that raises, a request for a
    visualization on an image with one detected object reaches the
    visualization step, which raises; the operation then raises too and
    the endpoint answers 500: no geometry is returned. *)
Lemma visualization_failure_counterexample :
  let run :=
    inference_text (cv := Bench.opencv) (pil := Bench.pillow_encoder_down)
      (rt := Bench.runtime) Config.settings Bench.square_5x5 "cat"
      (1 # 2) (1 # 2) true initial_world in
  let served :=
    Router.inference_text (cv := Bench.opencv) (pil := Bench.pillow_encoder_down)
      (rt := Bench.runtime) Config.settings Bench.square_5x5 "cat"
      (1 # 2) (1 # 2) true initial_world in
  create_visualization (pil := Bench.pillow_encoder_down) Config.settings
    (Image "RGB" (5, 5) (repeat 255 25)) [Samples.full5] [[0; 0; 4; 4]%Q]
    (Some [9 # 10]) default_alpha true true
  = Raise (LibraryError "OSError: encoder error")
  /\ fst run = Raise (LibraryError "OSError: encoder error")
  /\ fst served = Router.HTTPException 500 (Router.DetailText "Inference failed")
  /\ ~ (exists r w', run = (Ok r, w') /\ visualization_base64 r = None).
Proof.
  cbv zeta. split; [vm_compute; reflexivity|].
  split; [vm_compute; reflexivity|].
  split; [vm_compute; reflexivity|].
  intros (r & w' & H & _).
  apply (f_equal fst) in H. vm_compute in H. discriminate H.
Qed.

(** C3, amended.  When the visualization was requested, at least one
    object was detected and the visualization step raises, the
    single-image operation raises that same failure instead of
    returning: the endpoint answers 400 if the failure is a
    [ValueError] and 500 "Inference failed" otherwise. *)
Theorem visualization_failure_fails_request
  {cv : OpenCV} {pil : Pillow} {rt : Runtime} (st : Config.Settings)
  (image_file : UploadFile) (text_prompt : string) (thr mthr : Q) (w : world)
  (im : image) (ins : inputs) (outs : outputs) (all : list segmentation)
  (res : segmentation) (masks_polygon : list mask_polygon) (e : exn) :
  _load_image_from_upload st image_file = Ok im ->
  processor (TextRequest im text_prompt) = Ok ins ->
  model ins = Ok outs ->
  post_process_instance_segmentation outs thr mthr ins = Ok all ->
  index0 all = Ok res ->
  masks_to_polygon_data findContours approxPolyDP (seg_masks res) default_tolerance
  = Ok masks_polygon ->
  0 < len (seg_scores res) ->
  create_visualization st im (seg_masks res) (seg_boxes res)
    (Some (seg_scores res)) default_alpha true true = Raise e ->
  exists w',
    inference_text st image_file text_prompt thr mthr true w = (Raise e, w')
    /\ Router.inference_text st image_file text_prompt thr mthr true w
       = (match e with
          | ValueError v => Router.HTTPException 400 (Router.DetailStr v)
          | _ => Router.HTTPException 500 (Router.DetailText "Inference failed")
          end, w').
Proof.
  intros Hl Hp Hm Hpp Hi Hmp Hn Hv.
  assert (T : exists w',
            inference_text st image_file text_prompt thr mthr true w = (Raise e, w')).
  { unfold inference_text, respond, bind, lift, time_perf_counter, call_processor,
      call_model, call_post_process, logged, ret.
    rewrite Hl, Hp, Hm, Hpp, Hi, Hmp.
    apply Z.ltb_lt in Hn. rewrite Hn. cbn [andb]. rewrite Hv. eauto. }
  destruct T as [w' T]. exists w'. split; [exact T|].
  unfold Router.inference_text, Router.handlers.
  rewrite (bind_raise _ _ _ _ _ T). destruct e; reflexivity.
Qed.

Lemma visualization_failure_fails_request_witness :
  exists w',
    inference_text (cv := Bench.opencv) (pil := Bench.pillow_encoder_down)
      (rt := Bench.runtime) Config.settings Bench.square_5x5 "cat"
      (1 # 2) (1 # 2) true initial_world
    = (Raise (LibraryError "OSError: encoder error"), w')
    /\ Router.inference_text (cv := Bench.opencv) (pil := Bench.pillow_encoder_down)
         (rt := Bench.runtime) Config.settings Bench.square_5x5 "cat"
         (1 # 2) (1 # 2) true initial_world
       = (Router.HTTPException 500 (Router.DetailText "Inference failed"), w').
Proof.
  apply (visualization_failure_fails_request (cv := Bench.opencv)
           (pil := Bench.pillow_encoder_down) (rt := Bench.runtime)
           Config.settings Bench.square_5x5 "cat" (1 # 2) (1 # 2) initial_world
           (Image "RGB" (5, 5) (repeat 255 25))
           (TextRequest (Image "RGB" (5, 5) (repeat 255 25)) "cat")
           [Image "RGB" (5, 5) (repeat 255 25)]
           [Segmentation [9 # 10] [[0; 0; 4; 4]%Q] [Samples.full5]]
           (Segmentation [9 # 10] [[0; 0; 4; 4]%Q] [Samples.full5])
           [MaskPolygon [[(0, 0); (0, 4); (4, 4); (4, 0)]] 25]
           (LibraryError "OSError: encoder error")).
  - vm_compute. reflexivity.
  - reflexivity.
  - reflexivity.
  - vm_compute. reflexivity.
  - reflexivity.
  - vm_compute. reflexivity.
  - vm_compute. reflexivity.
  - vm_compute. reflexivity.
Defined.

(** The loading loop stops at the first upload that fails to load. *)
Lemma load_images_fails {pil : Pillow} {rt : Runtime} (st : Config.Settings)
  (image_files : list UploadFile) : forall images k file e,
  nth_error image_files k = Some file ->
  _load_image_from_upload st file = Raise e ->
  (forall j f, (j < k)%nat -> nth_error image_files j = Some f ->
               exists im, _load_image_from_upload st f = Ok im) ->
  load_images st image_files images = Raise e.
Proof.
  induction image_files as [|f0 rest IH]; intros images k file e Hk He Hbefore.
  - destruct k; discriminate.
  - destruct k as [|k]; cbn [nth_error load_images] in *.
    + injection Hk as ->. rewrite He. reflexivity.
    + destruct (Hbefore 0%nat f0 ltac:(lia) eq_refl) as [im0 H0].
      rewrite H0. cbn [rbind].
      apply (IH _ k file e Hk He).
      intros j f Hj Hf. apply (Hbefore (S j) f); [lia | exact Hf].
Qed.

(** The loading loop returns one image per upload. *)
Lemma load_images_length {pil : Pillow} {rt : Runtime} (st : Config.Settings)
  (image_files : list UploadFile) : forall images loaded,
  load_images st image_files images = Ok loaded ->
  length loaded = (length images + length image_files)%nat.
Proof.
  induction image_files as [|f rest IH]; intros images loaded H;
    cbn [load_images] in H.
  - injection H as <-. simpl. lia.
  - destruct (_load_image_from_upload st f) as [im|e]; [|discriminate].
    cbn [rbind] in H. apply IH in H. rewrite length_app in H. simpl in *. lia.
Qed.

(** The result loop numbers its entries by position. *)
Lemma batch_loop_indices {cv : OpenCV} {pil : Pillow} {rt : Runtime}
  (st : Config.Settings) rv (items : list (image * segmentation)) :
  forall start acc out,
    batch_loop st rv (combine (seq start (length items)) items) acc = Ok out ->
    exists new,
      out = acc ++ new
      /\ map image_index new = map Z.of_nat (seq start (length items)).
Proof.
  induction items as [|[im res] rest IH]; intros start acc out H;
    cbn [length seq combine batch_loop] in H.
  - injection H as <-. exists []. now rewrite app_nil_r.
  - destruct (batch_item_of st rv start im res) as [it|e] eqn:Hit; [|discriminate].
    cbn [rbind] in H. apply IH in H as (new & -> & Hnew).
    exists (it :: new). rewrite <- app_assoc. split; [reflexivity|].
    cbn [length seq map]. rewrite Hnew. f_equal.
    unfold batch_item_of in Hit.
    destruct (masks_to_polygon_data _ _ _ _) as [mp|e]; [|discriminate].
    cbn [rbind] in Hit.
    destruct (rv && (0 <? len (seg_scores res))).
    + destruct (create_visualization _ _ _ _ _ _ _ _) as [viz|e]; [|discriminate].
      cbn [rbind] in Hit. injection Hit as <-. reflexivity.
    + injection Hit as <-. reflexivity.
Qed.

(** C1 as stated fails: in a batch of two uploads whose second one is
    wider than the maximum dimension, [inference_batch] raises the
    error of that upload; there is no result sequence of length 2, and
    index 0 gets no result.  A model call that raises aborts the batch
    alike. *)
Lemma batch_isolation_counterexample :
  let run :=
    inference_batch (cv := Bench.opencv) (pil := Bench.pillow)
      (rt := Bench.runtime) Config.settings
      [Bench.square_5x5; Bench.wide_5000x1] [Some "cat"; Some "dog"]%string
      (1 # 2) (1 # 2) false initial_world in
  let run_model_down :=
    inference_batch (cv := Bench.opencv) (pil := Bench.pillow)
      (rt := Bench.runtime_model_down) Config.settings
      [Bench.square_5x5; Bench.blob_4x4] [Some "cat"; Some "dog"]%string
      (1 # 2) (1 # 2) false initial_world in
  fst run = Raise (ValueError (ImageDimensionExceeded 5000 1 4096))
  /\ fst run_model_down = Raise (LibraryError "RuntimeError: CUDA out of memory")
  /\ ~ (exists r w', run = (Ok r, w') /\ length (results r) = 2%nat)
  /\ ~ (exists r w', run_model_down = (Ok r, w') /\ length (results r) = 2%nat).
Proof.
  cbv zeta. split; [vm_compute; reflexivity|]. split; [vm_compute; reflexivity|].
  split; intros (r & w' & H & _); apply (f_equal fst) in H;
    vm_compute in H; discriminate H.
Qed.

(** C1, amended.  In a batch within the size limit, when the upload at
    index k fails to load (those before it load), or when every upload
    loads and the one model call of the batch raises, [inference_batch]
    raises that failure for the whole batch: it returns no result
    sequence.  In the first case the adapter has not been called. *)
Theorem failed_item_aborts_batch
  {cv : OpenCV} {pil : Pillow} {rt : Runtime} (st : Config.Settings)
  (image_files : list UploadFile) (text_prompts : list (option string))
  (thr mthr : Q) (rv : bool) (w : world) (e : exn) :
  len image_files <= Config.MAX_BATCH_SIZE st ->
  ((exists k file,
      nth_error image_files k = Some file
      /\ _load_image_from_upload st file = Raise e
      /\ (forall j f, (j < k)%nat -> nth_error image_files j = Some f ->
                      exists im, _load_image_from_upload st f = Ok im))
   \/ (exists images ins,
         load_images st image_files [] = Ok images
         /\ processor (BatchRequest images text_prompts) = Ok ins
         /\ model ins = Raise e)) ->
  (exists w',
     inference_batch st image_files text_prompts thr mthr rv w = (Raise e, w'))
  /\ (forall r w',
        inference_batch st image_files text_prompts thr mthr rv w <> (Ok r, w'))
  /\ ((exists k file,
         nth_error image_files k = Some file
         /\ _load_image_from_upload st file = Raise e
         /\ (forall j f, (j < k)%nat -> nth_error image_files j = Some f ->
                         exists im, _load_image_from_upload st f = Ok im)) ->
      inference_batch st image_files text_prompts thr mthr rv w
      = (Raise e, World (adapter_log w) (S (clock_reads w)))).
Proof.
  intros Hsize H.
  assert (Hb : (Config.MAX_BATCH_SIZE st <? len image_files) = false)
    by (apply Z.ltb_ge; exact Hsize).
  assert (L : forall k file,
            nth_error image_files k = Some file ->
            _load_image_from_upload st file = Raise e ->
            (forall j f, (j < k)%nat -> nth_error image_files j = Some f ->
                         exists im, _load_image_from_upload st f = Ok im) ->
            inference_batch st image_files text_prompts thr mthr rv w
            = (Raise e, World (adapter_log w) (S (clock_reads w)))).
  { intros k file Hk He Hbefore.
    unfold inference_batch, bind, time_perf_counter, lift. rewrite Hb.
    rewrite (load_images_fails st image_files [] k file e Hk He Hbefore).
    reflexivity. }
  assert (R : exists w',
            inference_batch st image_files text_prompts thr mthr rv w = (Raise e, w')).
  { destruct H as [(k & file & Hk & He & Hbefore) | (images & ins & Hl & Hp & Hm)].
    - rewrite (L k file Hk He Hbefore). eauto.
    - unfold inference_batch, bind, time_perf_counter, lift, call_processor,
        call_model, logged. rewrite Hb, Hl, Hp, Hm. eauto. }
  split; [exact R|]. split.
  - intros r w' E. destruct R as [w1 R]. rewrite R in E. discriminate E.
  - intros (k & file & Hk & He & Hbefore). exact (L k file Hk He Hbefore).
Qed.

Lemma failed_item_aborts_batch_witness :
  (exists w',
     inference_batch (cv := Bench.opencv) (pil := Bench.pillow)
       (rt := Bench.runtime) Config.settings
       [Bench.square_5x5; Bench.wide_5000x1] [Some "cat"; Some "dog"]%string
       (1 # 2) (1 # 2) false initial_world
     = (Raise (ValueError (ImageDimensionExceeded 5000 1 4096)), w'))
  /\ (forall r w',
        inference_batch (cv := Bench.opencv) (pil := Bench.pillow)
          (rt := Bench.runtime) Config.settings
          [Bench.square_5x5; Bench.wide_5000x1] [Some "cat"; Some "dog"]%string
          (1 # 2) (1 # 2) false initial_world <> (Ok r, w'))
  /\ inference_batch (cv := Bench.opencv) (pil := Bench.pillow)
       (rt := Bench.runtime) Config.settings
       [Bench.square_5x5; Bench.wide_5000x1] [Some "cat"; Some "dog"]%string
       (1 # 2) (1 # 2) false initial_world
     = (Raise (ValueError (ImageDimensionExceeded 5000 1 4096)), World [] 1).
Proof.
  assert (F : exists k file,
            nth_error [Bench.square_5x5; Bench.wide_5000x1] k = Some file
            /\ _load_image_from_upload (pil := Bench.pillow) (rt := Bench.runtime)
                 Config.settings file
               = Raise (ValueError (ImageDimensionExceeded 5000 1 4096))
            /\ (forall j f, (j < k)%nat ->
                  nth_error [Bench.square_5x5; Bench.wide_5000x1] j = Some f ->
                  exists im,
                    _load_image_from_upload (pil := Bench.pillow)
                      (rt := Bench.runtime) Config.settings f = Ok im)).
  { exists 1%nat, Bench.wide_5000x1.
    split; [reflexivity|]. split; [vm_compute; reflexivity|].
    intros j f Hj Hf. destruct j as [|j]; [|lia].
    injection Hf as <-. eexists. vm_compute. reflexivity. }
  destruct (failed_item_aborts_batch (cv := Bench.opencv) (pil := Bench.pillow)
              (rt := Bench.runtime) Config.settings
              [Bench.square_5x5; Bench.wide_5000x1] [Some "cat"; Some "dog"]%string
              (1 # 2) (1 # 2) false initial_world
              (ValueError (ImageDimensionExceeded 5000 1 4096))
              ltac:(vm_compute; discriminate) (or_introl F)) as (A & B & C).
  split; [exact A|]. split; [exact B|]. exact (C F).
Defined.

(** When [inference_batch] returns, every entry of the result is a full
    per-image result (a [batch_item] has no error field) numbered by
    its position, and there is one entry per image the adapter
    answered for. *)
Lemma batch_results_are_indexed
  {cv : OpenCV} {pil : Pillow} {rt : Runtime} (st : Config.Settings)
  image_files text_prompts thr mthr rv w r w' :
  inference_batch st image_files text_prompts thr mthr rv w = (Ok r, w') ->
  total_images r = len image_files
  /\ (length (results r) <= length image_files)%nat
  /\ forall i it, nth_error (results r) i = Some it -> image_index it = Z.of_nat i.
Proof.
  unfold inference_batch. intros H.
  apply bind_ok in H as (t0 & w1 & _ & H).
  destruct (Config.MAX_BATCH_SIZE st <? len image_files); [discriminate|].
  apply bind_ok in H as (images & w2 & Hl & H).
  apply bind_ok in H as (ins & w3 & _ & H).
  apply bind_ok in H as (outs & w4 & _ & H).
  apply bind_ok in H as (all & w5 & _ & H).
  apply bind_ok in H as (out & w6 & Hb & H).
  apply bind_ok in H as (t1 & w7 & _ & H).
  apply bind_ok in H as (avg & w8 & _ & H).
  unfold ret in H. injection H as <- _. cbn [total_images results].
  unfold lift in Hl, Hb. injection Hl as Hl _. injection Hb as Hb _.
  apply load_images_length in Hl. simpl in Hl.
  unfold enumerate, zip in Hb.
  apply batch_loop_indices in Hb as (new & -> & Hnew). cbn [app].
  assert (Hlen : length new = length (combine images all)).
  { apply (f_equal (@length Z)) in Hnew. now rewrite !length_map, length_seq in Hnew. }
  split; [reflexivity|]. split.
  - rewrite Hlen, length_combine. lia.
  - intros i it Hi.
    assert (Hlt : (i < length new)%nat) by (apply nth_error_Some; congruence).
    apply (f_equal (fun l => nth_error l i)) in Hnew.
    rewrite !nth_error_map, Hi in Hnew. cbn [option_map] in Hnew.
    rewrite nth_error_seq in Hnew.
    destruct (Nat.ltb_spec i (length (combine images all))) as [_|?]; [|lia].
    cbn [option_map] in Hnew. injection Hnew as ->. reflexivity.
Qed.

(** C10 as stated fails: the processor is called on the empty batch
    before the average is computed, so with a processor that refuses an
    empty image list both checks pass and [inference_batch] raises the
    processor's [ValueError]; no division takes place. *)
Lemma empty_batch_counterexample :
  let run :=
    inference_batch (cv := Bench.opencv) (pil := Bench.pillow)
      (rt := Bench.runtime_rejects_empty) Config.settings [] [] (1 # 2) (1 # 2)
      false initial_world in
  (Config.MAX_BATCH_SIZE Config.settings <? len (@nil UploadFile)) = false
  /\ negb (len (@nil UploadFile) =? len (@nil (option string))) = false
  /\ run = (Raise (ValueError (OtherValueError "images must not be empty")),
            World [ProcessorCalled (BatchRequest [] [])] 1)
  /\ fst run <> Raise ZeroDivisionError.
Proof.
  cbv zeta. split; [reflexivity|]. split; [reflexivity|].
  split; [reflexivity|]. vm_compute. discriminate.
Qed.

(** C10, amended.  For a batch without images and without prompts,
    under a non-negative batch limit: the size check and the length
    comparison pass and [inference_batch] never returns a result.  The
    adapter is called on the empty batch first: if the processor, the
    model or the post-processing raises, [inference_batch] raises that
    exception; if all three answer, it raises [ZeroDivisionError] at
    [total_time_ms / len(image_files)]. *)
Theorem empty_batch_never_returns
  {cv : OpenCV} {pil : Pillow} {rt : Runtime}
  (st : Config.Settings) (thr mthr : Q) (rv : bool) (w : world) :
  0 <= Config.MAX_BATCH_SIZE st ->
  (Config.MAX_BATCH_SIZE st <? len (@nil UploadFile)) = false
  /\ negb (len (@nil UploadFile) =? len (@nil (option string))) = false
  /\ (forall r w', inference_batch st [] [] thr mthr rv w <> (Ok r, w'))
  /\ match processor (BatchRequest [] []) with
     | Raise e =>
         inference_batch st [] [] thr mthr rv w
         = (Raise e,
            World (adapter_log w ++ [ProcessorCalled (BatchRequest [] [])])
              (S (clock_reads w)))
     | Ok ins =>
         match model ins with
         | Raise e =>
             inference_batch st [] [] thr mthr rv w
             = (Raise e,
                World (adapter_log w ++ [ProcessorCalled (BatchRequest [] []);
                                         ModelCalled])
                  (S (clock_reads w)))
         | Ok outs =>
             match post_process_instance_segmentation outs thr mthr ins with
             | Raise e =>
                 inference_batch st [] [] thr mthr rv w
                 = (Raise e,
                    World (adapter_log w ++ [ProcessorCalled (BatchRequest [] []);
                                             ModelCalled; PostProcessCalled])
                      (S (clock_reads w)))
             | Ok _ =>
                 inference_batch st [] [] thr mthr rv w
                 = (Raise ZeroDivisionError,
                    World (adapter_log w ++ [ProcessorCalled (BatchRequest [] []);
                                             ModelCalled; PostProcessCalled])
                      (S (S (clock_reads w))))
             end
         end
     end.
Proof.
  intros Hmax.
  assert (Hb : (Config.MAX_BATCH_SIZE st <? len (@nil UploadFile)) = false)
    by (apply Z.ltb_ge; exact Hmax).
  split; [exact Hb|]. split; [reflexivity|]. split.
  - intros r w' H. unfold inference_batch in H.
    apply bind_ok in H as (t0 & w1 & _ & H). rewrite Hb in H.
    apply bind_ok in H as (images & w2 & _ & H).
    apply bind_ok in H as (ins & w3 & _ & H).
    apply bind_ok in H as (outs & w4 & _ & H).
    apply bind_ok in H as (all & w5 & _ & H).
    apply bind_ok in H as (out & w6 & _ & H).
    apply bind_ok in H as (t1 & w7 & _ & H).
    apply bind_ok in H as (avg & w8 & Hd & _).
    unfold lift, py_div in Hd. cbn in Hd. discriminate Hd.
  - unfold inference_batch, bind, time_perf_counter, lift, call_processor,
      call_model, call_post_process, logged. rewrite Hb.
    cbn [load_images adapter_log clock_reads].
    destruct (processor (BatchRequest [] [])) as [ins|e]; [|reflexivity].
    destruct (model ins) as [outs|e]; [|rewrite <- !app_assoc; reflexivity].
    destruct (post_process_instance_segmentation outs thr mthr ins) as [all|e];
      [|rewrite <- !app_assoc; reflexivity].
    rewrite <- !app_assoc. reflexivity.
Qed.

Lemma empty_batch_never_returns_witness :
  (Config.MAX_BATCH_SIZE Config.settings <? len (@nil UploadFile)) = false
  /\ negb (len (@nil UploadFile) =? len (@nil (option string))) = false
  /\ (forall r w',
        inference_batch (cv := Bench.opencv) (pil := Bench.pillow)
          (rt := Bench.runtime) Config.settings [] [] (1 # 2) (1 # 2) false
          initial_world <> (Ok r, w'))
  /\ inference_batch (cv := Bench.opencv) (pil := Bench.pillow)
       (rt := Bench.runtime) Config.settings [] [] (1 # 2) (1 # 2) false
       initial_world
     = (Raise ZeroDivisionError,
        World [ProcessorCalled (BatchRequest [] []); ModelCalled; PostProcessCalled]
          2).
Proof.
  apply (empty_batch_never_returns (cv := Bench.opencv) (pil := Bench.pillow)
           (rt := Bench.runtime) Config.settings (1 # 2) (1 # 2) false
           initial_world).
  vm_compute. discriminate.
Defined.

End OrchestratorProperties.

(** ** More on the conversion of masks *)

Module ConversionProperties.
Import MaskUtils Spec Measures MaskUtilsFacts.

Section Generic.
Variable findContours : image_u8 -> list contour.
Variable approxPolyDP : contour -> Q -> contour.

(** The batch loop pairs every mask with its own entry. *)
Lemma masks_to_polygon_data_loop_entries masks eps : forall acc data,
  masks_to_polygon_data_loop findContours approxPolyDP masks eps acc = Ok data ->
  exists new,
    data = acc ++ new
    /\ Forall2 (fun m d =>
                  area d = calculate_mask_area m
                  /\ mask_to_polygons findContours approxPolyDP m eps
                     = Ok (polygons d)) masks new.
Proof.
  induction masks as [|m rest IH]; intros acc data H;
    cbn [masks_to_polygon_data_loop] in H.
  - injection H as <-. exists []. rewrite app_nil_r. split; [reflexivity|constructor].
  - destruct (mask_to_polygons findContours approxPolyDP m eps) as [ps|e] eqn:Hm;
      cbn [rbind] in H; [|discriminate].
    apply IH in H as (new & -> & Hnew).
    exists (MaskPolygon ps (calculate_mask_area m) :: new).
    rewrite <- app_assoc. split; [reflexivity|].
    constructor; [|exact Hnew]. cbn [area polygons]. split; [reflexivity | exact Hm].
Qed.

(** The contour loop fails only on an empty simplification. *)
Lemma polygons_of_contours_raise cs eps : forall acc e,
  polygons_of_contours approxPolyDP cs eps acc = Raise e ->
  e = IndexError
  /\ exists c, In c cs /\ (3 <= length c)%nat /\ approxPolyDP c eps = [].
Proof.
  induction cs as [|c rest IH]; intros acc e H; cbn [polygons_of_contours] in H.
  - discriminate.
  - rewrite contour_to_polygon_cases in H.
    destruct (Nat.ltb_spec (length c) 3) as [Hc|Hc]; cbn [rbind] in H.
    + apply IH in H as (-> & c' & Hin & Hl & He).
      split; [reflexivity|]. exists c'. split; [right; exact Hin | auto].
    + destruct (approxPolyDP c eps) as [|p q] eqn:Hs; cbn [rbind] in H.
      * injection H as <-. split; [reflexivity|].
        exists c. split; [left; reflexivity | auto].
      * destruct (3 <=? length (p :: q))%nat; cbn [rbind] in H;
          apply IH in H as (-> & c' & Hin & Hl & He);
          (split; [reflexivity|]; exists c'; split; [right; exact Hin | auto]).
Qed.

Lemma polygons_of_contours_empty_simplification cs eps : forall acc c,
  In c cs -> (3 <= length c)%nat -> approxPolyDP c eps = [] ->
  polygons_of_contours approxPolyDP cs eps acc = Raise IndexError.
Proof.
  induction cs as [|c0 rest IH]; intros acc c Hin Hl He; [destruct Hin|].
  cbn [polygons_of_contours]. rewrite contour_to_polygon_cases.
  destruct (Nat.ltb_spec (length c0) 3) as [Hc|Hc]; cbn [rbind].
  - destruct Hin as [-> | Hin]; [lia|]. eapply IH; eauto.
  - destruct (approxPolyDP c0 eps) as [|p q] eqn:Hs; cbn [rbind]; [reflexivity|].
    destruct Hin as [-> | Hin]; [congruence|].
    destruct (3 <=? length (p :: q))%nat; cbn [rbind]; eapply IH; eauto.
Qed.

(** Short contours never reach the simplifier. *)
Lemma polygons_of_contours_long cs eps : forall acc,
  polygons_of_contours approxPolyDP cs eps acc
  = polygons_of_contours approxPolyDP (long_contours cs) eps acc.
Proof.
  unfold long_contours.
  induction cs as [|c rest IH]; intros acc; [reflexivity|].
  cbn [filter]. destruct (length c <? 3)%nat eqn:Hc; cbn [negb].
  - cbn [polygons_of_contours]. rewrite contour_to_polygon_cases, Hc.
    cbn [rbind]. apply IH.
  - cbn [polygons_of_contours]. rewrite contour_to_polygon_cases, Hc.
    destruct (approxPolyDP c eps) as [|p q]; cbn [rbind]; [reflexivity|].
    destruct (3 <=? length (p :: q))%nat; cbn [rbind]; apply IH.
Qed.

End Generic.

Lemma Forall2_lookup {A B} (R : A -> B -> Prop) l l' :
  Forall2 R l l' ->
  forall i a, nth_error l i = Some a -> exists b, nth_error l' i = Some b /\ R a b.
Proof.
  induction 1 as [|x y l l' Hxy _ IH]; intros [|i] a Ha; cbn [nth_error] in *;
    try discriminate.
  - injection Ha as <-. eauto.
  - apply IH. exact Ha.
Qed.

Lemma polygon_data_length
  (findContours : image_u8 -> list contour)
  (approxPolyDP : contour -> Q -> contour) masks eps data :
  masks_to_polygon_data findContours approxPolyDP masks eps = Ok data ->
  length data = length masks.
Proof.
  intros H. unfold masks_to_polygon_data in H.
  apply masks_to_polygon_data_loop_entries in H as (new & -> & F). cbn [app].
  symmetry. eapply Forall2_length. exact F.
Qed.

(** X1.  When [masks_to_polygon_data] returns, its list has one entry
    per mask, in the order of the masks: entry i carries the pixel sum
    of mask i as area and the polygons [mask_to_polygons] returns for
    mask i. *)
Theorem polygon_data_is_entrywise
  (findContours : image_u8 -> list contour)
  (approxPolyDP : contour -> Q -> contour)
  (masks : list mask) (eps : Q) (data : list mask_polygon) :
  masks_to_polygon_data findContours approxPolyDP masks eps = Ok data ->
  length data = length masks
  /\ forall i m,
       nth_error masks i = Some m ->
       exists d,
         nth_error data i = Some d
         /\ area d = calculate_mask_area m
         /\ mask_to_polygons findContours approxPolyDP m eps = Ok (polygons d).
Proof.
  intros H. unfold masks_to_polygon_data in H.
  apply masks_to_polygon_data_loop_entries in H as (new & -> & F). cbn [app].
  split.
  - symmetry. eapply Forall2_length. exact F.
  - intros i m Hm.
    destruct (Forall2_lookup _ _ _ F i m Hm) as (d & Hd & Ha & Hp). eauto.
Qed.

Lemma polygon_data_is_entrywise_witness :
  length [MaskPolygon [[(0, 0); (0, 4); (4, 4); (4, 0)]] 25;
          MaskPolygon [] 0; MaskPolygon [] 4]
  = length [Samples.full5; Samples.empty3; Samples.blob2]
  /\ forall i m,
       nth_error [Samples.full5; Samples.empty3; Samples.blob2] i = Some m ->
       exists d,
         nth_error [MaskPolygon [[(0, 0); (0, 4); (4, 4); (4, 0)]] 25;
                    MaskPolygon [] 0; MaskPolygon [] 4] i = Some d
         /\ area d = calculate_mask_area m
         /\ mask_to_polygons BorderFollowing.findContours
              DouglasPeucker.approxPolyDP m default_tolerance = Ok (polygons d).
Proof.
  apply (polygon_data_is_entrywise BorderFollowing.findContours
           DouglasPeucker.approxPolyDP
           [Samples.full5; Samples.empty3; Samples.blob2] default_tolerance).
  vm_compute. reflexivity.
Defined.

(** X2.  In the runs in which the two OpenCV calls return, the code of
    [mask_to_polygons] itself raises exactly when the simplifier has
    returned an empty array for a contour of at least 3 points, and
    then what it raises is the [IndexError] of [polygon[0]]. *)
Theorem mask_to_polygons_raises_on_empty_simplification
  (findContours : image_u8 -> list contour)
  (approxPolyDP : contour -> Q -> contour) (m : mask) (eps : Q) (e : exn) :
  mask_to_polygons findContours approxPolyDP m eps = Raise e
  <-> e = IndexError
      /\ exists c, In c (findContours (to_uint8 m))
                   /\ (3 <= length c)%nat /\ approxPolyDP c eps = [].
Proof.
  unfold mask_to_polygons. split.
  - apply polygons_of_contours_raise.
  - intros (-> & c & Hin & Hl & He).
    eapply polygons_of_contours_empty_simplification; eauto.
Qed.

(** X3.  Contours of fewer than 3 points are skipped before the
    simplifier is called: [mask_to_polygons] gives the same outcome,
    result or exception, on the contours of at least 3 points alone,
    and it returns at most one polygon per such contour. *)
Theorem short_contours_are_skipped
  (findContours : image_u8 -> list contour)
  (approxPolyDP : contour -> Q -> contour) (m : mask) (eps : Q) :
  mask_to_polygons findContours approxPolyDP m eps
  = mask_to_polygons (fun f => long_contours (findContours f)) approxPolyDP m eps
  /\ forall ps,
       mask_to_polygons findContours approxPolyDP m eps = Ok ps ->
       (length ps <= length (long_contours (findContours (to_uint8 m))))%nat.
Proof.
  split.
  - unfold mask_to_polygons. apply polygons_of_contours_long.
  - intros ps H. unfold mask_to_polygons in H.
    apply polygons_of_contours_ok in H. cbn [app] in H. subst ps.
    unfold kept_polygons, long_contours.
    etransitivity; [apply filter_length_le|]. rewrite length_map. lia.
Qed.

(** The tracer finds a one-point contour and a square in this mask;
    only the square can give a polygon. *)
Example isolated_pixel_is_skipped :
  let m := [[1;0;0;0;0;0];[0;0;1;1;1;1];[0;0;1;1;1;1];[0;0;1;1;1;1];
            [0;0;1;1;1;1]] in
  BorderFollowing.findContours (to_uint8 m)
  = [[(0, 0)]; [(2, 1); (2, 4); (5, 4); (5, 1)]]
  /\ mask_to_polygons BorderFollowing.findContours DouglasPeucker.approxPolyDP
       m default_tolerance
     = Ok [[(2, 1); (2, 4); (5, 4); (5, 1)]].
Proof. vm_compute. split; reflexivity. Qed.

Lemma row_sum_bounds row :
  binary_row row ->
  0 <= fold_right Z.add 0 row <= Z.of_nat (length row)
  /\ (fold_right Z.add 0 row = 0 <-> Forall (fun v => v = 0) row).
Proof.
  unfold binary_row. induction 1 as [|v row Hv _ IH]; cbn [fold_right length].
  - split; [lia|]. split; [constructor | reflexivity].
  - destruct IH as [Hb Hz]. split; [destruct Hv; subst; lia|]. split.
    + intros H0. assert (v = 0 /\ fold_right Z.add 0 row = 0) as [-> Hr]
        by (destruct Hv; subst; lia).
      constructor; [reflexivity | apply Hz; exact Hr].
    + intros F. inversion F as [|? ? -> F']; subst.
      apply Hz in F'. lia.
Qed.

(** X4.  For a binary mask, [calculate_mask_area] lies between 0 and
    the number of pixels, and it is 0 only for the mask without a
    foreground pixel. *)
Theorem area_bounds (m : mask) :
  binary m ->
  0 <= calculate_mask_area m <= pixel_count m
  /\ (calculate_mask_area m = 0 <-> blank m).
Proof.
  unfold binary, calculate_mask_area, tensor_sum, pixel_count, blank.
  induction 1 as [|row m Hr _ IH]; cbn [fold_right].
  - split; [lia|]. split; [constructor | reflexivity].
  - destruct IH as [Hb Hz]. destruct (row_sum_bounds row Hr) as [Hrb Hrz].
    split; [lia|]. split.
    + intros H0. constructor; [apply Hrz | apply Hz]; lia.
    + intros F. inversion F as [|? ? F0 F']; subst.
      apply Hrz in F0. apply Hz in F'. lia.
Qed.

Lemma area_bounds_witness :
  0 <= calculate_mask_area Samples.blob2 <= pixel_count Samples.blob2
  /\ (calculate_mask_area Samples.blob2 = 0 <-> blank Samples.blob2).
Proof.
  apply (area_bounds Samples.blob2).
  unfold binary, binary_row.
  repeat (first [apply Forall_nil | apply Forall_cons]); cbv beta; lia.
Defined.

End ConversionProperties.

(** ** More on the orchestrator *)

Module PipelineProperties.
Import MaskUtils Visualizer Inference Spec Measures InferenceFacts.

(** A successful load went through both tests. *)
Lemma load_ok {pil : Pillow} {rt : Runtime} (st : Config.Settings) file im :
  _load_image_from_upload st file = Ok im ->
  len (content file) <= Config.MAX_IMAGE_SIZE_MB st * 1048576
  /\ exists raw,
       image_open (content file) = Ok raw
       /\ (if negb (String.eqb (mode raw) "RGB") then convert raw "RGB" else Ok raw)
          = Ok im
       /\ fst (size im) <= Config.MAX_IMAGE_DIMENSION st
       /\ snd (size im) <= Config.MAX_IMAGE_DIMENSION st.
Proof.
  unfold _load_image_from_upload. intros H.
  destruct (negb (Qle_bool _ _)) eqn:T; [discriminate|].
  split.
  - destruct (Z.lt_ge_cases (Config.MAX_IMAGE_SIZE_MB st * 1048576)
                (len (content file))) as [Hbig|Hok]; [|lia].
    apply size_test in Hbig. congruence.
  - destruct (image_open (content file)) as [raw|e]; cbn [rbind] in H; [|discriminate].
    exists raw. split; [reflexivity|].
    destruct (if negb (String.eqb (mode raw) "RGB") then convert raw "RGB" else Ok raw)
      as [rgb|e]; cbn [rbind] in H; [|discriminate].
    destruct (size rgb) as [width height] eqn:Hsz.
    destruct ((Config.MAX_IMAGE_DIMENSION st <? width)
              || (Config.MAX_IMAGE_DIMENSION st <? height)) eqn:D; [discriminate|].
    injection H as <-. rewrite Hsz. cbn [fst snd].
    apply orb_false_iff in D as [D1 D2].
    apply Z.ltb_ge in D1. apply Z.ltb_ge in D2. auto.
Qed.

(** X5.  An image that [_load_image_from_upload] returns is within the
    limits: the payload is at most the configured number of megabytes,
    the image is the decoded payload, converted to RGB unless it is RGB
    already, and its width and height are at most the maximum
    dimension. *)
Theorem loaded_image_within_limits {pil : Pillow} {rt : Runtime}
  (st : Config.Settings) (file : UploadFile) (im : image) :
  _load_image_from_upload st file = Ok im ->
  len (content file) <= Config.MAX_IMAGE_SIZE_MB st * 1048576
  /\ fst (size im) <= Config.MAX_IMAGE_DIMENSION st
  /\ snd (size im) <= Config.MAX_IMAGE_DIMENSION st
  /\ exists raw,
       image_open (content file) = Ok raw
       /\ (if negb (String.eqb (mode raw) "RGB") then convert raw "RGB" else Ok raw)
          = Ok im.
Proof.
  intros H. apply load_ok in H as (Hs & raw & Ho & Hi & Hw & Hh). eauto 8.
Qed.

Lemma loaded_image_within_limits_witness :
  len (content Bench.blob_4x4) <= Config.MAX_IMAGE_SIZE_MB Config.settings * 1048576
  /\ fst (size (Image "RGB" (4, 4) [0;0;0;0; 0;255;255;0; 0;255;255;0; 0;0;0;0]))
     <= Config.MAX_IMAGE_DIMENSION Config.settings
  /\ snd (size (Image "RGB" (4, 4) [0;0;0;0; 0;255;255;0; 0;255;255;0; 0;0;0;0]))
     <= Config.MAX_IMAGE_DIMENSION Config.settings
  /\ exists raw,
       image_open (Runtime := Bench.runtime) (content Bench.blob_4x4) = Ok raw
       /\ (if negb (String.eqb (mode raw) "RGB")
           then convert (Pillow := Bench.pillow) raw "RGB" else Ok raw)
          = Ok (Image "RGB" (4, 4) [0;0;0;0; 0;255;255;0; 0;255;255;0; 0;0;0;0]).
Proof.
  apply (loaded_image_within_limits (pil := Bench.pillow) (rt := Bench.runtime)
           Config.settings Bench.blob_4x4).
  vm_compute. reflexivity.
Defined.

(** X6.  When the payload is within the byte limit and cannot be
    decoded, the text operation raises the decoder's exception with the
    adapter untouched, and the endpoint answers 400 if that exception
    is a [ValueError] and 500 "Inference failed" otherwise. *)
Theorem undecodable_upload_fails_request
  {cv : OpenCV} {pil : Pillow} {rt : Runtime} (st : Config.Settings)
  (image_file : UploadFile) (text_prompt : string) (thr mthr : Q) (rv : bool)
  (w : world) (e : exn) :
  len (content image_file) <= Config.MAX_IMAGE_SIZE_MB st * 1048576 ->
  image_open (content image_file) = Raise e ->
  inference_text st image_file text_prompt thr mthr rv w
  = (Raise e, World (adapter_log w) (S (clock_reads w)))
  /\ Router.inference_text st image_file text_prompt thr mthr rv w
     = (match e with
        | ValueError v => Router.HTTPException 400 (Router.DetailStr v)
        | _ => Router.HTTPException 500 (Router.DetailText "Inference failed")
        end, World (adapter_log w) (S (clock_reads w))).
Proof.
  intros Hs Ho.
  assert (L : _load_image_from_upload st image_file = Raise e).
  { unfold _load_image_from_upload.
    destruct (negb (Qle_bool _ _)) eqn:T; [apply size_test in T; lia|].
    rewrite Ho. reflexivity. }
  pose proof (OrchestratorProperties.inference_text_load_fails st image_file
                text_prompt thr mthr rv w e L) as T.
  split; [exact T|].
  unfold Router.inference_text, Router.handlers.
  rewrite (bind_raise _ _ _ _ _ T). destruct e; reflexivity.
Qed.

Lemma undecodable_upload_fails_request_witness :
  inference_text (cv := Bench.opencv) (pil := Bench.pillow) (rt := Bench.runtime)
    Config.settings {| content := Bench.bytes_of [1; 2] |} "cat" (1 # 2) (1 # 2)
    true initial_world
  = (Raise (LibraryError "PIL.UnidentifiedImageError"), World [] 1)
  /\ Router.inference_text (cv := Bench.opencv) (pil := Bench.pillow)
       (rt := Bench.runtime) Config.settings {| content := Bench.bytes_of [1; 2] |}
       "cat" (1 # 2) (1 # 2) true initial_world
     = (Router.HTTPException 500 (Router.DetailText "Inference failed"), World [] 1).
Proof.
  apply (undecodable_upload_fails_request (cv := Bench.opencv) (pil := Bench.pillow)
           (rt := Bench.runtime) Config.settings
           {| content := Bench.bytes_of [1; 2] |} "cat" (1 # 2) (1 # 2) true
           initial_world (LibraryError "PIL.UnidentifiedImageError")).
  - vm_compute. discriminate.
  - reflexivity.
Defined.

(** What [respond] does to the world: one more clock reading. *)
Lemma respond_effects {cv : OpenCV} {pil : Pillow} {rt : Runtime}
  (st : Config.Settings) start_time im res rv w r w' :
  respond st start_time im res rv w = (Ok r, w') ->
  w' = World (adapter_log w) (S (clock_reads w)).
Proof.
  unfold respond, bind, lift, time_perf_counter, ret.
  destruct (masks_to_polygon_data _ _ _ _) as [mp|e]; [|discriminate].
  destruct (rv && (0 <? len (seg_scores res))).
  - destruct (create_visualization _ _ _ _ _ _ _ _) as [viz|e]; [|discriminate].
    intros H. injection H as _ <-. reflexivity.
  - intros H. injection H as _ <-. reflexivity.
Qed.

(** The steps of a text inference that returns. *)
Lemma inference_text_anatomy {cv : OpenCV} {pil : Pillow} {rt : Runtime}
  (st : Config.Settings) image_file text_prompt thr mthr rv w r w' :
  inference_text st image_file text_prompt thr mthr rv w = (Ok r, w') ->
  exists im ins outs all res,
    _load_image_from_upload st image_file = Ok im
    /\ processor (TextRequest im text_prompt) = Ok ins
    /\ model ins = Ok outs
    /\ post_process_instance_segmentation outs thr mthr ins = Ok all
    /\ index0 all = Ok res
    /\ respond st (perf_counter (clock_reads w)) im res rv
         (World (adapter_log w ++ [ProcessorCalled (TextRequest im text_prompt);
                                   ModelCalled; PostProcessCalled])
            (S (clock_reads w)))
       = (Ok r, w').
Proof.
  unfold inference_text, bind, time_perf_counter, lift, call_processor, call_model,
    call_post_process, logged. cbn [adapter_log clock_reads].
  destruct (_load_image_from_upload st image_file) as [im|e]; [|discriminate].
  destruct (processor (TextRequest im text_prompt)) as [ins|e] eqn:Hp; [|discriminate].
  destruct (model ins) as [outs|e] eqn:Hm; [|discriminate].
  destruct (post_process_instance_segmentation outs thr mthr ins) as [all|e] eqn:Hpp;
    [|discriminate].
  destruct (index0 all) as [res|e] eqn:Hi; [|discriminate].
  rewrite <- !app_assoc. cbn [app]. intros H.
  exists im, ins, outs, all, res. auto 8.
Qed.

(** The same for a box-prompted inference. *)
Lemma inference_bbox_anatomy {cv : OpenCV} {pil : Pillow} {rt : Runtime}
  (st : Config.Settings) image_file bounding_boxes box_labels thr mthr rv w r w' :
  inference_bbox st image_file bounding_boxes box_labels thr mthr rv w = (Ok r, w') ->
  exists im ins outs all res,
    _load_image_from_upload st image_file = Ok im
    /\ processor (BoxRequest im bounding_boxes box_labels) = Ok ins
    /\ model ins = Ok outs
    /\ post_process_instance_segmentation outs thr mthr ins = Ok all
    /\ index0 all = Ok res
    /\ respond st (perf_counter (clock_reads w)) im res rv
         (World (adapter_log w
                 ++ [ProcessorCalled (BoxRequest im bounding_boxes box_labels);
                     ModelCalled; PostProcessCalled])
            (S (clock_reads w)))
       = (Ok r, w').
Proof.
  unfold inference_bbox, bind, time_perf_counter, lift, call_processor, call_model,
    call_post_process, logged. cbn [adapter_log clock_reads].
  destruct (_load_image_from_upload st image_file) as [im|e]; [|discriminate].
  destruct (processor (BoxRequest im bounding_boxes box_labels)) as [ins|e] eqn:Hp;
    [|discriminate].
  destruct (model ins) as [outs|e] eqn:Hm; [|discriminate].
  destruct (post_process_instance_segmentation outs thr mthr ins) as [all|e] eqn:Hpp;
    [|discriminate].
  destruct (index0 all) as [res|e] eqn:Hi; [|discriminate].
  rewrite <- !app_assoc. cbn [app]. intros H.
  exists im, ins, outs, all, res. auto 8.
Qed.

(** The converse: the steps determine the run. *)
Lemma inference_text_steps {cv : OpenCV} {pil : Pillow} {rt : Runtime}
  (st : Config.Settings) image_file text_prompt thr mthr rv w im ins outs all res :
  _load_image_from_upload st image_file = Ok im ->
  processor (TextRequest im text_prompt) = Ok ins ->
  model ins = Ok outs ->
  post_process_instance_segmentation outs thr mthr ins = Ok all ->
  index0 all = Ok res ->
  inference_text st image_file text_prompt thr mthr rv w
  = respond st (perf_counter (clock_reads w)) im res rv
      (World (adapter_log w ++ [ProcessorCalled (TextRequest im text_prompt);
                                ModelCalled; PostProcessCalled])
         (S (clock_reads w))).
Proof.
  intros Hl Hp Hm Hpp Hi.
  unfold inference_text, bind, time_perf_counter, lift, call_processor, call_model,
    call_post_process, logged. cbn [adapter_log clock_reads].
  rewrite Hl, Hp, Hm, Hpp, Hi. rewrite <- !app_assoc. reflexivity.
Qed.

(** X7.  A single-image inference that returns, text or box prompted,
    has called the adapter exactly once, in the order processor, model,
    post-processing, with the loaded image and the prompt it was given,
    and it has read the clock twice. *)
Theorem single_image_adapter_calls
  {cv : OpenCV} {pil : Pillow} {rt : Runtime} (st : Config.Settings)
  (image_file : UploadFile) (thr mthr : Q) (rv : bool) (w w' : world)
  (r : inference_response) (req : image -> adapter_request) :
  ((exists text_prompt,
      req = (fun im => TextRequest im text_prompt)
      /\ inference_text st image_file text_prompt thr mthr rv w = (Ok r, w'))
   \/ (exists bounding_boxes box_labels,
         req = (fun im => BoxRequest im bounding_boxes box_labels)
         /\ inference_bbox st image_file bounding_boxes box_labels thr mthr rv w
            = (Ok r, w'))) ->
  exists im,
    _load_image_from_upload st image_file = Ok im
    /\ adapter_log w'
       = adapter_log w ++ [ProcessorCalled (req im); ModelCalled; PostProcessCalled]
    /\ clock_reads w' = S (S (clock_reads w)).
Proof.
  intros [(p & -> & H) | (bb & bl & -> & H)].
  - apply inference_text_anatomy in H as (im & ins & outs & all & res & Hl & _ & _ & _ & _ & H).
    apply respond_effects in H as ->. cbn [adapter_log clock_reads] in *.
    exists im. auto.
  - apply inference_bbox_anatomy in H as (im & ins & outs & all & res & Hl & _ & _ & _ & _ & H).
    apply respond_effects in H as ->. cbn [adapter_log clock_reads] in *.
    exists im. auto.
Qed.

Lemma single_image_adapter_calls_witness :
  exists r w' im,
    inference_text (cv := Bench.opencv) (pil := Bench.pillow) (rt := Bench.runtime)
      Config.settings Bench.blob_4x4 "cat" (1 # 2) (1 # 2) true initial_world
    = (Ok r, w')
    /\ _load_image_from_upload (pil := Bench.pillow) (rt := Bench.runtime)
         Config.settings Bench.blob_4x4 = Ok im
    /\ adapter_log w'
       = [ProcessorCalled (TextRequest im "cat"); ModelCalled; PostProcessCalled]
    /\ clock_reads w' = 2%nat.
Proof.
  destruct (inference_text (cv := Bench.opencv) (pil := Bench.pillow)
              (rt := Bench.runtime) Config.settings Bench.blob_4x4 "cat"
              (1 # 2) (1 # 2) true initial_world) as [[r|e] w'] eqn:E;
    [|vm_compute in E; discriminate E].
  exists r, w'.
  destruct (single_image_adapter_calls (cv := Bench.opencv) (pil := Bench.pillow)
              (rt := Bench.runtime) Config.settings Bench.blob_4x4 (1 # 2) (1 # 2)
              true initial_world w' r (fun im => TextRequest im "cat")
              (or_introl (ex_intro _ "cat"%string (conj eq_refl E))))
    as (im & Hl & Hlog & Hc).
  exists im. auto.
Defined.

(** X8.  The response of a text inference carries the first entry of
    what the post-processing returned: its boxes and scores unchanged
    and in order, the number of its scores as [num_objects], and one
    polygon entry per mask, converted at the default tolerance 1.5. *)
Theorem response_carries_first_segmentation
  {cv : OpenCV} {pil : Pillow} {rt : Runtime} (st : Config.Settings)
  (image_file : UploadFile) (text_prompt : string) (thr mthr : Q) (rv : bool)
  (w w' : world) (r : inference_response) :
  inference_text st image_file text_prompt thr mthr rv w = (Ok r, w') ->
  exists im ins outs res rest,
    _load_image_from_upload st image_file = Ok im
    /\ processor (TextRequest im text_prompt) = Ok ins
    /\ model ins = Ok outs
    /\ post_process_instance_segmentation outs thr mthr ins = Ok (res :: rest)
    /\ boxes r = seg_boxes res
    /\ scores r = seg_scores res
    /\ num_objects r = len (scores r)
    /\ masks_to_polygon_data findContours approxPolyDP (seg_masks res)
         default_tolerance = Ok (masks r)
    /\ length (masks r) = length (seg_masks res).
Proof.
  intros H.
  apply inference_text_anatomy in H
    as (im & ins & outs & all & res & Hl & Hp & Hm & Hpp & Hi & H).
  destruct all as [|res0 rest]; [discriminate|]. injection Hi as ->.
  apply OrchestratorProperties.respond_ok in H as (Hn & Hb & Hs & Hmp & _).
  exists im, ins, outs, res, rest.
  repeat (split; [assumption|]). split; [congruence|]. split; [exact Hmp|].
  apply ConversionProperties.polygon_data_length in Hmp. exact Hmp.
Qed.

Lemma response_carries_first_segmentation_witness :
  exists r w' im ins outs res rest,
    inference_text (cv := Bench.opencv) (pil := Bench.pillow) (rt := Bench.runtime)
      Config.settings Bench.square_5x5 "cat" (1 # 2) (1 # 2) false initial_world
    = (Ok r, w')
    /\ _load_image_from_upload (pil := Bench.pillow) (rt := Bench.runtime)
         Config.settings Bench.square_5x5 = Ok im
    /\ processor (Runtime := Bench.runtime) (TextRequest im "cat") = Ok ins
    /\ model (Runtime := Bench.runtime) ins = Ok outs
    /\ post_process_instance_segmentation (Runtime := Bench.runtime) outs
         (1 # 2) (1 # 2) ins = Ok (res :: rest)
    /\ boxes r = seg_boxes res
    /\ scores r = seg_scores res
    /\ num_objects r = len (scores r)
    /\ masks_to_polygon_data (findContours (OpenCV := Bench.opencv))
         (approxPolyDP (OpenCV := Bench.opencv)) (seg_masks res)
         default_tolerance = Ok (masks r)
    /\ length (masks r) = length (seg_masks res).
Proof.
  destruct (inference_text (cv := Bench.opencv) (pil := Bench.pillow)
              (rt := Bench.runtime) Config.settings Bench.square_5x5 "cat"
              (1 # 2) (1 # 2) false initial_world) as [[r|e] w'] eqn:E;
    [|vm_compute in E; discriminate E].
  exists r, w'.
  destruct (response_carries_first_segmentation (cv := Bench.opencv)
              (pil := Bench.pillow) (rt := Bench.runtime) Config.settings
              Bench.square_5x5 "cat" (1 # 2) (1 # 2) false initial_world w' r E)
    as (im & ins & outs & res & rest & H).
  exists im, ins, outs, res, rest. split; [reflexivity | exact H].
Defined.

(** Dropping the request for a visualization from a run that returns. *)
Lemma respond_without_visualization {cv : OpenCV} {pil : Pillow} {rt : Runtime}
  (st : Config.Settings) start_time im res w r w' :
  respond st start_time im res true w = (Ok r, w') ->
  exists r' w'',
    respond st start_time im res false w = (Ok r', w'')
    /\ same_geometry r r'
    /\ visualization_base64 r' = None
    /\ adapter_log w'' = adapter_log w'.
Proof.
  unfold respond, bind, lift, time_perf_counter, ret, same_geometry.
  destruct (masks_to_polygon_data _ _ _ _) as [mp|e]; [|discriminate].
  cbn [andb]. destruct (0 <? len (seg_scores res)).
  - destruct (create_visualization _ _ _ _ _ _ _ _) as [viz|e]; [|discriminate].
    intros H. injection H as <- <-. eexists. eexists.
    split; [reflexivity|]. cbn. auto 6.
  - intros H. injection H as <- <-. eexists. eexists.
    split; [reflexivity|]. cbn. auto 6.
Qed.

(** Without a detected object the flag makes no difference. *)
Lemma respond_no_object {cv : OpenCV} {pil : Pillow} {rt : Runtime}
  (st : Config.Settings) start_time im res rv rv' w r w' :
  respond st start_time im res rv w = (Ok r, w') ->
  num_objects r = 0 ->
  respond st start_time im res rv' w = (Ok r, w').
Proof.
  intros H Hz.
  pose proof (OrchestratorProperties.respond_ok _ _ _ _ _ _ _ _ H) as (Hn & _).
  rewrite Hz in Hn. revert H.
  unfold respond, bind, lift, time_perf_counter, ret.
  destruct (masks_to_polygon_data _ _ _ _) as [mp|e]; [|discriminate].
  rewrite <- Hn. cbn [Z.ltb Z.compare]. rewrite !andb_false_r. auto.
Qed.

(** X9.  Asking for the visualization does not change the objects:
    when a text inference with the visualization returns, the same
    request without it returns too, with the same number of objects,
    boxes, scores, polygons and areas, with [visualization_base64] set
    to [None], and after the same calls to the adapter. *)
Theorem visualization_flag_leaves_geometry
  {cv : OpenCV} {pil : Pillow} {rt : Runtime} (st : Config.Settings)
  (image_file : UploadFile) (text_prompt : string) (thr mthr : Q)
  (w w' : world) (r : inference_response) :
  inference_text st image_file text_prompt thr mthr true w = (Ok r, w') ->
  exists r' w'',
    inference_text st image_file text_prompt thr mthr false w = (Ok r', w'')
    /\ same_geometry r r'
    /\ visualization_base64 r' = None
    /\ adapter_log w'' = adapter_log w'.
Proof.
  intros H.
  apply inference_text_anatomy in H
    as (im & ins & outs & all & res & Hl & Hp & Hm & Hpp & Hi & H).
  rewrite (inference_text_steps st image_file text_prompt thr mthr false w
             im ins outs all res Hl Hp Hm Hpp Hi).
  apply respond_without_visualization. exact H.
Qed.

Lemma visualization_flag_leaves_geometry_witness :
  exists r w' r' w'',
    inference_text (cv := Bench.opencv) (pil := Bench.pillow) (rt := Bench.runtime)
      Config.settings Bench.square_5x5 "cat" (1 # 2) (1 # 2) true initial_world
    = (Ok r, w')
    /\ visualization_base64 r <> None
    /\ inference_text (cv := Bench.opencv) (pil := Bench.pillow)
         (rt := Bench.runtime) Config.settings Bench.square_5x5 "cat"
         (1 # 2) (1 # 2) false initial_world = (Ok r', w'')
    /\ same_geometry r r'
    /\ visualization_base64 r' = None
    /\ adapter_log w'' = adapter_log w'.
Proof.
  destruct (inference_text (cv := Bench.opencv) (pil := Bench.pillow)
              (rt := Bench.runtime) Config.settings Bench.square_5x5 "cat"
              (1 # 2) (1 # 2) true initial_world) as [[r|e] w'] eqn:E;
    [|vm_compute in E; discriminate E].
  destruct (visualization_flag_leaves_geometry (cv := Bench.opencv)
              (pil := Bench.pillow) (rt := Bench.runtime) Config.settings
              Bench.square_5x5 "cat" (1 # 2) (1 # 2) initial_world w' r E)
    as (r' & w'' & H).
  exists r, w', r', w''. split; [reflexivity|]. split; [|exact H].
  vm_compute in E. injection E as <- _. discriminate.
Defined.

(** X10.  When a text inference returns with no object detected, the
    same request returns the same response whatever the visualization
    flag: the compositor is not run for zero objects, so a request for
    a visualization cannot fail there. *)
Theorem no_object_no_visualization_attempt
  {cv : OpenCV} {pil : Pillow} {rt : Runtime} (st : Config.Settings)
  (image_file : UploadFile) (text_prompt : string) (thr mthr : Q) (rv rv' : bool)
  (w w' : world) (r : inference_response) :
  inference_text st image_file text_prompt thr mthr rv w = (Ok r, w') ->
  num_objects r = 0 ->
  inference_text st image_file text_prompt thr mthr rv' w = (Ok r, w').
Proof.
  intros H Hz.
  apply inference_text_anatomy in H
    as (im & ins & outs & all & res & Hl & Hp & Hm & Hpp & Hi & H).
  rewrite (inference_text_steps st image_file text_prompt thr mthr rv' w
             im ins outs all res Hl Hp Hm Hpp Hi).
  eapply respond_no_object; eauto.
Qed.

Lemma no_object_no_visualization_attempt_witness :
  exists r w',
    inference_text (cv := Bench.opencv) (pil := Bench.pillow_encoder_down)
      (rt := Bench.runtime) Config.settings Bench.dark_3x3 "cat" (1 # 2) (1 # 2)
      false initial_world = (Ok r, w')
    /\ num_objects r = 0
    /\ inference_text (cv := Bench.opencv) (pil := Bench.pillow_encoder_down)
         (rt := Bench.runtime) Config.settings Bench.dark_3x3 "cat" (1 # 2) (1 # 2)
         true initial_world = (Ok r, w').
Proof.
  destruct (inference_text (cv := Bench.opencv) (pil := Bench.pillow_encoder_down)
              (rt := Bench.runtime) Config.settings Bench.dark_3x3 "cat"
              (1 # 2) (1 # 2) false initial_world) as [[r|e] w'] eqn:E;
    [|vm_compute in E; discriminate E].
  assert (Hz : num_objects r = 0)
    by (vm_compute in E; injection E as <- _; reflexivity).
  exists r, w'. split; [reflexivity|]. split; [exact Hz|].
  apply (no_object_no_visualization_attempt (cv := Bench.opencv)
           (pil := Bench.pillow_encoder_down) (rt := Bench.runtime) Config.settings
           Bench.dark_3x3 "cat" (1 # 2) (1 # 2) false true initial_world w' r E Hz).
Defined.

(** ** More on batches *)

(** The loading loop loads every upload, in order. *)
Lemma load_images_each {pil : Pillow} {rt : Runtime} (st : Config.Settings)
  (image_files : list UploadFile) : forall acc images,
  load_images st image_files acc = Ok images ->
  exists new,
    images = acc ++ new
    /\ Forall2 (fun f im => _load_image_from_upload st f = Ok im) image_files new.
Proof.
  induction image_files as [|f rest IH]; intros acc images H; cbn [load_images] in H.
  - injection H as <-. exists []. rewrite app_nil_r. split; [reflexivity | constructor].
  - destruct (_load_image_from_upload st f) as [im|e] eqn:Hf; cbn [rbind] in H;
      [|discriminate].
    apply IH in H as (new & -> & F). exists (im :: new).
    rewrite <- app_assoc. split; [reflexivity|]. constructor; assumption.
Qed.

(** The steps of a batch inference that returns. *)
Lemma inference_batch_anatomy {cv : OpenCV} {pil : Pillow} {rt : Runtime}
  (st : Config.Settings) image_files text_prompts thr mthr rv w r w' :
  inference_batch st image_files text_prompts thr mthr rv w = (Ok r, w') ->
  exists images ins outs all items,
    len image_files <= Config.MAX_BATCH_SIZE st
    /\ len image_files <> 0
    /\ load_images st image_files [] = Ok images
    /\ processor (BatchRequest images text_prompts) = Ok ins
    /\ model ins = Ok outs
    /\ post_process_instance_segmentation outs thr mthr ins = Ok all
    /\ batch_loop st rv (enumerate (zip images all)) [] = Ok items
    /\ total_images r = len image_files
    /\ results r = items
    /\ w' = World (adapter_log w ++ [ProcessorCalled (BatchRequest images text_prompts);
                                     ModelCalled; PostProcessCalled])
              (S (S (clock_reads w))).
Proof.
  unfold inference_batch, bind, time_perf_counter, lift, call_processor, call_model,
    call_post_process, logged, raise, ret. cbn [adapter_log clock_reads].
  destruct (Z.ltb_spec (Config.MAX_BATCH_SIZE st) (len image_files)) as [?|Hsz];
    [discriminate|].
  destruct (load_images st image_files []) as [images|e]; [|discriminate].
  destruct (processor (BatchRequest images text_prompts)) as [ins|e] eqn:Hp;
    [|discriminate].
  destruct (model ins) as [outs|e] eqn:Hm; [|discriminate].
  destruct (post_process_instance_segmentation outs thr mthr ins) as [all|e] eqn:Hpp;
    [|discriminate].
  destruct (batch_loop st rv (enumerate (zip images all)) []) as [items|e] eqn:Hb;
    [|discriminate].
  unfold py_div. destruct (Z.eqb_spec (len image_files) 0) as [?|Hne]; [discriminate|].
  rewrite <- !app_assoc. cbn [app]. intros H. injection H as <- <-.
  exists images, ins, outs, all, items. cbn [total_images results]. auto 12.
Qed.

(** X11.  A batch larger than [MAX_BATCH_SIZE] is refused with a
    [ValueError] naming its size and the limit, before any upload is
    read or decoded and before the adapter is called; the endpoint,
    given as many prompts as images, answers 400. *)
Theorem oversized_batch_rejected
  {cv : OpenCV} {pil : Pillow} {rt : Runtime} {js : Router.Json}
  (st : Config.Settings) (image_files : list UploadFile)
  (text_prompts : list (option string)) (thr mthr : Q) (rv : bool) (w : world) :
  Config.MAX_BATCH_SIZE st < len image_files ->
  inference_batch st image_files text_prompts thr mthr rv w
  = (Raise (ValueError (BatchSizeExceeded (len image_files)
                          (Config.MAX_BATCH_SIZE st))),
     World (adapter_log w) (S (clock_reads w)))
  /\ forall text,
       Router.json_loads_prompts text = Some text_prompts ->
       len image_files = len text_prompts ->
       Router.inference_batch st image_files text thr mthr rv w
       = (Router.HTTPException 400
            (Router.DetailStr (BatchSizeExceeded (len image_files)
                                 (Config.MAX_BATCH_SIZE st))),
          World (adapter_log w) (S (clock_reads w))).
Proof.
  intros H.
  assert (T : inference_batch st image_files text_prompts thr mthr rv w
              = (Raise (ValueError (BatchSizeExceeded (len image_files)
                                      (Config.MAX_BATCH_SIZE st))),
                 World (adapter_log w) (S (clock_reads w)))).
  { unfold inference_batch, bind, time_perf_counter, raise.
    apply Z.ltb_lt in H. rewrite H. reflexivity. }
  split; [exact T|]. intros text Hj Hlen.
  unfold Router.inference_batch, Router.handlers, bind at 1.
  rewrite Hj. unfold ret at 1.
  apply Z.eqb_eq in Hlen. rewrite Hlen. cbn [negb].
  rewrite (bind_raise _ _ _ _ _ T). reflexivity.
Qed.

Lemma oversized_batch_rejected_witness :
  inference_batch (cv := Bench.opencv) (pil := Bench.pillow) (rt := Bench.runtime)
    Config.settings (repeat Bench.dark_3x3 11) (repeat None 11) (1 # 2) (1 # 2)
    false initial_world
  = (Raise (ValueError (BatchSizeExceeded 11 10)), World [] 1)
  /\ Router.inference_batch (cv := Bench.opencv) (pil := Bench.pillow)
       (rt := Bench.runtime) (js := Bench.json) Config.settings
       (repeat Bench.dark_3x3 11)
       "[null,null,null,null,null,null,null,null,null,null,null]"
       (1 # 2) (1 # 2) false initial_world
     = (Router.HTTPException 400 (Router.DetailStr (BatchSizeExceeded 11 10)),
        World [] 1).
Proof.
  destruct (oversized_batch_rejected (cv := Bench.opencv) (pil := Bench.pillow)
              (rt := Bench.runtime) (js := Bench.json) Config.settings
              (repeat Bench.dark_3x3 11) (repeat None 11) (1 # 2) (1 # 2) false
              initial_world ltac:(vm_compute; reflexivity)) as [A B].
  split; [exact A|].
  apply (B "[null,null,null,null,null,null,null,null,null,null,null]"%string);
    vm_compute; reflexivity.
Defined.

(** X12.  A batch inference that returns has put every upload through
    [_load_image_from_upload], in order, and has called the adapter
    once for the whole batch, whatever the number of images: one
    processor call with all the images and all the prompts, one model
    call, one post-processing call.  The clock was read twice. *)
Theorem batch_calls_adapter_once
  {cv : OpenCV} {pil : Pillow} {rt : Runtime} (st : Config.Settings)
  (image_files : list UploadFile) (text_prompts : list (option string))
  (thr mthr : Q) (rv : bool) (w w' : world) (r : batch_response) :
  inference_batch st image_files text_prompts thr mthr rv w = (Ok r, w') ->
  exists images,
    Forall2 (fun f im => _load_image_from_upload st f = Ok im) image_files images
    /\ adapter_log w'
       = adapter_log w ++ [ProcessorCalled (BatchRequest images text_prompts);
                           ModelCalled; PostProcessCalled]
    /\ clock_reads w' = S (S (clock_reads w)).
Proof.
  intros H.
  apply inference_batch_anatomy in H
    as (images & ins & outs & all & items & _ & _ & Hl & _ & _ & _ & _ & _ & _ & ->).
  apply load_images_each in Hl as (new & -> & F). cbn [app] in *.
  exists new. cbn [adapter_log clock_reads]. auto.
Qed.

Lemma batch_calls_adapter_once_witness :
  exists r w' images,
    inference_batch (cv := Bench.opencv) (pil := Bench.pillow) (rt := Bench.runtime)
      Config.settings [Bench.square_5x5; Bench.blob_4x4; Bench.dark_3x3]
      [Some "cat"; None; Some "dog"]%string (1 # 2) (1 # 2) false initial_world
    = (Ok r, w')
    /\ Forall2 (fun f im =>
                  _load_image_from_upload (pil := Bench.pillow)
                    (rt := Bench.runtime) Config.settings f = Ok im)
         [Bench.square_5x5; Bench.blob_4x4; Bench.dark_3x3] images
    /\ adapter_log w'
       = [ProcessorCalled (BatchRequest images [Some "cat"; None; Some "dog"]%string);
          ModelCalled; PostProcessCalled]
    /\ clock_reads w' = 2%nat.
Proof.
  destruct (inference_batch (cv := Bench.opencv) (pil := Bench.pillow)
              (rt := Bench.runtime) Config.settings
              [Bench.square_5x5; Bench.blob_4x4; Bench.dark_3x3]
              [Some "cat"; None; Some "dog"]%string (1 # 2) (1 # 2) false
              initial_world) as [[r|e] w'] eqn:E;
    [|vm_compute in E; discriminate E].
  exists r, w'.
  destruct (batch_calls_adapter_once (cv := Bench.opencv) (pil := Bench.pillow)
              (rt := Bench.runtime) Config.settings
              [Bench.square_5x5; Bench.blob_4x4; Bench.dark_3x3]
              [Some "cat"; None; Some "dog"]%string (1 # 2) (1 # 2) false
              initial_world w' r E) as (images & F & Hlog & Hc).
  exists images. auto.
Defined.

(** X13.  A batch response that is returned counts at least one image
    and at most [MAX_BATCH_SIZE]; its results are numbered by position
    from 0, and there are as many as images, or as entries the
    post-processing returned if those are fewer. *)
Theorem batch_response_shape
  {cv : OpenCV} {pil : Pillow} {rt : Runtime} (st : Config.Settings)
  (image_files : list UploadFile) (text_prompts : list (option string))
  (thr mthr : Q) (rv : bool) (w w' : world) (r : batch_response) :
  inference_batch st image_files text_prompts thr mthr rv w = (Ok r, w') ->
  total_images r = len image_files
  /\ 1 <= total_images r <= Config.MAX_BATCH_SIZE st
  /\ map image_index (results r)
     = map Z.of_nat (seq 0 (length (results r)))
  /\ exists images ins outs all,
       processor (BatchRequest images text_prompts) = Ok ins
       /\ model ins = Ok outs
       /\ post_process_instance_segmentation outs thr mthr ins = Ok all
       /\ length (results r) = Nat.min (length image_files) (length all).
Proof.
  intros H.
  apply inference_batch_anatomy in H
    as (images & ins & outs & all & items & Hsz & Hne & Hl & Hp & Hm & Hpp & Hb
        & Ht & Hr & _).
  rewrite Ht, Hr. split; [reflexivity|].
  split; [unfold len in *; lia|].
  apply OrchestratorProperties.load_images_length in Hl. cbn [length] in Hl.
  unfold enumerate, zip in Hb.
  apply OrchestratorProperties.batch_loop_indices in Hb as (new & -> & Hnew).
  cbn [app].
  assert (Hlen : length new = length (combine images all)).
  { apply (f_equal (@length Z)) in Hnew. now rewrite !length_map, length_seq in Hnew. }
  split; [rewrite Hlen; exact Hnew|].
  exists images, ins, outs, all. repeat (split; [assumption|]).
  rewrite Hlen, length_combine, Hl. reflexivity.
Qed.

Lemma batch_response_shape_witness :
  exists r w',
    inference_batch (cv := Bench.opencv) (pil := Bench.pillow) (rt := Bench.runtime)
      Config.settings [Bench.square_5x5; Bench.blob_4x4; Bench.dark_3x3]
      [Some "cat"; None; Some "dog"]%string (1 # 2) (1 # 2) false initial_world
    = (Ok r, w')
    /\ total_images r = 3
    /\ 1 <= total_images r <= Config.MAX_BATCH_SIZE Config.settings
    /\ map image_index (results r) = map Z.of_nat (seq 0 (length (results r))).
Proof.
  destruct (inference_batch (cv := Bench.opencv) (pil := Bench.pillow)
              (rt := Bench.runtime) Config.settings
              [Bench.square_5x5; Bench.blob_4x4; Bench.dark_3x3]
              [Some "cat"; None; Some "dog"]%string (1 # 2) (1 # 2) false
              initial_world) as [[r|e] w'] eqn:E;
    [|vm_compute in E; discriminate E].
  exists r, w'.
  destruct (batch_response_shape (cv := Bench.opencv) (pil := Bench.pillow)
              (rt := Bench.runtime) Config.settings
              [Bench.square_5x5; Bench.blob_4x4; Bench.dark_3x3]
              [Some "cat"; None; Some "dog"]%string (1 # 2) (1 # 2) false
              initial_world w' r E) as (Ht & Hb & Hi & _).
  split; [reflexivity|]. split; [exact Ht|]. split; [exact Hb | exact Hi].
Defined.

(** The converse: the steps determine the run of a batch. *)
Lemma inference_batch_steps {cv : OpenCV} {pil : Pillow} {rt : Runtime}
  (st : Config.Settings) image_files text_prompts thr mthr rv w
  images ins outs all items :
  len image_files <= Config.MAX_BATCH_SIZE st ->
  len image_files <> 0 ->
  load_images st image_files [] = Ok images ->
  processor (BatchRequest images text_prompts) = Ok ins ->
  model ins = Ok outs ->
  post_process_instance_segmentation outs thr mthr ins = Ok all ->
  batch_loop st rv (enumerate (zip images all)) [] = Ok items ->
  inference_batch st image_files text_prompts thr mthr rv w
  = (Ok (BatchResponse (len image_files) items
           (round2 ((perf_counter (S (clock_reads w))
                     - perf_counter (clock_reads w)) * 1000))
           (round2 ((perf_counter (S (clock_reads w))
                     - perf_counter (clock_reads w)) * 1000
                    / inject_Z (len image_files)))),
     World (adapter_log w ++ [ProcessorCalled (BatchRequest images text_prompts);
                              ModelCalled; PostProcessCalled])
       (S (S (clock_reads w)))).
Proof.
  intros Hsz Hne Hl Hp Hm Hpp Hb.
  apply Z.ltb_ge in Hsz. apply Z.eqb_neq in Hne.
  unfold inference_batch, bind, time_perf_counter, lift, call_processor, call_model,
    call_post_process, logged, ret, py_div. cbn [adapter_log clock_reads].
  rewrite Hsz, Hl, Hp, Hm, Hpp, Hb, Hne. rewrite <- !app_assoc. reflexivity.
Qed.

(** The batch loop builds for an image what the single-image code
    builds for it. *)
Lemma batch_item_of_respond {cv : OpenCV} {pil : Pillow} {rt : Runtime}
  (st : Config.Settings) start_time im res rv w r w' idx :
  respond st start_time im res rv w = (Ok r, w') ->
  batch_item_of st rv idx im res
  = Ok (BatchItem (Z.of_nat idx) (num_objects r) (boxes r) (scores r) (masks r)
          (visualization_base64 r)).
Proof.
  unfold respond, batch_item_of, bind, lift, time_perf_counter, ret.
  destruct (masks_to_polygon_data _ _ _ _) as [mp|e]; [|discriminate].
  cbn [rbind]. destruct (rv && (0 <? len (seg_scores res))).
  - destruct (create_visualization _ _ _ _ _ _ _ _) as [viz|e]; [|discriminate].
    intros H. injection H as <- _. reflexivity.
  - intros H. injection H as <- _. reflexivity.
Qed.

(** X14.  A batch of one image agrees with the single-image text
    inference: when the latter returns and the adapter answers the
    batched call for this image and prompt with the same first
    segmentation, [inference_batch] returns one result, with index 0
    and the same objects, boxes, scores, polygons and visualization. *)
Theorem batch_of_one_matches_single
  {cv : OpenCV} {pil : Pillow} {rt : Runtime} (st : Config.Settings)
  (image_file : UploadFile) (text_prompt : string) (thr mthr : Q) (rv : bool)
  (w w1 : world) (r : inference_response) :
  1 <= Config.MAX_BATCH_SIZE st ->
  inference_text st image_file text_prompt thr mthr rv w = (Ok r, w1) ->
  (forall im ins outs all,
     _load_image_from_upload st image_file = Ok im ->
     processor (TextRequest im text_prompt) = Ok ins ->
     model ins = Ok outs ->
     post_process_instance_segmentation outs thr mthr ins = Ok all ->
     exists ins' outs' all',
       processor (BatchRequest [im] [Some text_prompt]) = Ok ins'
       /\ model ins' = Ok outs'
       /\ post_process_instance_segmentation outs' thr mthr ins' = Ok all'
       /\ index0 all' = index0 all) ->
  exists rb w2,
    inference_batch st [image_file] [Some text_prompt] thr mthr rv w = (Ok rb, w2)
    /\ total_images rb = 1
    /\ results rb
       = [BatchItem 0 (num_objects r) (boxes r) (scores r) (masks r)
            (visualization_base64 r)].
Proof.
  intros Hmax H Hsame.
  apply inference_text_anatomy in H
    as (im & ins & outs & all & res & Hl & Hp & Hm & Hpp & Hi & H).
  destruct (Hsame im ins outs all Hl Hp Hm Hpp) as (ins' & outs' & all' & Hp' & Hm' & Hpp' & Hi').
  rewrite Hi in Hi'. destruct all' as [|res' rest']; [discriminate|].
  injection Hi' as ->.
  pose proof (batch_item_of_respond st _ im res rv _ r w1 0%nat H) as Hitem.
  eexists. eexists. split.
  - apply (inference_batch_steps st [image_file] [Some text_prompt] thr mthr rv w
             [im] ins' outs' (res :: rest')
             [BatchItem 0 (num_objects r) (boxes r) (scores r) (masks r)
                (visualization_base64 r)]).
    + exact Hmax.
    + discriminate.
    + cbn [load_images]. rewrite Hl. reflexivity.
    + exact Hp'.
    + exact Hm'.
    + exact Hpp'.
    + cbn [enumerate zip combine length seq batch_loop]. rewrite Hitem. reflexivity.
  - split; reflexivity.
Qed.

Lemma batch_of_one_matches_single_witness :
  exists r w1 rb w2,
    inference_text (cv := Bench.opencv) (pil := Bench.pillow) (rt := Bench.runtime)
      Config.settings Bench.square_5x5 "cat" (1 # 2) (1 # 2) true initial_world
    = (Ok r, w1)
    /\ inference_batch (cv := Bench.opencv) (pil := Bench.pillow)
         (rt := Bench.runtime) Config.settings [Bench.square_5x5] [Some "cat"%string]
         (1 # 2) (1 # 2) true initial_world = (Ok rb, w2)
    /\ total_images rb = 1
    /\ results rb
       = [BatchItem 0 (num_objects r) (boxes r) (scores r) (masks r)
            (visualization_base64 r)].
Proof.
  destruct (inference_text (cv := Bench.opencv) (pil := Bench.pillow)
              (rt := Bench.runtime) Config.settings Bench.square_5x5 "cat"
              (1 # 2) (1 # 2) true initial_world) as [[r|e] w1] eqn:E;
    [|vm_compute in E; discriminate E].
  exists r, w1.
  destruct (batch_of_one_matches_single (cv := Bench.opencv) (pil := Bench.pillow)
              (rt := Bench.runtime) Config.settings Bench.square_5x5 "cat"
              (1 # 2) (1 # 2) true initial_world w1 r
              ltac:(vm_compute; discriminate) E) as (rb & w2 & H).
  - intros im ins outs all Hl Hp Hm Hpp.
    cbn in Hp, Hm, Hpp. injection Hp as <-. injection Hm as <-. injection Hpp as <-.
    eexists. eexists. eexists.
    split; [reflexivity|]. split; [reflexivity|]. split; reflexivity.
  - exists rb, w2. split; [reflexivity | exact H].
Defined.

End PipelineProperties.

(** ** More on the endpoints *)

Module EndpointProperties.
Import MaskUtils Visualizer Inference Spec Measures InferenceFacts.

(** X15.  The batch endpoint validates its prompts before anything
    else: text that is not JSON, or a prompt list whose length differs
    from the number of images, is answered with 400 and the matching
    message, and the world is left as it was: no upload has been read,
    the clock has not been started, the adapter has not been called. *)
Theorem batch_endpoint_validates_prompts
  {cv : OpenCV} {pil : Pillow} {rt : Runtime} {js : Router.Json}
  (st : Config.Settings) (images : list UploadFile) (text_prompts : string)
  (thr mthr : Q) (rv : bool) (w : world) :
  match Router.json_loads_prompts text_prompts with
  | None => True
  | Some prompts_list => len images <> len prompts_list
  end ->
  Router.inference_batch st images text_prompts thr mthr rv w
  = (Router.HTTPException 400
       (Router.DetailStr
          match Router.json_loads_prompts text_prompts with
          | None => InvalidJson "text_prompts"
          | Some prompts_list => LengthMismatch (len images) (len prompts_list)
          end), w).
Proof.
  unfold Router.inference_batch, Router.handlers, bind, raise, ret.
  destruct (Router.json_loads_prompts text_prompts) as [ps|]; intros H.
  - apply Z.eqb_neq in H. rewrite H. reflexivity.
  - reflexivity.
Qed.

Lemma batch_endpoint_validates_prompts_witness :
  Router.inference_batch (cv := Bench.opencv) (pil := Bench.pillow)
    (rt := Bench.runtime) (js := Bench.json) Config.settings
    [Bench.square_5x5; Bench.blob_4x4] "[null]" (1 # 2) (1 # 2) false initial_world
  = (Router.HTTPException 400 (Router.DetailStr (LengthMismatch 2 1)), initial_world)
  /\ Router.inference_batch (cv := Bench.opencv) (pil := Bench.pillow)
       (rt := Bench.runtime) (js := Bench.json) Config.settings
       [Bench.square_5x5; Bench.blob_4x4] "cat,dog" (1 # 2) (1 # 2) false
       initial_world
     = (Router.HTTPException 400 (Router.DetailStr (InvalidJson "text_prompts")),
        initial_world).
Proof.
  split.
  - apply (batch_endpoint_validates_prompts (cv := Bench.opencv)
             (pil := Bench.pillow) (rt := Bench.runtime) (js := Bench.json)
             Config.settings [Bench.square_5x5; Bench.blob_4x4] "[null]"
             (1 # 2) (1 # 2) false initial_world).
    vm_compute. discriminate.
  - apply (batch_endpoint_validates_prompts (cv := Bench.opencv)
             (pil := Bench.pillow) (rt := Bench.runtime) (js := Bench.json)
             Config.settings [Bench.square_5x5; Bench.blob_4x4] "cat,dog"
             (1 # 2) (1 # 2) false initial_world).
    vm_compute. exact I.
Defined.

Lemma item_in_range (b : list Z) (i : nat) :
  (i < length b)%nat -> Router.item b i = Ok (nth i b 0).
Proof.
  intros H. unfold Router.item.
  destruct (nth_error b i) as [v|] eqn:E.
  - f_equal. apply (nth_error_nth b i 0) in E. congruence.
  - apply nth_error_None in E. lia.
Qed.

Lemma item_out_of_range (b : list Z) (i : nat) :
  (length b <= i)%nat -> Router.item b i = Raise IndexError.
Proof.
  intros H. unfold Router.item.
  apply nth_error_None in H. rewrite H. reflexivity.
Qed.

Lemma four_items (b : list Z) :
  (4 <= length b)%nat -> [nth 0 b 0; nth 1 b 0; nth 2 b 0; nth 3 b 0] = firstn 4 b.
Proof.
  destruct b as [|b0 [|b1 [|b2 [|b3 rest]]]]; cbn [length]; intros H;
    try lia. reflexivity.
Qed.

Lemma extract_boxes_ok boxes_data :
  Forall (fun b => (4 <= length b)%nat) boxes_data ->
  Router.extract_boxes boxes_data = Ok (map (firstn 4) boxes_data).
Proof.
  induction 1 as [|b rest Hb _ IH]; [reflexivity|].
  cbn [Router.extract_boxes map].
  rewrite !item_in_range by lia. cbn [rbind]. rewrite IH. cbn [rbind].
  now rewrite (four_items b Hb).
Qed.

Lemma extract_boxes_short boxes_data :
  Exists (fun b => (length b < 4)%nat) boxes_data ->
  Router.extract_boxes boxes_data = Raise IndexError.
Proof.
  induction boxes_data as [|b rest IH]; intros H; [inversion H|].
  cbn [Router.extract_boxes].
  destruct (Nat.lt_ge_cases (length b) 4) as [Hs|Hl].
  - destruct b as [|b0 [|b1 [|b2 [|b3 r]]]]; cbn [length] in Hs; try lia; reflexivity.
  - rewrite !item_in_range by lia. cbn [rbind].
    rewrite IH; [reflexivity|]. inversion H; subst; [lia | assumption].
Qed.

Lemma extract_labels_default boxes_data :
  Router.extract_labels boxes_data = map (fun b => nth 4 b 1) boxes_data.
Proof.
  unfold Router.extract_labels. apply map_ext. intros b.
  destruct (Nat.ltb_spec 4 (length b)) as [_|Hs]; [reflexivity|].
  symmetry. apply nth_overflow. exact Hs.
Qed.

(** X16.  The box prompts are read off the parsed JSON as follows:
    every box must have at least 4 numbers, of which the first four
    are the box; otherwise the extraction raises [IndexError].  The
    label of a box is its fifth number, or 1 (positive) when it has
    none; further numbers are ignored. *)
Theorem box_prompts_extraction (boxes_data : list (list Z)) :
  (forall boxes,
     Router.extract_boxes boxes_data = Ok boxes
     <-> Forall (fun b => (4 <= length b)%nat) boxes_data
         /\ boxes = map (firstn 4) boxes_data)
  /\ (forall e,
        Router.extract_boxes boxes_data = Raise e
        <-> e = IndexError /\ Exists (fun b => (length b < 4)%nat) boxes_data)
  /\ Router.extract_labels boxes_data = map (fun b => nth 4 b 1) boxes_data.
Proof.
  assert (D : Forall (fun b => (4 <= length b)%nat) boxes_data
              \/ Exists (fun b => (length b < 4)%nat) boxes_data).
  { induction boxes_data as [|b rest IH]; [left; constructor|].
    destruct (Nat.lt_ge_cases (length b) 4) as [Hs|Hl].
    - right. constructor. exact Hs.
    - destruct IH as [IH|IH]; [left; constructor; assumption | right; now constructor 2]. }
  assert (N : Forall (fun b => (4 <= length b)%nat) boxes_data ->
              Exists (fun b => (length b < 4)%nat) boxes_data -> False).
  { intros F E. apply Exists_exists in E as (b & Hin & Hs).
    rewrite Forall_forall in F. specialize (F b Hin). lia. }
  split; [|split].
  - intros boxes. split.
    + intros H. destruct D as [F|E].
      * rewrite (extract_boxes_ok _ F) in H. injection H as <-. auto.
      * rewrite (extract_boxes_short _ E) in H. discriminate.
    + intros [F ->]. apply extract_boxes_ok, F.
  - intros e. split.
    + intros H. destruct D as [F|E].
      * rewrite (extract_boxes_ok _ F) in H. discriminate.
      * rewrite (extract_boxes_short _ E) in H. injection H as <-. auto.
    + intros [-> E]. apply extract_boxes_short, E.
  - unfold Router.extract_labels. apply map_ext. intros b.
    destruct (Nat.ltb_spec 4 (length b)) as [_|Hs]; [reflexivity|].
    symmetry. apply nth_overflow. exact Hs.
Qed.

(** On three boxes: with a label, without a label, with a sixth
    number. *)
Example box_prompts_on_three_boxes :
  Router.extract_boxes [[1; 2; 3; 4; 0]; [5; 6; 7; 8]; [9; 10; 11; 12; 1; 99]]
  = Ok [[1; 2; 3; 4]; [5; 6; 7; 8]; [9; 10; 11; 12]]
  /\ Router.extract_labels [[1; 2; 3; 4; 0]; [5; 6; 7; 8]; [9; 10; 11; 12; 1; 99]]
     = [0; 1; 1]
  /\ Router.extract_boxes [[1; 2; 3; 4]; [5; 6; 7]] = Raise IndexError.
Proof. repeat split. Qed.

(** X17.  The box endpoint answers 400 to text that is not JSON, but
    500 "Inference failed" to a box list in which some box has fewer
    than 4 numbers: the [IndexError] is not a [ValueError].  In both
    cases the world is left as it was: the upload has not been read. *)
Theorem box_endpoint_rejects_bad_boxes
  {cv : OpenCV} {pil : Pillow} {rt : Runtime} {js : Router.Json}
  (st : Config.Settings) (image : UploadFile) (bounding_boxes : string)
  (thr mthr : Q) (rv : bool) (w : world) :
  match Router.json_loads_boxes bounding_boxes with
  | None => True
  | Some boxes_data => Exists (fun b => (length b < 4)%nat) boxes_data
  end ->
  Router.inference_bbox st image bounding_boxes thr mthr rv w
  = (match Router.json_loads_boxes bounding_boxes with
     | None => Router.HTTPException 400 (Router.DetailStr (InvalidJson "bounding_boxes"))
     | Some _ => Router.HTTPException 500 (Router.DetailText "Inference failed")
     end, w).
Proof.
  unfold Router.inference_bbox, Router.handlers, bind, raise, ret, lift.
  destruct (Router.json_loads_boxes bounding_boxes) as [data|]; intros H.
  - rewrite (extract_boxes_short _ H). reflexivity.
  - reflexivity.
Qed.

Lemma box_endpoint_rejects_bad_boxes_witness :
  Router.inference_bbox (cv := Bench.opencv) (pil := Bench.pillow)
    (rt := Bench.runtime) (js := Bench.json) Config.settings Bench.square_5x5
    "[[0,0,4]]" (1 # 2) (1 # 2) false initial_world
  = (Router.HTTPException 500 (Router.DetailText "Inference failed"), initial_world)
  /\ Router.inference_bbox (cv := Bench.opencv) (pil := Bench.pillow)
       (rt := Bench.runtime) (js := Bench.json) Config.settings Bench.square_5x5
       "0,0,4,4" (1 # 2) (1 # 2) false initial_world
     = (Router.HTTPException 400 (Router.DetailStr (InvalidJson "bounding_boxes")),
        initial_world).
Proof.
  split.
  - apply (box_endpoint_rejects_bad_boxes (cv := Bench.opencv) (pil := Bench.pillow)
             (rt := Bench.runtime) (js := Bench.json) Config.settings
             Bench.square_5x5 "[[0,0,4]]" (1 # 2) (1 # 2) false initial_world).
    vm_compute. constructor. lia.
  - apply (box_endpoint_rejects_bad_boxes (cv := Bench.opencv) (pil := Bench.pillow)
             (rt := Bench.runtime) (js := Bench.json) Config.settings
             Bench.square_5x5 "0,0,4,4" (1 # 2) (1 # 2) false initial_world).
    vm_compute. exact I.
Defined.

(** X18.  With well-formed boxes the box endpoint runs
    [inference_bbox] on the first four numbers of every box and on the
    labels; when that returns, the endpoint answers 200 with exactly
    that result and a message counting its objects. *)
Theorem box_endpoint_serves_result
  {cv : OpenCV} {pil : Pillow} {rt : Runtime} {js : Router.Json}
  (st : Config.Settings) (image : UploadFile) (bounding_boxes : string)
  (boxes_data : list (list Z)) (thr mthr : Q) (rv : bool) (w w' : world)
  (r : inference_response) :
  Router.json_loads_boxes bounding_boxes = Some boxes_data ->
  Forall (fun b => (4 <= length b)%nat) boxes_data ->
  inference_bbox st image (map (firstn 4) boxes_data)
    (map (fun b => nth 4 b 1) boxes_data) thr mthr rv w = (Ok r, w') ->
  Router.inference_bbox st image bounding_boxes thr mthr rv w
  = (Router.JsonResponse r (Router.FoundWithBoxes (num_objects r)) 200, w').
Proof.
  intros Hj Hf H.
  pose proof (extract_labels_default boxes_data) as Hlab.
  unfold Router.inference_bbox, Router.handlers, bind, raise, ret, lift.
  rewrite Hj, (extract_boxes_ok _ Hf), Hlab, H. reflexivity.
Qed.

Lemma box_endpoint_serves_result_witness :
  exists r w',
    inference_bbox (cv := Bench.opencv) (pil := Bench.pillow) (rt := Bench.runtime)
      Config.settings Bench.square_5x5 [[0; 0; 4; 4]; [1; 1; 2; 2]] [1; 0]
      (1 # 2) (1 # 2) false initial_world = (Ok r, w')
    /\ Router.inference_bbox (cv := Bench.opencv) (pil := Bench.pillow)
         (rt := Bench.runtime) (js := Bench.json) Config.settings Bench.square_5x5
         "[[0,0,4,4],[1,1,2,2,0]]" (1 # 2) (1 # 2) false initial_world
       = (Router.JsonResponse r (Router.FoundWithBoxes (num_objects r)) 200, w').
Proof.
  destruct (inference_bbox (cv := Bench.opencv) (pil := Bench.pillow)
              (rt := Bench.runtime) Config.settings Bench.square_5x5
              [[0; 0; 4; 4]; [1; 1; 2; 2]] [1; 0] (1 # 2) (1 # 2) false
              initial_world) as [[r|e] w'] eqn:E;
    [|vm_compute in E; discriminate E].
  exists r, w'. split; [reflexivity|].
  apply (box_endpoint_serves_result (cv := Bench.opencv) (pil := Bench.pillow)
           (rt := Bench.runtime) (js := Bench.json) Config.settings
           Bench.square_5x5 "[[0,0,4,4],[1,1,2,2,0]]"
           [[0; 0; 4; 4]; [1; 1; 2; 2; 0]] (1 # 2) (1 # 2) false initial_world w' r).
  - vm_compute. reflexivity.
  - repeat constructor.
  - exact E.
Defined.

(** X19.  When the model call raises, a text inference raises the same
    exception after exactly a processor call and a model call; the
    endpoint answers 400 if the exception is a [ValueError], whoever
    raised it, and 500 "Inference failed" otherwise. *)
Theorem model_failure_fails_request
  {cv : OpenCV} {pil : Pillow} {rt : Runtime} (st : Config.Settings)
  (image_file : UploadFile) (text_prompt : string) (thr mthr : Q) (rv : bool)
  (w : world) (im : image) (ins : inputs) (e : exn) :
  _load_image_from_upload st image_file = Ok im ->
  processor (TextRequest im text_prompt) = Ok ins ->
  model ins = Raise e ->
  inference_text st image_file text_prompt thr mthr rv w
  = (Raise e,
     World (adapter_log w ++ [ProcessorCalled (TextRequest im text_prompt); ModelCalled])
       (S (clock_reads w)))
  /\ Router.inference_text st image_file text_prompt thr mthr rv w
     = (match e with
        | ValueError v => Router.HTTPException 400 (Router.DetailStr v)
        | _ => Router.HTTPException 500 (Router.DetailText "Inference failed")
        end,
        World (adapter_log w ++ [ProcessorCalled (TextRequest im text_prompt);
                                 ModelCalled])
          (S (clock_reads w))).
Proof.
  intros Hl Hp Hm.
  assert (T : inference_text st image_file text_prompt thr mthr rv w
              = (Raise e,
                 World (adapter_log w ++ [ProcessorCalled (TextRequest im text_prompt);
                                          ModelCalled])
                   (S (clock_reads w)))).
  { unfold inference_text, bind, time_perf_counter, lift, call_processor, call_model,
      logged. cbn [adapter_log clock_reads].
    rewrite Hl, Hp, Hm. rewrite <- !app_assoc. reflexivity. }
  split; [exact T|].
  unfold Router.inference_text, Router.handlers.
  rewrite (bind_raise _ _ _ _ _ T). destruct e; reflexivity.
Qed.

Lemma model_failure_fails_request_witness :
  inference_text (cv := Bench.opencv) (pil := Bench.pillow)
    (rt := Bench.runtime_model_down) Config.settings Bench.dark_3x3 "cat"
    (1 # 2) (1 # 2) false initial_world
  = (Raise (LibraryError "RuntimeError: CUDA out of memory"),
     World [ProcessorCalled (TextRequest (Image "RGB" (3, 3) (repeat 0 9)) "cat");
            ModelCalled] 1)
  /\ Router.inference_text (cv := Bench.opencv) (pil := Bench.pillow)
       (rt := Bench.runtime_model_down) Config.settings Bench.dark_3x3 "cat"
       (1 # 2) (1 # 2) false initial_world
     = (Router.HTTPException 500 (Router.DetailText "Inference failed"),
        World [ProcessorCalled (TextRequest (Image "RGB" (3, 3) (repeat 0 9)) "cat");
               ModelCalled] 1).
Proof.
  apply (model_failure_fails_request (cv := Bench.opencv) (pil := Bench.pillow)
           (rt := Bench.runtime_model_down) Config.settings Bench.dark_3x3 "cat"
           (1 # 2) (1 # 2) false initial_world (Image "RGB" (3, 3) (repeat 0 9))
           (TextRequest (Image "RGB" (3, 3) (repeat 0 9)) "cat")
           (LibraryError "RuntimeError: CUDA out of memory")).
  - vm_compute. reflexivity.
  - reflexivity.
  - reflexivity.
Defined.

End EndpointProperties.

(** ** More on the compositor *)

Module ColorProperties.
Import MaskUtils Visualizer.




End ColorProperties.
